(** * The AI analysis pipeline of [ai_engine.py]

    A shallow embedding of [AgentOrchestrator], [TechnicalAgent] and
    [PricingAgent]: the qualification gate, the two completion-client stages,
    the win-probability heuristic, the recommendation tiers and the fallback
    policy.

    Conventions.
    - A Python [str] is the list of its code points ([pystr]).
    - A Python [float] is an IEEE 754 binary64 value ([F64.f64]): every finite
      double is an integer multiple of 2^-1074, and the model stores that
      integer; an operation computes the exact result and rounds it to the
      nearest double, ties to even.
    - A Python [dict] is a [gmap] from keys to values.
    - An exception deriving from [Exception] is a value of [exn]; a call is a
      function into [res], and stateful calls thread the orchestrator object
      and the log of completion requests ([M]).
    - [print] encodes its text for standard output, which is taken to be
      open, and raises [UnicodeEncodeError] when the stream has no encoding
      for one of the code points; what is written is not kept. An f-string
      formats the values in its holes first, which can raise as well. *)

From Stdlib Require Import ZArith String Ascii Lia.
From stdpp Require Import gmap list.

Set Warnings "-register-all".

(** ** Strings *)

Definition pystr := list N.

(** The code points of a literal of the source. *)
Definition str (s : string) : pystr :=
  map N_of_ascii (list_ascii_of_string s).

(** ** binary64 *)

Module F64.
Local Open Scope Z_scope.

(** The exponent of the smallest subnormal: one unit is 2^-1074. *)
Definition emin : Z := 1074.
Definition unit_inv : Z := 2 ^ emin.

(** The first magnitude, in units, above the largest finite double
    (2^1024 = 2^2098 units). *)
Definition huge : Z := 2 ^ 2098.

Inductive f64 :=
| Fnan
| Finf (neg : bool)
| Fnzero                (* -0.0 *)
| Ffin (k : Z).         (* k * 2^-1074; [Ffin 0] is +0.0 *)

(** Nearest integer to [a / b], ties to even ([0 <= a], [0 < b]). *)
Definition rne (a b : Z) : Z :=
  let q := a / b in
  match 2 * (a mod b) ?= b with
  | Lt => q
  | Gt => q + 1
  | Eq => if Z.even q then q else q + 1
  end.

(** Spacing exponent of the doubles around a magnitude of [n] units: doubles
    below 2^53 units (subnormals and the first normal binade) are one unit
    apart, and the spacing doubles with every further bit. *)
Definition ulp_exp (n : Z) : Z := Z.max 0 (Z.log2 n - 52).

(** Magnitude [p / q] units ([0 <= p], [0 < q]) rounded to a multiple of the
    spacing of its binade. *)
Definition round_mag (p q : Z) : Z :=
  let s := ulp_exp (p / q) in
  rne p (q * 2 ^ s) * 2 ^ s.

(** The double nearest to the magnitude [p / q] units with sign [neg]. *)
Definition round_f64 (neg : bool) (p q : Z) : f64 :=
  let m := round_mag p q in
  if huge <=? m then Finf neg
  else if m =? 0 then (if neg then Fnzero else Ffin 0)
  else Ffin (if neg then - m else m).

Definition sign (x : f64) : bool :=
  match x with
  | Fnan => false
  | Finf neg => neg
  | Fnzero => true
  | Ffin k => k <? 0
  end.

(** Value of a finite double, in units. *)
Definition units (x : f64) : Z :=
  match x with
  | Ffin k => k
  | _ => 0
  end.

Definition is_finite (x : f64) : bool :=
  match x with
  | Fnzero | Ffin _ => true
  | _ => false
  end.

Definition is_zero (x : f64) : bool :=
  match x with
  | Fnzero | Ffin 0 => true
  | _ => false
  end.

(** [float(n)] for an integer that fits; the caller raises [OverflowError]
    on [Finf]. *)
Definition of_Z (n : Z) : f64 :=
  round_f64 (n <? 0) (Z.abs n * unit_inv) 1.

(** The double denoted by the decimal literal [num / den]. *)
Definition of_decimal (num den : Z) : f64 :=
  round_f64 false (num * unit_inv) den.

Definition mul (x y : f64) : f64 :=
  match x, y with
  | Fnan, _ | _, Fnan => Fnan
  | Finf s, _ => if is_zero y then Fnan else Finf (xorb s (sign y))
  | _, Finf s => if is_zero x then Fnan else Finf (xorb (sign x) s)
  | _, _ =>
      round_f64 (xorb (sign x) (sign y))
        (Z.abs (units x) * Z.abs (units y)) unit_inv
  end.

Definition add (x y : f64) : f64 :=
  match x, y with
  | Fnan, _ | _, Fnan => Fnan
  | Finf s, Finf t => if Bool.eqb s t then Finf s else Fnan
  | Finf s, _ => Finf s
  | _, Finf t => Finf t
  | _, _ =>
      let s := units x + units y in
      if s =? 0 then (if sign x && sign y then Fnzero else Ffin 0)
      else round_f64 (s <? 0) (Z.abs s) 1
  end.

Definition opp (x : f64) : f64 :=
  match x with
  | Fnan => Fnan
  | Finf s => Finf (negb s)
  | Fnzero => Ffin 0
  | Ffin 0 => Fnzero
  | Ffin k => Ffin (- k)
  end.

Definition sub (x y : f64) : f64 := add x (opp y).

(** [round(x, 2)] of CPython: the decimal with two fractional digits nearest
    to the exact value of [x] (ties to even), converted back to the nearest
    double. Infinities and NaN round to themselves. *)
Definition round2 (x : f64) : f64 :=
  match x with
  | Fnan | Finf _ => x
  | _ =>
      let n := rne (Z.abs (units x) * 100) unit_inv in
      round_f64 (sign x) (n * unit_inv) 100
  end.

(** Order. [None] is the unordered outcome (a NaN operand). *)
Definition compare (x y : f64) : option comparison :=
  match x, y with
  | Fnan, _ | _, Fnan => None
  | Finf sx, Finf sy =>
      Some (if Bool.eqb sx sy then Eq else if sx then Lt else Gt)
  | Finf sx, _ => Some (if sx then Lt else Gt)
  | _, Finf sy => Some (if sy then Gt else Lt)
  | _, _ => Some (units x ?= units y)
  end.

End F64.

(** ** Python values *)

(** The values that reach the pipeline: what [json.loads] builds and what the
    callers put into the RFP dictionary. *)
Inductive pyval :=
| PNone
| PBool (b : bool)
| PInt (n : Z)
| PFloat (x : F64.f64)
| PStr (s : pystr)
| PList (l : list pyval)
| PDict (d : gmap pystr pyval).

(** A dictionary display [{k1: v1, ...}]. *)
Definition mkdict (kvs : list (pystr * pyval)) : gmap pystr pyval :=
  list_to_map kvs.

(** Exceptions deriving from [Exception]. *)
Inductive exn :=
| TypeError
| AttributeError
| OverflowError
| FileNotFoundError
| JSONDecodeError
| UnicodeEncodeError
| RecursionError
| OtherError (name : string)
| ClientError (message : pystr).

(** [str(e)], the text an f-string puts in place of [{e}]. The interpreter's
    own messages are ASCII; their wording is not kept, the name of the class
    stands for it. An exception of a library brings its own text. *)
Definition exn_text (e : exn) : pystr :=
  match e with
  | TypeError => str "TypeError"
  | AttributeError => str "AttributeError"
  | OverflowError => str "OverflowError"
  | FileNotFoundError => str "FileNotFoundError"
  | JSONDecodeError => str "JSONDecodeError"
  | UnicodeEncodeError => str "UnicodeEncodeError"
  | RecursionError => str "RecursionError"
  | OtherError name => str name
  | ClientError message => message
  end.

Inductive res (A : Type) :=
| Ok (a : A)
| Raise (e : exn).
Arguments Ok {A} a.
Arguments Raise {A} e.

Definition res_bind {A B} (r : res A) (k : A -> res B) : res B :=
  match r with
  | Ok a => k a
  | Raise e => Raise e
  end.

(** [try: r  except Exception: h] *)
Definition res_try {A} (r : res A) (h : exn -> res A) : res A :=
  match r with
  | Ok a => Ok a
  | Raise e => h e
  end.

Notation "'let?' x ':=' e 'in' k" := (res_bind e (fun x => k))
  (at level 10, x name, e at level 100, k at level 200,
   format "'[v' 'let?'  x  ':='  e  'in' '/' k ']'").

(** ** Numbers *)

(** A Python number: [int] (with [bool], its subclass) or [float]. *)
Inductive num :=
| NInt (n : Z)
| NFloat (x : F64.f64).

Definition as_num (v : pyval) : option num :=
  match v with
  | PBool b => Some (NInt (if b then 1 else 0))
  | PInt n => Some (NInt n)
  | PFloat x => Some (NFloat x)
  | _ => None
  end.

Definition of_num (a : num) : pyval :=
  match a with
  | NInt n => PInt n
  | NFloat x => PFloat x
  end.

(** Python compares an [int] with a [float] by their exact values. *)
Definition num_compare (a b : num) : option comparison :=
  match a, b with
  | NInt m, NInt n => Some (m ?= n)%Z
  | NFloat x, NFloat y => F64.compare x y
  | NInt m, NFloat y =>
      match y with
      | F64.Fnan => None
      | F64.Finf s => Some (if s then Gt else Lt)
      | _ => Some (m * F64.unit_inv ?= F64.units y)%Z
      end
  | NFloat x, NInt n =>
      match x with
      | F64.Fnan => None
      | F64.Finf s => Some (if s then Lt else Gt)
      | _ => Some (F64.units x ?= n * F64.unit_inv)%Z
      end
  end.

Definition num_lt (a b : num) : bool :=
  match num_compare a b with Some Lt => true | _ => false end.
Definition num_gt (a b : num) : bool :=
  match num_compare a b with Some Gt => true | _ => false end.
Definition num_le (a b : num) : bool :=
  match num_compare a b with Some Lt | Some Eq => true | _ => false end.
Definition num_ge (a b : num) : bool :=
  match num_compare a b with Some Gt | Some Eq => true | _ => false end.
Definition num_eq (a b : num) : bool :=
  match num_compare a b with Some Eq => true | _ => false end.

(** [v <op> c] for an [int] constant [c]: only a number on the left is
    comparable with it. *)
Definition py_cmp_int (op : num -> num -> bool) (v : pyval) (c : Z)
  : res bool :=
  match as_num v with
  | Some a => Ok (op a (NInt c))
  | None => Raise TypeError
  end.

(** [min(a, b)] and [max(a, b)] keep the first argument unless the second
    is strictly smaller (larger). *)
Definition py_min (a b : num) : num := if num_lt b a then b else a.
Definition py_max (a b : num) : num := if num_gt b a then b else a.

(** [float(n)] *)
Definition int_to_float (n : Z) : res F64.f64 :=
  match F64.of_Z n with
  | F64.Finf _ => Raise OverflowError
  | x => Ok x
  end.

Definition to_float (a : num) : res F64.f64 :=
  match a with
  | NInt n => int_to_float n
  | NFloat x => Ok x
  end.

(** [v * c] for a [float] constant [c]. *)
Definition py_mul_float (v : pyval) (c : F64.f64) : res F64.f64 :=
  match as_num v with
  | Some a => let? x := to_float a in Ok (F64.mul x c)
  | None => Raise TypeError
  end.

(** [round(a, 2)]: an [int] is returned as it is; a [float] raises
    [OverflowError] when the rounded value is not finite. *)
Definition py_round2 (a : num) : res num :=
  match a with
  | NInt n => Ok (NInt n)
  | NFloat x =>
      match F64.round2 x with
      | F64.Finf s => if F64.is_finite x then Raise OverflowError
                      else Ok (NFloat (F64.Finf s))
      | y => Ok (NFloat y)
      end
  end.

(** The float literals of the source. *)
Definition f0_7 : F64.f64 := F64.of_decimal 7 10.
Definition f100_0 : F64.f64 := F64.of_Z 100.
Definition f50_0 : F64.f64 := F64.of_Z 50.
Definition f45_0 : F64.f64 := F64.of_Z 45.
Definition f20_0 : F64.f64 := F64.of_Z 20.

(** ** Strings of the cleaning step *)

Definition backtick : N := 96.

(** ["```json"] and ["```"] *)
Definition fence_json : pystr := str "```json".
Definition fence : pystr := str "```".

Fixpoint is_prefix (p s : pystr) : bool :=
  match p, s with
  | [], _ => true
  | a :: p', b :: s' => N.eqb a b && is_prefix p' s'
  | _ :: _, [] => false
  end.

(** [s.replace(old, new)] for a non-empty [old]: scan from the left; at an
    occurrence of [old] emit [new] and continue after it. [skip] counts the
    characters of the current occurrence still to be passed over. *)
Fixpoint replace_from (old new : pystr) (skip : nat) (s : pystr) : pystr :=
  match s with
  | [] => []
  | c :: s' =>
      match skip with
      | S k => replace_from old new k s'
      | O =>
          if is_prefix old s
          then new ++ replace_from old new (length old - 1) s'
          else c :: replace_from old new 0 s'
      end
  end.

Definition replace (old new s : pystr) : pystr := replace_from old new 0 s.

(** [str.isspace] on one character. *)
Definition isspace (c : N) : bool :=
  ((9 <=? c) && (c <=? 13) || (28 <=? c) && (c <=? 32)
   || (c =? 133) || (c =? 160) || (c =? 5760)
   || (8192 <=? c) && (c <=? 8202)
   || (c =? 8232) || (c =? 8233) || (c =? 8239) || (c =? 8287)
   || (c =? 12288))%N.

Fixpoint lstrip (s : pystr) : pystr :=
  match s with
  | [] => []
  | c :: s' => if isspace c then lstrip s' else s
  end.

Definition rstrip (s : pystr) : pystr := rev (lstrip (rev s)).

(** [s.strip()] *)
Definition strip (s : pystr) : pystr := rstrip (lstrip s).

(** [text.replace("```json", "").replace("```", "").strip()] *)
Definition clean (text : pystr) : pystr :=
  strip (replace fence [] (replace fence_json [] text)).

(** ** The outside world *)

(** A prompt is an f-string template of the source with its holes filled in;
    the fixed text of the template is not kept, the holes are. The pricing
    prompt keeps the two values whose text fills its holes: [calculate_costs]
    formats them before it sends the request. *)
Inductive prompt :=
| TechnicalPrompt (sku_data rfp_text : pystr)
| PricingPrompt (pricing_data : pystr) (matched_skus specs : pyval).

(** What the pipeline calls and does not define. *)
Record Env := {
  (** [genai.GenerativeModel(MODEL_NAME)] *)
  new_model : res unit;
  (** [open(filename, "r")] followed by [f.read()] *)
  read_file : pystr -> res pystr;
  (** [model.generate_content(prompt)] followed by [response.text] *)
  generate_content : prompt -> res pystr;
  (** [json.loads] *)
  json_loads : pystr -> res pyval;
  (** the text an f-string puts in place of [{value}] when the value is
      not a string: [format(value, "")] *)
  format_value : pyval -> res pystr;
  (** whether the encoding of standard output has the code point *)
  stdout_encodes : N -> bool
}.

(** The text an f-string puts in place of [{value}]: a string stands for
    itself and [None] reads ["None"]. *)
Definition py_format (E : Env) (value : pyval) : res pystr :=
  match value with
  | PStr s => Ok s
  | PNone => Ok (str "None")
  | _ => format_value E value
  end.

(** Every encoding of standard output has the ASCII code points. *)
Definition printable (E : Env) (text : pystr) : bool :=
  forallb (fun c => (c <? 128)%N || stdout_encodes E c) text.

(** [print(text)] *)
Definition print (E : Env) (text : pystr) : res unit :=
  if printable E text then Ok tt else Raise UnicodeEncodeError.

Record TechnicalAgent := { sku_data : pystr }.
Record PricingAgent := { pricing_data : pystr }.

(** The [AgentOrchestrator] object with its three lazily filled attributes,
    and the completion requests sent so far. *)
Record world := {
  _model : option unit;
  _tech_agent : option TechnicalAgent;
  _pricing_agent : option PricingAgent;
  requests : list prompt
}.

Definition M (A : Type) : Type := world -> res A * world.

Definition ret {A} (a : A) : M A := fun w => (Ok a, w).
Definition raise {A} (e : exn) : M A := fun w => (Raise e, w).
Definition bind {A B} (m : M A) (k : A -> M B) : M B :=
  fun w =>
    match m w with
    | (Ok a, w') => k a w'
    | (Raise e, w') => (Raise e, w')
    end.
Definition lift {A} (r : res A) : M A := fun w => (r, w).
Definition get : M world := fun w => (Ok w, w).
Definition put (w' : world) : M unit := fun _ => (Ok tt, w').

(** [try: m  except Exception: h]; what [m] did to the world stays done. *)
Definition try_except {A} (m : M A) (h : exn -> M A) : M A :=
  fun w =>
    match m w with
    | (Ok a, w') => (Ok a, w')
    | (Raise e, w') => h e w'
    end.

Notation "'let*' x ':=' e 'in' k" := (bind e (fun x => k))
  (at level 10, x name, e at level 100, k at level 200,
   format "'[v' 'let*'  x  ':='  e  'in' '/' k ']'").

(** ** The source *)

Definition load_repository_file (E : Env) (filename : pystr) : res pystr :=
  res_try (read_file E filename)
    (fun e =>
       match e with
       | FileNotFoundError =>
           Ok (str "Error: " ++ filename
               ++ str " not found. Please ensure Admin has uploaded it.")
       | _ => Raise e
       end).

(** The verdict dictionary [{"qualified": ..., "reason": ...}]. *)
Record verdict := { qualified : bool; reason : pystr }.

Section Pipeline.

Variable E : Env.

(** *** [TechnicalAgent] *)

Definition TechnicalAgent_init : res TechnicalAgent :=
  let? data := load_repository_file E (str "sku_repository.txt") in
  Ok {| sku_data := data |}.

(** Sending a prompt: the request is logged, the client answers or raises. *)
Definition generate (p : prompt) : M pystr :=
  fun w =>
    (generate_content E p,
     {| _model := _model w; _tech_agent := _tech_agent w;
        _pricing_agent := _pricing_agent w;
        requests := requests w ++ [p] |}).

Definition specs_error : pyval :=
  PDict (mkdict
    [ (str "spec_match_score", PInt 0);
      (str "standardized_specs", PDict (mkdict
         [ (str "product_type", PStr (str "Error"));
           (str "voltage_rating", PStr (str "Error"));
           (str "material", PStr (str "Error"));
           (str "durability_rating", PStr (str "Error"));
           (str "compliance_standards", PStr (str "Error")) ]));
      (str "matched_skus", PList []) ]).

(** The body of the [try] of [analyze_specs]. *)
Definition analyze_specs_try (self : TechnicalAgent) (rfp_text : pystr)
  : M pyval :=
  let* text := generate (TechnicalPrompt (sku_data self) rfp_text) in
  let cleaned_text := clean text in
  lift (json_loads E cleaned_text).

(** [print(f"Technical Agent Error: {e}")] *)
Definition technical_agent_error (e : exn) : res unit :=
  print E (str "Technical Agent Error: " ++ exn_text e).

Definition analyze_specs (self : TechnicalAgent) (rfp_text : pystr)
  : M pyval :=
  try_except (analyze_specs_try self rfp_text)
    (fun e =>
       let* _ := lift (technical_agent_error e) in
       ret specs_error).

(** *** [PricingAgent] *)

Definition PricingAgent_init : res PricingAgent :=
  let? data := load_repository_file E (str "pricing_repository.txt") in
  Ok {| pricing_data := data |}.

Definition costs_error : pyval :=
  PDict (mkdict [ (str "margin", PInt 0); (str "total_bid_value", PInt 0) ]).

Definition calculate_costs_try (self : PricingAgent)
    (matched_skus specs : pyval) : M pyval :=
  let* text :=
    generate (PricingPrompt (pricing_data self) matched_skus specs) in
  let cleaned_text := clean text in
  lift (json_loads E cleaned_text).

(** [print(f"Pricing Agent Error: {e}")] *)
Definition pricing_agent_error (e : exn) : res unit :=
  print E (str "Pricing Agent Error: " ++ exn_text e).

(** The holes [{matched_skus}] and [{specs}] of the prompt are formatted
    before the [try] is entered. *)
Definition calculate_costs (self : PricingAgent)
    (matched_skus specs : pyval) : M pyval :=
  let* _ := lift (py_format E matched_skus) in
  let* _ := lift (py_format E specs) in
  try_except (calculate_costs_try self matched_skus specs)
    (fun e =>
       let* _ := lift (pricing_agent_error e) in
       ret costs_error).

(** *** [AgentOrchestrator] *)

(** The [model] property. *)
Definition model : M unit :=
  let* w := get in
  match _model w with
  | Some m => ret m
  | None =>
      let* m := lift (new_model E) in
      let* w := get in
      let* _ := put {| _model := Some m; _tech_agent := _tech_agent w;
                       _pricing_agent := _pricing_agent w;
                       requests := requests w |} in
      ret m
  end.

(** The [tech_agent] property. *)
Definition tech_agent : M TechnicalAgent :=
  let* w := get in
  match _tech_agent w with
  | Some a => ret a
  | None =>
      let* _ := model in
      let* a := lift TechnicalAgent_init in
      let* w := get in
      let* _ := put {| _model := _model w; _tech_agent := Some a;
                       _pricing_agent := _pricing_agent w;
                       requests := requests w |} in
      ret a
  end.

(** The [pricing_agent] property. *)
Definition pricing_agent : M PricingAgent :=
  let* w := get in
  match _pricing_agent w with
  | Some a => ret a
  | None =>
      let* _ := model in
      let* a := lift PricingAgent_init in
      let* w := get in
      let* _ := put {| _model := _model w; _tech_agent := _tech_agent w;
                       _pricing_agent := Some a;
                       requests := requests w |} in
      ret a
  end.

(** The body of the [try] of [check_qualification_constraints]. *)
Definition check_qualification_constraints_try
    (rfp_data : gmap pystr pyval) : res verdict :=
  let budget := default (PInt 0) (rfp_data !! str "budget") in
  let? low := py_cmp_int num_le budget 0 in
  if low
  then Ok {| qualified := false;
             reason := str "Budget not specified or invalid" |}
  else Ok {| qualified := true;
             reason := str "Meets all qualification criteria" |}.

(** The handler prints the exception first; the body raises nothing but the
    [TypeError] of the comparison, whose text is ASCII, so that print cannot
    fail and is not kept. *)
Definition check_qualification_constraints
    (rfp_data : gmap pystr pyval) : res verdict :=
  res_try (check_qualification_constraints_try rfp_data)
    (fun _ =>
       Ok {| qualified := true;
             reason :=
               str "Constraint check failed, proceeding with analysis" |}).

Definition calculate_win_probability (match_score margin : pyval)
  : res num :=
  let? base_prob := py_mul_float match_score f0_7 in
  let? high := py_cmp_int num_gt margin 18 in
  let? base_prob :=
    if high then Ok (F64.add base_prob (F64.of_Z 15))
    else
      let? low := py_cmp_int num_lt margin 10 in
      if low then Ok (F64.sub base_prob (F64.of_Z 10))
      else Ok base_prob in
  let? rounded := py_round2 (NFloat base_prob) in
  Ok (py_max (NInt 0) (py_min rounded (NFloat f100_0))).

(** [obj.get(key, default)]: only a dictionary has the method. *)
Definition py_get (obj : pyval) (key : pystr) (dflt : pyval) : res pyval :=
  match obj with
  | PDict d => Ok (default dflt (d !! key))
  | _ => Raise AttributeError
  end.

(** [a and b], where [b] is evaluated only when [a] holds. *)
Definition and_then (a : bool) (b : res bool) : res bool :=
  if a then b else Ok false.

(** The recommendation and its reason (the [if]/[elif] chain of
    [run_analysis]). *)
Definition recommend (win_probability : num) (spec_match_score : pyval)
  : res (pystr * pystr) :=
  let? sel := and_then (num_ge win_probability (NInt 70))
                (py_cmp_int num_ge spec_match_score 75) in
  if sel then
    Ok (str "SELECT - High confidence recommendation",
        str "Excellent match with strong win probability and high specification alignment.")
  else
    let? con := and_then (num_ge win_probability (NInt 50))
                  (py_cmp_int num_ge spec_match_score 60) in
    if con then
      Ok (str "CONSIDER - Moderate confidence",
          str "Good potential with reasonable win probability and acceptable specification match.")
    else if num_ge win_probability (NInt 30) then
      Ok (str "REVIEW - Low confidence",
          str "Marginal win probability, requires careful evaluation of competition and pricing.")
    else
      Ok (str "REJECT - Not recommended",
          str "Low win probability and poor specification match suggest pursuing other opportunities.").

Definition suggest_specs : pystr :=
  str "Consider adjusting technical specifications to better match available product portfolio".
Definition suggest_pricing : pystr :=
  str "Review pricing strategy - current margin may be too aggressive for market conditions".
Definition suggest_aligned : pystr :=
  str "Proposal appears well-aligned with requirements - focus on competitive pricing and delivery timeline".

(** The suggestions list of [run_analysis]. *)
Definition make_suggestions (win_probability : num)
    (spec_match_score : pyval) : res (list pystr) :=
  let suggestions := [] in
  let? weak := py_cmp_int num_lt spec_match_score 70 in
  let suggestions :=
    if weak then suggestions ++ [suggest_specs] else suggestions in
  let suggestions :=
    if num_lt win_probability (NInt 60)
    then suggestions ++ [suggest_pricing] else suggestions in
  let suggestions :=
    if Nat.eqb (List.length suggestions) 0
    then suggestions ++ [suggest_aligned] else suggestions in
  Ok suggestions.

(** The result returned when the gate rejects. *)
Definition rejected_result (constraint_check : verdict)
  : gmap pystr pyval :=
  mkdict
    [ (str "spec_match_score", PInt 0);
      (str "win_probability", PInt 0);
      (str "extracted_specs", PDict (mkdict []));
      (str "financial_analysis", PDict (mkdict []));
      (str "recommendation",
        PStr (str "REJECT - Does not meet qualification criteria"));
      (str "recommendation_reason", PStr (reason constraint_check));
      (str "suggestions",
        PList [ PStr (str "Review qualification criteria with admin");
                PStr (str "Consider adjusting RFP requirements") ]);
      (str "agent_status", PStr (str "completed")) ].

(** The result returned by the [except] clause of [run_analysis]. *)
Definition fallback_result : gmap pystr pyval :=
  mkdict
    [ (str "spec_match_score", PFloat f50_0);
      (str "win_probability", PFloat f45_0);
      (str "extracted_specs", PDict (mkdict
         [ (str "product_type", PStr (str "Analysis Failed"));
           (str "voltage_rating", PStr (str "Analysis Failed"));
           (str "material", PStr (str "Analysis Failed"));
           (str "durability_rating", PStr (str "Analysis Failed"));
           (str "compliance_standards", PStr (str "Analysis Failed")) ]));
      (str "financial_analysis", PDict (mkdict
         [ (str "breakdown", PDict (mkdict
              [ (str "material_cost", PInt 0);
                (str "service_fees", PInt 0);
                (str "applied_fees_list", PList []) ]));
           (str "total_cost_internal", PInt 0);
           (str "total_bid_value", PInt 0);
           (str "margin", PFloat f20_0);
           (str "currency", PStr (str "USD")) ]));
      (str "recommendation", PStr (str "REVIEW - Low confidence"));
      (str "recommendation_reason",
        PStr (str "AI analysis failed, using fallback values. Manual review recommended."));
      (str "suggestions",
        PList [ PStr (str "Re-run AI analysis when service is available");
                PStr (str "Manually review RFP requirements against company capabilities") ]);
      (str "agent_status", PStr (str "completed")) ].

(** The result returned at the end of the [try] of [run_analysis]. *)
Definition analysis_result (spec_match_score extracted_specs matched_skus
    financial_analysis : pyval) (win_probability : num)
    (rec : pystr * pystr) (suggestions : list pystr) : gmap pystr pyval :=
  mkdict
    [ (str "spec_match_score", spec_match_score);
      (str "extracted_specs", extracted_specs);
      (str "matched_skus", matched_skus);
      (str "financial_analysis", financial_analysis);
      (str "win_probability", of_num win_probability);
      (str "recommendation", PStr (fst rec));
      (str "recommendation_reason", PStr (snd rec));
      (str "suggestions", PList (map PStr suggestions));
      (str "agent_status", PStr (str "completed")) ].

(** The body of the [try] of [run_analysis]. *)
Definition run_analysis_try (rfp_text : pystr) : M (gmap pystr pyval) :=
  let* agent := tech_agent in
  let* tech_result := analyze_specs agent rfp_text in
  let* agent := pricing_agent in
  let* matched_skus := lift (py_get tech_result (str "matched_skus") (PList [])) in
  let* specs :=
    lift (py_get tech_result (str "standardized_specs") (PDict (mkdict []))) in
  let* pricing_result := calculate_costs agent matched_skus specs in
  let* spec_match_score :=
    lift (py_get tech_result (str "spec_match_score") (PInt 0)) in
  let* margin := lift (py_get pricing_result (str "margin") (PInt 20)) in
  let* win_probability :=
    lift (calculate_win_probability spec_match_score margin) in
  let* rec := lift (recommend win_probability spec_match_score) in
  let* suggestions :=
    lift (make_suggestions win_probability spec_match_score) in
  let* extracted :=
    lift (py_get tech_result (str "standardized_specs") (PDict (mkdict []))) in
  let* skus := lift (py_get tech_result (str "matched_skus") (PList [])) in
  ret (analysis_result spec_match_score extracted skus pricing_result
         win_probability rec suggestions).

(** The text analysed: title and description on two lines. *)
Definition rfp_text_of (rfp_data : gmap pystr pyval) : res pystr :=
  let? title := py_format E (default (PStr []) (rfp_data !! str "title")) in
  let? description :=
    py_format E (default (PStr []) (rfp_data !! str "description")) in
  Ok (str "Title: " ++ title ++ [10%N] ++ str "Description: "
      ++ description).

(** [print(f"AI Analysis Error: {e}")] *)
Definition analysis_error (e : exn) : res unit :=
  print E (str "AI Analysis Error: " ++ exn_text e).

(** From the line that builds [rfp_text] to the end: the text is built
    before the [try] is entered. *)
Definition run_analysis_main (rfp_data : gmap pystr pyval)
  : M (gmap pystr pyval) :=
  let* rfp_text := lift (rfp_text_of rfp_data) in
  try_except (run_analysis_try rfp_text)
    (fun e =>
       let* _ := lift (analysis_error e) in
       ret fallback_result).

(** The first statement: [print(f"AI Orchestrator: Analyzing RFP
    '{rfp_data.get('title')}' using Gemini AI...")]. *)
Definition announce (rfp_data : gmap pystr pyval) : res unit :=
  let? title := py_format E (default PNone (rfp_data !! str "title")) in
  print E (str "AI Orchestrator: Analyzing RFP '" ++ title
           ++ str "' using Gemini AI...").

Definition run_analysis (rfp_data : gmap pystr pyval)
    (check_constraints : bool) : M (gmap pystr pyval) :=
  let* _ := lift (announce rfp_data) in
  if check_constraints then
    let* constraint_check := lift (check_qualification_constraints rfp_data) in
    if negb (qualified constraint_check)
    then ret (rejected_result constraint_check)
    else run_analysis_main rfp_data
  else run_analysis_main rfp_data.

End Pipeline.

(** The orchestrator as the module creates it. *)
Definition orchestrator : world :=
  {| _model := None; _tech_agent := None; _pricing_agent := None;
     requests := [] |}.

(** ** Sample environments *)

(** A stand-in for [json.loads] that knows the texts of [table] and raises
    [JSONDecodeError] on every other text. It is used only on texts whose
    parse is the one [json.loads] computes. *)
Fixpoint json_lookup (table : list (pystr * pyval)) (s : pystr)
  : res pyval :=
  match table with
  | [] => Raise JSONDecodeError
  | (t, v) :: table' =>
      if decide (t = s) then Ok v else json_lookup table' s
  end.

(** [json.loads("{}")] is [{}] and [json.loads("[]")] is [[]]. *)
Definition json_table : list (pystr * pyval) :=
  [ (str "{}", PDict (mkdict [])); (str "[]", PList []) ].

(** The nesting of lists in a value. *)
Fixpoint nesting (v : pyval) : nat :=
  match v with
  | PList l => S (foldr (fun x n => Nat.max (nesting x) n) 0%nat l)
  | _ => 0%nat
  end.

(** The interpreter's default recursion limit. *)
Definition recursion_limit : nat := 1000.

(** A stand-in for [format(value, "")]: [RecursionError] on a list nested
    deeper than the recursion limit, [[]] for the empty list; the text of
    any other value is left empty, no sample depends on it. *)
Definition sample_format (v : pyval) : res pystr :=
  match v with
  | PList [] => Ok (str "[]")
  | _ =>
      if (recursion_limit <? nesting v)%nat then Raise RecursionError
      else Ok []
  end.

(** Standard output encoded as UTF-8: every code point but the
    surrogates. *)
Definition utf8_encodes (c : N) : bool :=
  negb ((55296 <=? c)%N && (c <=? 57343)%N).

(** An environment whose client answers every prompt with [reply]; the
    repository files are missing. *)
Definition sample_env (reply : res pystr) : Env :=
  {| new_model := Ok tt;
     read_file := fun _ => Raise FileNotFoundError;
     generate_content := fun _ => reply;
     json_loads := json_lookup json_table;
     format_value := sample_format;
     stdout_encodes := utf8_encodes |}.

(** An environment in which the model handle cannot be created. *)
Definition broken_env : Env :=
  {| new_model := Raise (OtherError "DefaultCredentialsError");
     read_file := fun _ => Raise FileNotFoundError;
     generate_content := fun _ => Raise (OtherError "ServiceUnavailable");
     json_loads := json_lookup json_table;
     format_value := sample_format;
     stdout_encodes := utf8_encodes |}.

Definition verdict_rejected : verdict :=
  {| qualified := false; reason := str "Budget not specified or invalid" |}.
Definition verdict_accepted : verdict :=
  {| qualified := true; reason := str "Meets all qualification criteria" |}.
Definition verdict_fail_open : verdict :=
  {| qualified := true;
     reason := str "Constraint check failed, proceeding with analysis" |}.

(** The budget the gate looks at: the value under ["budget"], 0 when the
    key is absent. *)
Definition budget_of (rfp_data : gmap pystr pyval) : pyval :=
  default (PInt 0) (rfp_data !! str "budget").

(** An RFP of the callers: title, description and budget. *)
Definition rfp_with_budget (budget : pyval) : gmap pystr pyval :=
  mkdict [ (str "title", PStr (str "Cable supply"));
           (str "description", PStr (str "11kV XLPE cable"));
           (str "budget", budget) ].

(** The text [run_analysis] builds from it. *)
Definition sample_rfp_text : pystr :=
  str "Title: Cable supply" ++ [10%N] ++ str "Description: 11kV XLPE cable".

Definition rfp_without_budget : gmap pystr pyval :=
  mkdict [ (str "title", PStr (str "Cable supply"));
           (str "description", PStr (str "11kV XLPE cable")) ].

(** The four recommendation tiers, with the label and the reason the source
    attaches to each. *)
Inductive tier := SELECT | CONSIDER | REVIEW | REJECT.

Definition tier_label (t : tier) : pystr :=
  match t with
  | SELECT => str "SELECT - High confidence recommendation"
  | CONSIDER => str "CONSIDER - Moderate confidence"
  | REVIEW => str "REVIEW - Low confidence"
  | REJECT => str "REJECT - Not recommended"
  end.

Definition tier_reason (t : tier) : pystr :=
  match t with
  | SELECT => str "Excellent match with strong win probability and high specification alignment."
  | CONSIDER => str "Good potential with reasonable win probability and acceptable specification match."
  | REVIEW => str "Marginal win probability, requires careful evaluation of competition and pricing."
  | REJECT => str "Low win probability and poor specification match suggest pursuing other opportunities."
  end.

(** The first word of a label. *)
Definition tier_name (t : tier) : pystr :=
  match t with
  | SELECT => str "SELECT"
  | CONSIDER => str "CONSIDER"
  | REVIEW => str "REVIEW"
  | REJECT => str "REJECT"
  end.

(** [a >= c] and [a < c] for an integer threshold [c]. *)
Definition at_least (a : num) (c : Z) : Prop := num_ge a (NInt c) = true.
Definition below (a : num) (c : Z) : Prop := num_lt a (NInt c) = true.

(** The value under [key] of a result dictionary is the string [s]. *)
Definition has_str (r : gmap pystr pyval) (key s : string) : Prop :=
  r !! str key = Some (PStr (str s)).

(** The gate lets the RFP through, or is not consulted. *)
Definition gate_open (rfp_data : gmap pystr pyval)
    (check_constraints : bool) : Prop :=
  check_constraints = false
  \/ exists v, check_qualification_constraints rfp_data = Ok v
               /\ qualified v = true.

(** The five specification fields, all set to [s]. *)
Definition specs_all (s : string) : pyval :=
  PDict (mkdict
    [ (str "product_type", PStr (str s));
      (str "voltage_rating", PStr (str s));
      (str "material", PStr (str s));
      (str "durability_rating", PStr (str s));
      (str "compliance_standards", PStr (str s)) ]).

(** [p in s]: [p] occurs in [s] as a substring. *)
Fixpoint occurs (p s : pystr) : bool :=
  is_prefix p s
  || match s with
     | [] => false
     | _ :: s' => occurs p s'
     end.

(** A text without any backtick. *)
Definition no_backtick (t : pystr) : Prop := Forall (fun c => c <> backtick) t.

(** The text [t] wrapped in a Markdown code fence:
    ["```json\n" + t + "\n```"]. *)
Definition fenced (t : pystr) : pystr :=
  fence_json ++ [10%N] ++ t ++ [10%N] ++ fence.

(** The environment [E] with a client that answers every prompt with the
    text [t]. *)
Definition with_reply (E : Env) (t : pystr) : Env :=
  {| new_model := new_model E;
     read_file := read_file E;
     generate_content := fun _ => Ok t;
     json_loads := json_loads E;
     format_value := format_value E;
     stdout_encodes := stdout_encodes E |}.

(** A key of the extraction shape is missing from a parsed response. *)
Definition lacks_required_key (v : pyval) : Prop :=
  match v with
  | PDict d =>
      d !! str "spec_match_score" = None
      \/ d !! str "standardized_specs" = None
      \/ d !! str "matched_skus" = None
  | _ => True
  end.

(** The name [s] between double quotes, as it stands in a JSON text. *)
Definition quoted (s : string) : pystr := [34%N] ++ str s ++ [34%N].

(** A JSON text whose string value holds fences, and the same text with the
    fences taken out of the value. *)
Definition note_with_fences : pystr :=
  str "{" ++ quoted "note" ++ str ": "
  ++ [34%N] ++ str "run ```make``` first" ++ [34%N] ++ str "}".
Definition note_without_fences : pystr :=
  str "{" ++ quoted "note" ++ str ": "
  ++ [34%N] ++ str "run make first" ++ [34%N] ++ str "}".

(** *** The scoring formula as the specification words it *)

(** Clamping to [0, 100]. *)
Definition clamp_0_100 (a : num) : num :=
  py_max (NInt 0) (py_min a (NFloat f100_0)).

(** [base = matchScore * 0.7]; plus 15 if [marginPercent > 18], else minus
    10 if [marginPercent < 10]; clamp to [0, 100]; round to 2 decimal
    places. *)
Definition score_spec (matchScore marginPercent : pyval) : res num :=
  let? base := py_mul_float matchScore f0_7 in
  let? above := py_cmp_int num_gt marginPercent 18 in
  let? base :=
    if above then Ok (F64.add base (F64.of_Z 15))
    else
      let? under := py_cmp_int num_lt marginPercent 10 in
      if under then Ok (F64.sub base (F64.of_Z 10))
      else Ok base in
  py_round2 (clamp_0_100 (NFloat base)).

(** Two outcomes are the same: the same exception, or numbers that Python's
    [==] finds equal (it does not tell [0] from [0.0]). *)
Definition same_outcome (r1 r2 : res num) : Prop :=
  match r1, r2 with
  | Ok a, Ok b => num_eq a b = true
  | Raise e1, Raise e2 => e1 = e2
  | _, _ => False
  end.

(** A magnitude that a double can have: below [huge] and a multiple of the
    spacing of its binade. *)
Definition representable (m : Z) : Prop :=
  (0 <= m < F64.huge)%Z /\ (2 ^ F64.ulp_exp m | m)%Z.

(** A value of [f64] that is a double. *)
Definition valid (x : F64.f64) : Prop :=
  match x with
  | F64.Ffin k => representable (Z.abs k)
  | _ => True
  end.

(** The magnitude of a finite double, in units. *)
Definition mag (x : F64.f64) : Z := Z.abs (F64.units x).

(** ** The callers of [run_analysis] ([main.py], [cron_scheduler.py]) *)

(** The dictionary [analyze_rfp] and [run_ai_on_pending_rfps] pass to
    [run_analysis]. *)
Definition caller_rfp (title description approximate_budget : pyval)
  : gmap pystr pyval :=
  mkdict [ (str "title", title);
           (str "description", description);
           (str "budget", approximate_budget) ].

(** [update_data], the fields the callers store from the result. *)
Definition update_data (results : gmap pystr pyval) : gmap pystr pyval :=
  mkdict
    [ (str "spec_match_score",
        default (PInt 0) (results !! str "spec_match_score"));
      (str "win_probability",
        default (PInt 0) (results !! str "win_probability"));
      (str "extracted_specs",
        default (PDict (mkdict [])) (results !! str "extracted_specs"));
      (str "financial_analysis",
        default (PDict (mkdict [])) (results !! str "financial_analysis"));
      (str "recommendation",
        default (PStr []) (results !! str "recommendation"));
      (str "recommendation_reason",
        default (PStr []) (results !! str "recommendation_reason"));
      (str "suggestions",
        default (PList []) (results !! str "suggestions"));
      (str "agent_status", PStr (str "completed")) ].

(** The test of [analyze_rfp] that creates a demo request:
    [recommendation.startswith("SELECT") or
     recommendation.startswith("CONSIDER")]. *)
Definition wants_demo (results : gmap pystr pyval) : res bool :=
  let recommendation :=
    default (PStr []) (results !! str "recommendation") in
  match recommendation with
  | PStr s => Ok (is_prefix (str "SELECT") s || is_prefix (str "CONSIDER") s)
  | _ => Raise AttributeError
  end.

(** The placeholder [load_repository_file] returns for a missing file. *)
Definition not_found_text (filename : pystr) : pystr :=
  str "Error: " ++ filename
  ++ str " not found. Please ensure Admin has uploaded it.".

(** A world in which both agents are already built. *)
Definition agents_ready (w : world) (ta : TechnicalAgent)
    (pa : PricingAgent) : Prop :=
  _tech_agent w = Some ta /\ _pricing_agent w = Some pa.

(** The world [w] after the requests [ps] were sent. *)
Definition sent (w : world) (ps : list prompt) : world :=
  {| _model := _model w; _tech_agent := _tech_agent w;
     _pricing_agent := _pricing_agent w;
     requests := requests w ++ ps |}.

(** What a stage makes of the prompt [p]: the parsed reply; when the client
    or the parser raises, [degraded] once the handler has printed the
    exception with [report]. *)
Definition stage_value (E : Env) (p : prompt) (report : exn -> res unit)
    (degraded : pyval) : res pyval :=
  res_try
    (let? text := generate_content E p in
     json_loads E (clean text))
    (fun e =>
       let? _ := report e in
       Ok degraded).

Definition technical_value (E : Env) (p : prompt) : res pyval :=
  stage_value E p (technical_agent_error E) specs_error.
Definition pricing_value (E : Env) (p : prompt) : res pyval :=
  stage_value E p (pricing_agent_error E) costs_error.

(** Formatting the values in the holes of a prompt; the holes of the
    technical prompt hold strings. *)
Definition format_holes (E : Env) (p : prompt) : res unit :=
  match p with
  | TechnicalPrompt _ _ => Ok tt
  | PricingPrompt _ matched_skus specs =>
      let? _ := py_format E matched_skus in
      let? _ := py_format E specs in
      Ok tt
  end.

(** The list [[[...[]...]]], nested [n] deep around the empty list. *)
Definition nested (n : nat) : pyval :=
  Nat.iter n (fun v => PList [v]) (PList []).

(** Two environments with the same standard output and the same formatting
    of values: they may differ in the client, the model handle, the files
    and the parser. *)
Definition same_console (E1 E2 : Env) : Prop :=
  (forall v, format_value E1 v = format_value E2 v)
  /\ (forall c, stdout_encodes E1 c = stdout_encodes E2 c).

(** [d.get(key, dflt)] on a dictionary. *)
Definition get_or (d : gmap pystr pyval) (key : string) (dflt : pyval)
  : pyval :=
  default dflt (d !! str key).

(** The pricing prompt built from the technical result [d]. *)
Definition pricing_prompt_of (pa : PricingAgent) (d : gmap pystr pyval)
  : prompt :=
  PricingPrompt (pricing_data pa)
    (get_or d "matched_skus" (PList []))
    (get_or d "standardized_specs" (PDict (mkdict []))).

(** The tier of a win probability and a numeric match score. *)
Definition tier_of (win_probability m : num) : tier :=
  if num_ge win_probability (NInt 70) && num_ge m (NInt 75) then SELECT
  else if num_ge win_probability (NInt 50) && num_ge m (NInt 60)
       then CONSIDER
  else if num_ge win_probability (NInt 30) then REVIEW
  else REJECT.

(** The suggestions for a win probability and a numeric match score. *)
Definition suggestions_of (win_probability m : num) : list pystr :=
  (if num_lt m (NInt 70) then [suggest_specs] else [])
  ++ (if num_lt win_probability (NInt 60) then [suggest_pricing] else [])
  ++ (if num_lt m (NInt 70) || num_lt win_probability (NInt 60)
      then [] else [suggest_aligned]).

(** ** A scripted environment *)

(** Replies of the client and what [json.loads] makes of them. *)
Definition tech_reply : pystr :=
  str "{" ++ quoted "spec_match_score" ++ str ": 80, "
  ++ quoted "matched_skus" ++ str ": []}".
Definition tech_reply_value : pyval :=
  PDict (mkdict [ (str "spec_match_score", PInt 80);
                  (str "matched_skus", PList []) ]).

Definition tech_reply_text_score : pystr :=
  str "{" ++ quoted "spec_match_score" ++ str ": " ++ quoted "85" ++ str "}".
Definition tech_reply_text_score_value : pyval :=
  PDict (mkdict [ (str "spec_match_score", PStr (str "85")) ]).

Definition pricing_reply : pystr :=
  str "{" ++ quoted "margin" ++ str ": 20}".
Definition pricing_reply_value : pyval :=
  PDict (mkdict [ (str "margin", PInt 20) ]).

Definition scripted_table : list (pystr * pyval) :=
  [ (str "{}", PDict (mkdict []));
    (str "[]", PList []);
    (tech_reply, tech_reply_value);
    (tech_reply_text_score, tech_reply_text_score_value);
    (pricing_reply, pricing_reply_value) ].

(** The client answers the technical prompt with [tech] and the pricing
    prompt with [pricing]; both repository files hold one line. *)
Definition scripted_env (tech pricing : res pystr) : Env :=
  {| new_model := Ok tt;
     read_file := fun _ => Ok (str "P001 Standard Widget 50.0 USD");
     generate_content :=
       fun p =>
         match p with
         | TechnicalPrompt _ _ => tech
         | PricingPrompt _ _ _ => pricing
         end;
     json_loads := json_lookup scripted_table;
     format_value := sample_format;
     stdout_encodes := utf8_encodes |}.

Definition sample_tech_agent : TechnicalAgent :=
  {| sku_data := str "P001 Standard Widget 50.0 USD" |}.
Definition sample_pricing_agent : PricingAgent :=
  {| pricing_data := str "P001 Standard Widget 50.0 USD" |}.

(** The orchestrator after both agents were built. *)
Definition ready_world : world :=
  {| _model := Some tt;
     _tech_agent := Some sample_tech_agent;
     _pricing_agent := Some sample_pricing_agent;
     requests := [] |}.

(** What one run may send: nothing, the technical prompt, or the technical
    prompt followed by the pricing prompt. *)
Definition request_shape (l : list prompt) : Prop :=
  l = []
  \/ (exists s t, l = [TechnicalPrompt s t])
  \/ (exists s t pd sk sp, l = [TechnicalPrompt s t; PricingPrompt pd sk sp]).

(** An environment whose repository files exist but cannot be read. *)
Definition locked_env : Env :=
  {| new_model := Ok tt;
     read_file := fun _ => Raise (OtherError "PermissionError");
     generate_content := fun _ => Ok (str "{}");
     json_loads := json_lookup json_table;
     format_value := sample_format;
     stdout_encodes := utf8_encodes |}.

(** ** The qualification gate *)

Lemma check_number rfp_data a :
  as_num (budget_of rfp_data) = Some a ->
  check_qualification_constraints rfp_data =
    Ok (if num_le a (NInt 0) then verdict_rejected else verdict_accepted).
Proof.
  intros Ha.
  unfold check_qualification_constraints, check_qualification_constraints_try.
  fold (budget_of rfp_data). unfold py_cmp_int. rewrite Ha. simpl.
  destruct (num_le a (NInt 0)); reflexivity.
Qed.

Lemma check_not_number rfp_data :
  as_num (budget_of rfp_data) = None ->
  check_qualification_constraints_try rfp_data = Raise TypeError
  /\ check_qualification_constraints rfp_data = Ok verdict_fail_open.
Proof.
  intros Ha.
  unfold check_qualification_constraints, check_qualification_constraints_try.
  fold (budget_of rfp_data). unfold py_cmp_int. rewrite Ha. simpl.
  split; reflexivity.
Qed.

Lemma num_gt_not_le a b : num_gt a b = true -> num_le a b = false.
Proof.
  unfold num_gt, num_le. destruct (num_compare a b) as [[]|]; congruence.
Qed.

(** C4: a budget that is a number at most 0, or an absent budget key, is
    rejected with the reason "Budget not specified or invalid"; a budget
    that is a number above 0 qualifies with the reason "Meets all
    qualification criteria". *)
Theorem check_qualification_budget (rfp_data : gmap pystr pyval) (a : num) :
  as_num (budget_of rfp_data) = Some a ->
  (rfp_data !! str "budget" = None ->
     check_qualification_constraints rfp_data = Ok verdict_rejected)
  /\ (num_le a (NInt 0) = true ->
     check_qualification_constraints rfp_data = Ok verdict_rejected)
  /\ (num_gt a (NInt 0) = true ->
     check_qualification_constraints rfp_data = Ok verdict_accepted)
  /\ qualified verdict_rejected = false
  /\ reason verdict_rejected = str "Budget not specified or invalid"
  /\ qualified verdict_accepted = true
  /\ reason verdict_accepted = str "Meets all qualification criteria".
Proof.
  intros Ha. rewrite (check_number _ _ Ha).
  repeat split.
  - intros Hnone. unfold budget_of in Ha. rewrite Hnone in Ha.
    simpl in Ha. injection Ha as <-. reflexivity.
  - intros ->. reflexivity.
  - intros Hgt. rewrite (num_gt_not_le _ _ Hgt). reflexivity.
Qed.

Lemma check_qualification_budget_witness :
  check_qualification_constraints rfp_without_budget = Ok verdict_rejected
  /\ check_qualification_constraints (rfp_with_budget (PInt (-5)))
     = Ok verdict_rejected
  /\ check_qualification_constraints
       (rfp_with_budget (PFloat (F64.of_decimal 25000 1)))
     = Ok verdict_accepted.
Proof.
  split; [|split].
  - apply (check_qualification_budget rfp_without_budget (NInt 0));
      reflexivity.
  - apply (check_qualification_budget (rfp_with_budget (PInt (-5)))
             (NInt (-5))); reflexivity.
  - apply (check_qualification_budget
             (rfp_with_budget (PFloat (F64.of_decimal 25000 1)))
             (NFloat (F64.of_decimal 25000 1))); reflexivity.
Defined.

(** C5: when the rule evaluation raises, the gate answers qualified with
    the reason that the check failed, and it never raises itself. *)
Theorem check_qualification_fails_open (rfp_data : gmap pystr pyval) :
  (exists v, check_qualification_constraints rfp_data = Ok v)
  /\ (forall e, check_qualification_constraints_try rfp_data = Raise e ->
        check_qualification_constraints rfp_data = Ok verdict_fail_open)
  /\ qualified verdict_fail_open = true
  /\ reason verdict_fail_open
     = str "Constraint check failed, proceeding with analysis".
Proof.
  unfold check_qualification_constraints.
  destruct (check_qualification_constraints_try rfp_data) as [v|e];
    simpl; repeat split; eauto. discriminate.
Qed.

Lemma check_qualification_fails_open_witness :
  check_qualification_constraints_try (rfp_with_budget PNone)
    = Raise TypeError
  /\ check_qualification_constraints (rfp_with_budget PNone)
    = Ok verdict_fail_open.
Proof.
  split; [reflexivity|].
  apply (check_qualification_fails_open (rfp_with_budget PNone))
    with (e := TypeError).
  reflexivity.
Defined.

(** C10: a budget present but not comparable with 0 ([None], a string)
    takes the fail-open branch and qualifies, while an absent budget key
    defaults to 0 and is rejected. *)
Theorem check_qualification_null_budget (rfp_data : gmap pystr pyval) :
  (forall v, rfp_data !! str "budget" = Some v -> as_num v = None ->
     check_qualification_constraints_try rfp_data = Raise TypeError
     /\ check_qualification_constraints rfp_data = Ok verdict_fail_open)
  /\ (rfp_data !! str "budget" = None ->
     check_qualification_constraints_try rfp_data = Ok verdict_rejected
     /\ check_qualification_constraints rfp_data = Ok verdict_rejected)
  /\ as_num PNone = None
  /\ (forall s, as_num (PStr s) = None)
  /\ qualified verdict_fail_open = true
  /\ qualified verdict_rejected = false.
Proof.
  repeat split; try reflexivity.
  - apply check_not_number. unfold budget_of. rewrite H. assumption.
  - apply check_not_number. unfold budget_of. rewrite H. assumption.
  - unfold check_qualification_constraints_try. rewrite H. reflexivity.
  - unfold check_qualification_constraints,
      check_qualification_constraints_try. rewrite H. reflexivity.
Qed.

Lemma check_qualification_null_budget_witness :
  check_qualification_constraints (rfp_with_budget PNone)
    = Ok verdict_fail_open
  /\ check_qualification_constraints (rfp_with_budget (PStr (str "10k")))
    = Ok verdict_fail_open
  /\ check_qualification_constraints rfp_without_budget
    = Ok verdict_rejected.
Proof.
  split; [|split].
  - apply (check_qualification_null_budget (rfp_with_budget PNone))
      with (v := PNone); reflexivity.
  - apply (check_qualification_null_budget
             (rfp_with_budget (PStr (str "10k"))))
      with (v := PStr (str "10k")); reflexivity.
  - apply (check_qualification_null_budget rfp_without_budget).
    reflexivity.
Defined.

(** ** Recommendation tiers *)

Lemma tier_label_inj t u : tier_label t = tier_label u -> t = u.
Proof. destruct t, u; intros H; try reflexivity; discriminate H. Qed.

(** C3: every pair (win probability, match score) gets exactly one of the
    four labels, tried in the order SELECT (win probability >= 70 and match
    score >= 75), CONSIDER (>= 50 and >= 60), REVIEW (win probability >=
    30), REJECT; the thresholds themselves qualify. *)
Theorem recommendation_tiers (win_probability : num)
    (spec_match_score : pyval) (m : num) :
  as_num spec_match_score = Some m ->
  (exists t : tier,
     recommend win_probability spec_match_score
       = Ok (tier_label t, tier_reason t)
     /\ (forall u, recommend win_probability spec_match_score
                     = Ok (tier_label u, tier_reason u) -> u = t)
     /\ (t = SELECT <->
           at_least win_probability 70 /\ at_least m 75)
     /\ (t = CONSIDER <->
           ~ (at_least win_probability 70 /\ at_least m 75)
           /\ at_least win_probability 50 /\ at_least m 60)
     /\ (t = REVIEW <->
           ~ (at_least win_probability 70 /\ at_least m 75)
           /\ ~ (at_least win_probability 50 /\ at_least m 60)
           /\ at_least win_probability 30)
     /\ (t = REJECT <->
           ~ (at_least win_probability 70 /\ at_least m 75)
           /\ ~ (at_least win_probability 50 /\ at_least m 60)
           /\ ~ at_least win_probability 30))
  /\ recommend (NInt 70) (PInt 75)
     = Ok (tier_label SELECT, tier_reason SELECT)
  /\ recommend (NFloat (F64.of_Z 70)) (PFloat (F64.of_Z 75))
     = Ok (tier_label SELECT, tier_reason SELECT)
  /\ recommend (NInt 50) (PInt 60)
     = Ok (tier_label CONSIDER, tier_reason CONSIDER)
  /\ recommend (NFloat (F64.of_Z 50)) (PFloat (F64.of_Z 60))
     = Ok (tier_label CONSIDER, tier_reason CONSIDER)
  /\ recommend (NInt 30) (PInt 0)
     = Ok (tier_label REVIEW, tier_reason REVIEW)
  /\ recommend (NFloat (F64.of_Z 30)) (PFloat (F64.of_Z 0))
     = Ok (tier_label REVIEW, tier_reason REVIEW)
  /\ (forall t, is_prefix (tier_name t) (tier_label t) = true).
Proof.
  intros Hm.
  split; [|repeat split; try reflexivity; intros []; reflexivity].
  unfold recommend, py_cmp_int, and_then, at_least. rewrite Hm.
  destruct (num_ge win_probability (NInt 70)) eqn:W70;
    destruct (num_ge m (NInt 75)) eqn:M75;
    destruct (num_ge win_probability (NInt 50)) eqn:W50;
    destruct (num_ge m (NInt 60)) eqn:M60;
    destruct (num_ge win_probability (NInt 30)) eqn:W30;
    cbn [res_bind];
    match goal with
    | |- exists t, Ok (?l, _) = Ok (tier_label t, tier_reason t) /\ _ =>
        first [ exists SELECT; split; [reflexivity|]
              | exists CONSIDER; split; [reflexivity|]
              | exists REVIEW; split; [reflexivity|]
              | exists REJECT; split; [reflexivity|] ]
    end;
    (split;
     [ intros u Hu; injection Hu as Hu _;
       symmetry; apply tier_label_inj; exact Hu
     | repeat split; intros; try discriminate; try congruence;
       intuition congruence ]).
Qed.

Lemma recommendation_tiers_witness :
  recommend (NFloat (F64.of_Z 71)) (PInt 80)
    = Ok (tier_label SELECT, tier_reason SELECT)
  /\ recommend (NInt 0) (PFloat F64.Fnan)
    = Ok (tier_label REJECT, tier_reason REJECT).
Proof.
  split.
  - destruct (recommendation_tiers (NFloat (F64.of_Z 71)) (PInt 80)
                (NInt 80) eq_refl) as [[t [Ht _]] _].
    rewrite Ht. vm_compute in Ht. destruct t; try discriminate Ht.
    reflexivity.
  - destruct (recommendation_tiers (NInt 0) (PFloat F64.Fnan)
                (NFloat F64.Fnan) eq_refl) as [[t [Ht _]] _].
    rewrite Ht. vm_compute in Ht. destruct t; try discriminate Ht.
    reflexivity.
Defined.

(** ** Printing *)

Lemma printable_app E a b :
  printable E (a ++ b) = printable E a && printable E b.
Proof. apply forallb_app. Qed.

Lemma print_printable E text :
  printable E text = true -> print E text = Ok tt.
Proof. unfold print. intros ->. reflexivity. Qed.

Lemma print_unprintable E text :
  printable E text = false -> print E text = Raise UnicodeEncodeError.
Proof. unfold print. intros ->. reflexivity. Qed.

(** The fixed part of each message is ASCII: whether a handler's print
    succeeds is decided by the text of the exception. *)
Lemma technical_agent_error_run E e :
  technical_agent_error E e = print E (exn_text e).
Proof.
  unfold technical_agent_error, print. rewrite printable_app. reflexivity.
Qed.

Lemma pricing_agent_error_run E e :
  pricing_agent_error E e = print E (exn_text e).
Proof.
  unfold pricing_agent_error, print. rewrite printable_app. reflexivity.
Qed.

Lemma analysis_error_run E e :
  analysis_error E e = print E (exn_text e).
Proof.
  unfold analysis_error, print. rewrite printable_app. reflexivity.
Qed.

Lemma announce_title E rfp_data title :
  rfp_data !! str "title" = Some (PStr title) ->
  announce E rfp_data = print E title.
Proof.
  intros Ht. unfold announce. rewrite Ht.
  change (default PNone (Some (PStr title))) with (PStr title).
  cbn [py_format res_bind].
  unfold print. rewrite !printable_app, andb_true_r. reflexivity.
Qed.

Lemma announce_unprintable E rfp_data title :
  rfp_data !! str "title" = Some (PStr title) ->
  printable E title = false ->
  announce E rfp_data = Raise UnicodeEncodeError.
Proof.
  intros Ht Hp. rewrite (announce_title _ _ _ Ht).
  apply print_unprintable, Hp.
Qed.

(** ** Stages and orchestration: return paths *)

Lemma make_suggestions_nonempty wp sms l :
  make_suggestions wp sms = Ok l -> l <> [].
Proof.
  unfold make_suggestions.
  destruct (py_cmp_int num_lt sms 70) as [[]|]; simpl; try discriminate;
    destruct (num_lt wp (NInt 60)); simpl; intros [= <-]; discriminate.
Qed.

Lemma make_suggestions_num wp sms m :
  as_num sms = Some m -> make_suggestions wp sms = Ok (suggestions_of wp m).
Proof.
  intros Hm. unfold make_suggestions, suggestions_of, py_cmp_int.
  rewrite Hm.
  destruct (num_lt m (NInt 70)), (num_lt wp (NInt 60)); reflexivity.
Qed.

Lemma calculate_ok_num sms mg wp :
  calculate_win_probability sms mg = Ok wp ->
  exists m g, as_num sms = Some m /\ as_num mg = Some g.
Proof.
  unfold calculate_win_probability, py_mul_float, py_cmp_int.
  destruct (as_num sms) as [m|]; [|discriminate].
  destruct (to_float m); [|discriminate]. cbn [res_bind].
  destruct (as_num mg) as [g|]; [|discriminate]. eauto.
Qed.

(** Splitting one monadic step of a computation known to succeed. *)
Ltac bind_ok H :=
  match type of H with
  | bind ?m _ ?w = (Ok _, _) =>
      let r := fresh "r" in let w' := fresh "w" in let Hm := fresh "Hm" in
      unfold bind at 1 in H;
      destruct (m w) as [[r|?] w'] eqn:Hm; [|discriminate H]
  end.

Lemma lift_ok {A} (r : res A) w a w' :
  lift r w = (Ok a, w') -> r = Ok a /\ w' = w.
Proof. unfold lift. intros [= -> ->]. split; reflexivity. Qed.

Lemma run_analysis_try_ok E rfp_text w r w' :
  run_analysis_try E rfp_text w = (Ok r, w') ->
  exists sms ex sk pr wp rec sugg,
    r = analysis_result sms ex sk pr wp rec sugg
    /\ make_suggestions wp sms = Ok sugg
    /\ recommend wp sms = Ok rec
    /\ calculate_win_probability sms (default (PInt 20)
         (match pr with PDict d => d !! str "margin" | _ => None end))
       = Ok wp.
Proof.
  unfold run_analysis_try. intros H.
  repeat bind_ok H.
  unfold ret in H. injection H as <- <-.
  repeat match goal with
  | Hl : lift _ _ = (Ok _, _) |- _ => apply lift_ok in Hl; destruct Hl as [Hl ->]
  end.
  eexists _, _, _, _, _, _, _. split; [reflexivity|].
  split; [eassumption|]. split; [eassumption|].
  match goal with
  | Hg : py_get ?p (str "margin") _ = Ok ?mg,
    Hc : calculate_win_probability _ ?mg = Ok _ |- _ =>
      destruct p; try discriminate Hg; injection Hg as <-; exact Hc
  end.
Qed.

(** What a result of the [try] body carries: its suggestions are the ones
    its own score and win probability call for. *)
Lemma run_analysis_try_suggestions E rfp_text w r w' :
  run_analysis_try E rfp_text w = (Ok r, w') ->
  exists wp sms m,
    r !! str "win_probability" = Some (of_num wp)
    /\ r !! str "spec_match_score" = Some sms
    /\ as_num sms = Some m
    /\ r !! str "suggestions" = Some (PList (map PStr (suggestions_of wp m)))
    /\ has_str r "agent_status" "completed".
Proof.
  intros H.
  destruct (run_analysis_try_ok _ _ _ _ _ H)
    as (sms & ex & sk & pr & wp & rec & sugg & -> & Hs & _ & Hc).
  destruct (calculate_ok_num _ _ _ Hc) as (m & g & Hm & _).
  rewrite (make_suggestions_num _ _ _ Hm) in Hs. injection Hs as <-.
  exists wp, sms, m. repeat split. exact Hm.
Qed.

Lemma check_verdicts rfp_data v :
  check_qualification_constraints rfp_data = Ok v ->
  qualified v = false -> v = verdict_rejected.
Proof.
  unfold check_qualification_constraints, check_qualification_constraints_try.
  destruct (py_cmp_int num_le _ 0) as [[]|]; simpl;
    intros [= <-]; simpl; intros Hq; first [reflexivity | discriminate Hq].
Qed.

Lemma check_total rfp_data :
  exists v, check_qualification_constraints rfp_data = Ok v.
Proof.
  unfold check_qualification_constraints.
  destruct (check_qualification_constraints_try rfp_data); simpl; eauto.
Qed.

(** [run_analysis_main], statement by statement. *)
Lemma run_analysis_main_run E rfp_data w :
  run_analysis_main E rfp_data w
  = match rfp_text_of E rfp_data with
    | Ok rfp_text =>
        match run_analysis_try E rfp_text w with
        | (Ok r, w') => (Ok r, w')
        | (Raise e, w') =>
            match print E (exn_text e) with
            | Ok _ => (Ok fallback_result, w')
            | Raise e' => (Raise e', w')
            end
        end
    | Raise e => (Raise e, w)
    end.
Proof.
  unfold run_analysis_main, bind, lift, try_except, ret.
  destruct (rfp_text_of E rfp_data) as [text|e]; [|reflexivity].
  destruct (run_analysis_try E text w) as [[r|e] w']; [reflexivity|].
  rewrite analysis_error_run. destruct (print E _); reflexivity.
Qed.

(** [run_analysis], statement by statement. *)
Lemma run_analysis_run E rfp_data check_constraints w :
  run_analysis E rfp_data check_constraints w
  = match announce E rfp_data with
    | Ok _ =>
        if check_constraints then
          match check_qualification_constraints rfp_data with
          | Ok v =>
              if qualified v then run_analysis_main E rfp_data w
              else (Ok (rejected_result v), w)
          | Raise e => (Raise e, w)
          end
        else run_analysis_main E rfp_data w
    | Raise e => (Raise e, w)
    end.
Proof.
  unfold run_analysis, bind, lift, ret.
  destruct (announce E rfp_data); [|reflexivity].
  destruct check_constraints; [|reflexivity].
  destruct (check_qualification_constraints rfp_data) as [v|e];
    [|reflexivity].
  destruct (qualified v); reflexivity.
Qed.

Lemma run_analysis_open E rfp_data check_constraints w :
  announce E rfp_data = Ok tt ->
  gate_open rfp_data check_constraints ->
  run_analysis E rfp_data check_constraints w
  = run_analysis_main E rfp_data w.
Proof.
  intros Ha Hgate. rewrite run_analysis_run, Ha.
  destruct Hgate as [-> | (v & Hv & Hq)]; [reflexivity|].
  destruct check_constraints; [|reflexivity].
  rewrite Hv, Hq. reflexivity.
Qed.

(** The ways [run_analysis_main] returns. *)
Lemma run_analysis_main_ok E rfp_data w r w' :
  run_analysis_main E rfp_data w = (Ok r, w') ->
  exists rfp_text,
    rfp_text_of E rfp_data = Ok rfp_text
    /\ (run_analysis_try E rfp_text w = (Ok r, w')
        \/ (exists e, run_analysis_try E rfp_text w = (Raise e, w'))
           /\ r = fallback_result).
Proof.
  rewrite run_analysis_main_run.
  destruct (rfp_text_of E rfp_data) as [text|e]; [|discriminate].
  intros H. exists text. split; [reflexivity|].
  destruct (run_analysis_try E text w) as [[r0|e] w0].
  - left. exact H.
  - right. destruct (print E (exn_text e)); [|discriminate H].
    injection H as <- <-. eauto.
Qed.

(** The ways [run_analysis] returns. *)
Lemma run_analysis_ok E rfp_data check_constraints w r w' :
  run_analysis E rfp_data check_constraints w = (Ok r, w') ->
  (check_constraints = true
   /\ check_qualification_constraints rfp_data = Ok verdict_rejected
   /\ r = rejected_result verdict_rejected /\ w' = w)
  \/ (gate_open rfp_data check_constraints
      /\ run_analysis_main E rfp_data w = (Ok r, w')).
Proof.
  rewrite run_analysis_run.
  destruct (announce E rfp_data); [|discriminate].
  destruct check_constraints.
  - destruct (check_qualification_constraints rfp_data) as [v|e] eqn:Hv;
      [|discriminate].
    destruct (qualified v) eqn:Hq.
    + intros H. right. split; [right; eauto|exact H].
    + intros [= <- <-]. left.
      rewrite (check_verdicts _ _ Hv Hq). auto.
  - intros H. right. split; [left; reflexivity|exact H].
Qed.

Lemma run_analysis_status E rfp_data check_constraints w r w' :
  run_analysis E rfp_data check_constraints w = (Ok r, w') ->
  has_str r "agent_status" "completed".
Proof.
  intros H.
  destruct (run_analysis_ok _ _ _ _ _ _ H) as [(_ & _ & -> & _)|[_ Hm]];
    [reflexivity|].
  destruct (run_analysis_main_ok _ _ _ _ _ Hm)
    as (text & _ & [Htry|[_ ->]]); [|reflexivity].
  destruct (run_analysis_try_suggestions _ _ _ _ _ Htry)
    as (? & ? & ? & _ & _ & _ & _ & Hst).
  exact Hst.
Qed.

(** C1: [run_analysis] can raise. Its first statement prints the title
    before the gate and outside every [try]: with a title that standard
    output cannot encode the call raises [UnicodeEncodeError], whatever the
    budget, the flag and the client. What the [try] does cover holds: when
    the announcement is printed, the gate is open, the text to analyse is
    built and an exception with a printable text escapes the extraction,
    pricing or scoring steps, the result is the fixed fallback: match score
    50, win probability 45, the five specification fields "Analysis
    Failed", costs 0 with margin 20 and currency "USD", recommendation
    "REVIEW - Low confidence" (the source spells the dash as a hyphen) and
    the two suggestions to retry and to review manually; and every result
    that is returned carries agent_status "completed". *)
Theorem run_analysis_raises (E : Env) (rfp_data : gmap pystr pyval)
    (check_constraints : bool) (w : world) :
  (forall title,
     rfp_data !! str "title" = Some (PStr title) ->
     printable E title = false ->
     run_analysis E rfp_data check_constraints w
     = (Raise UnicodeEncodeError, w))
  /\ (forall rfp_text e w1,
        announce E rfp_data = Ok tt ->
        gate_open rfp_data check_constraints ->
        rfp_text_of E rfp_data = Ok rfp_text ->
        run_analysis_try E rfp_text w = (Raise e, w1) ->
        printable E (exn_text e) = true ->
        run_analysis E rfp_data check_constraints w
        = (Ok fallback_result, w1))
  /\ (forall r w',
        run_analysis E rfp_data check_constraints w = (Ok r, w') ->
        has_str r "agent_status" "completed")
  /\ fallback_result !! str "spec_match_score" = Some (PFloat (F64.of_Z 50))
  /\ fallback_result !! str "win_probability" = Some (PFloat (F64.of_Z 45))
  /\ fallback_result !! str "extracted_specs"
     = Some (specs_all "Analysis Failed")
  /\ fallback_result !! str "financial_analysis"
     = Some (PDict (mkdict
         [ (str "breakdown", PDict (mkdict
              [ (str "material_cost", PInt 0);
                (str "service_fees", PInt 0);
                (str "applied_fees_list", PList []) ]));
           (str "total_cost_internal", PInt 0);
           (str "total_bid_value", PInt 0);
           (str "margin", PFloat (F64.of_Z 20));
           (str "currency", PStr (str "USD")) ]))
  /\ has_str fallback_result "recommendation" "REVIEW - Low confidence"
  /\ has_str fallback_result "recommendation_reason"
       "AI analysis failed, using fallback values. Manual review recommended."
  /\ fallback_result !! str "suggestions"
     = Some (PList
         [ PStr (str "Re-run AI analysis when service is available");
           PStr (str "Manually review RFP requirements against company capabilities") ])
  /\ has_str fallback_result "agent_status" "completed".
Proof.
  split; [|split; [|split; [|repeat split]]].
  - intros title Ht Hp. rewrite run_analysis_run.
    rewrite (announce_unprintable _ _ _ Ht Hp). reflexivity.
  - intros text e w1 Ha Hgate Htext Htry Hp.
    rewrite (run_analysis_open _ _ _ _ Ha Hgate).
    rewrite run_analysis_main_run, Htext, Htry.
    rewrite (print_printable _ _ Hp). reflexivity.
  - intros r w'. apply run_analysis_status.
Qed.

Lemma run_analysis_raises_witness :
  run_analysis (sample_env (Ok (str "{}")))
    (caller_rfp (PStr [55296%N]) (PStr (str "11kV XLPE cable")) (PInt 0))
    true orchestrator
  = (Raise UnicodeEncodeError, orchestrator)
  /\ run_analysis broken_env (rfp_with_budget (PInt 90000)) true orchestrator
     = (Ok fallback_result, orchestrator).
Proof.
  split.
  - apply (run_analysis_raises (sample_env (Ok (str "{}")))
             (caller_rfp (PStr [55296%N]) (PStr (str "11kV XLPE cable"))
                (PInt 0))
             true orchestrator)
      with (title := [55296%N]); reflexivity.
  - apply (run_analysis_raises broken_env (rfp_with_budget (PInt 90000))
             true orchestrator)
      with (rfp_text := str "Title: Cable supply" ++ [10%N]
                        ++ str "Description: 11kV XLPE cable")
           (e := OtherError "DefaultCredentialsError").
    + reflexivity.
    + right. exists verdict_accepted. split; reflexivity.
    + reflexivity.
    + reflexivity.
    + reflexivity.
Defined.

(** The result of the disqualification path, field by field. *)
Lemma rejected_result_fields :
  let r := rejected_result verdict_rejected in
  r !! str "spec_match_score" = Some (PInt 0)
  /\ r !! str "win_probability" = Some (PInt 0)
  /\ r !! str "extracted_specs" = Some (PDict ∅)
  /\ r !! str "financial_analysis" = Some (PDict ∅)
  /\ has_str r "recommendation"
       "REJECT - Does not meet qualification criteria"
  /\ has_str r "recommendation_reason" "Budget not specified or invalid"
  /\ r !! str "suggestions"
     = Some (PList [ PStr (str "Review qualification criteria with admin");
                     PStr (str "Consider adjusting RFP requirements") ])
  /\ has_str r "agent_status" "completed".
Proof. repeat split; reflexivity. Qed.

Lemma printable_same_console E1 E2 text :
  same_console E1 E2 -> printable E1 text = printable E2 text.
Proof.
  intros [_ Hs]. unfold printable.
  induction text as [|c text IH]; [reflexivity|].
  cbn [forallb]. rewrite IH, Hs. reflexivity.
Qed.

Lemma announce_same_console E1 E2 rfp_data :
  same_console E1 E2 -> announce E1 rfp_data = announce E2 rfp_data.
Proof.
  intros Hsame. unfold announce.
  assert (Hf : forall v, py_format E1 v = py_format E2 v).
  { intros v. unfold py_format. rewrite (proj1 Hsame v). reflexivity. }
  rewrite Hf. destruct (py_format E2 _) as [title|e]; [|reflexivity].
  cbn [res_bind]. unfold print.
  rewrite (printable_same_console _ _ _ Hsame). reflexivity.
Qed.

(** C6: with a budget that is a number at most 0 and the constraint check
    on, the completion client is never invoked: no request is sent and the
    orchestrator is left as it was, and two runs whose environments differ
    in the client (and in the model handle, the files and the parser) have
    the same outcome. The outcome is the rejection whenever the
    announcement of the first statement can be printed: score and
    probability 0, empty specification and pricing, recommendation "REJECT
    - Does not meet qualification criteria" (hyphen in the source), the
    gate's reason, the two review suggestions and agent_status "completed".
    With a title that standard output cannot encode the call raises
    [UnicodeEncodeError] instead of returning the rejection. *)
Theorem rejected_without_client (E1 E2 : Env)
    (rfp_data : gmap pystr pyval) (a : num) (w : world) :
  as_num (budget_of rfp_data) = Some a ->
  num_le a (NInt 0) = true ->
  (same_console E1 E2 ->
   run_analysis E1 rfp_data true w = run_analysis E2 rfp_data true w)
  /\ snd (run_analysis E1 rfp_data true w) = w
  /\ fst (run_analysis E1 rfp_data true w)
     = (let? _ := announce E1 rfp_data in
        Ok (rejected_result verdict_rejected))
  /\ (forall title,
        rfp_data !! str "title" = Some (PStr title) ->
        printable E1 title = false ->
        run_analysis E1 rfp_data true w = (Raise UnicodeEncodeError, w))
  /\ (let r := rejected_result verdict_rejected in
      r !! str "spec_match_score" = Some (PInt 0)
      /\ r !! str "win_probability" = Some (PInt 0)
      /\ r !! str "extracted_specs" = Some (PDict ∅)
      /\ r !! str "financial_analysis" = Some (PDict ∅)
      /\ has_str r "recommendation"
           "REJECT - Does not meet qualification criteria"
      /\ has_str r "recommendation_reason" "Budget not specified or invalid"
      /\ r !! str "suggestions"
         = Some (PList
             [ PStr (str "Review qualification criteria with admin");
               PStr (str "Consider adjusting RFP requirements") ])
      /\ has_str r "agent_status" "completed").
Proof.
  intros Ha Hle.
  assert (Hrun : forall E, run_analysis E rfp_data true w
                           = match announce E rfp_data with
                             | Ok _ =>
                                 (Ok (rejected_result verdict_rejected), w)
                             | Raise e => (Raise e, w)
                             end).
  { intros E. rewrite run_analysis_run.
    rewrite (check_number _ _ Ha), Hle. reflexivity. }
  split; [|split; [|split; [|split]]].
  - intros Hsame. rewrite (Hrun E1), (Hrun E2).
    rewrite (announce_same_console _ _ _ Hsame). reflexivity.
  - rewrite Hrun. destruct (announce E1 rfp_data); reflexivity.
  - rewrite Hrun. destruct (announce E1 rfp_data); reflexivity.
  - intros title Ht Hp. rewrite Hrun.
    rewrite (announce_unprintable _ _ _ Ht Hp). reflexivity.
  - apply rejected_result_fields.
Qed.

Lemma rejected_without_client_witness :
  run_analysis (sample_env (Ok (str "{}"))) (rfp_with_budget (PInt 0)) true
    orchestrator
  = run_analysis broken_env (rfp_with_budget (PInt 0)) true orchestrator
  /\ run_analysis (sample_env (Ok (str "{}")))
       (caller_rfp (PStr [55296%N]) (PStr (str "11kV XLPE cable"))
          (PFloat (F64.of_Z (-3))))
       true orchestrator
     = (Raise UnicodeEncodeError, orchestrator).
Proof.
  split.
  - apply (rejected_without_client (sample_env (Ok (str "{}"))) broken_env
             (rfp_with_budget (PInt 0)) (NInt 0) orchestrator);
      [reflexivity|reflexivity|split; reflexivity].
  - apply (rejected_without_client (sample_env (Ok (str "{}"))) broken_env
             (caller_rfp (PStr [55296%N]) (PStr (str "11kV XLPE cable"))
                (PFloat (F64.of_Z (-3))))
             (NFloat (F64.of_Z (-3))) orchestrator eq_refl eq_refl)
      with (title := [55296%N]); reflexivity.
Defined.

(** C8: the suggestions list of a returned result is never empty. On the
    qualified path a match score below 70 and a win probability below 60
    each append their suggestion, in that order, and the generic one is
    produced when neither does; the result the [try] body returns carries
    exactly the list its own score and win probability call for; the
    rejection and the fallback carry their two fixed suggestions; and a
    result [run_analysis] returns is one of these three. *)
Theorem suggestions_never_empty :
  (forall (win_probability : num) (spec_match_score : pyval) (m : num),
     as_num spec_match_score = Some m ->
     exists l,
       make_suggestions win_probability spec_match_score = Ok l
       /\ l <> []
       /\ l = (if num_lt m (NInt 70) then [suggest_specs] else [])
              ++ (if num_lt win_probability (NInt 60)
                  then [suggest_pricing] else [])
              ++ (if num_lt m (NInt 70) || num_lt win_probability (NInt 60)
                  then [] else [suggest_aligned]))
  /\ (forall v,
        rejected_result v !! str "suggestions"
        = Some (PList
            [ PStr (str "Review qualification criteria with admin");
              PStr (str "Consider adjusting RFP requirements") ]))
  /\ fallback_result !! str "suggestions"
     = Some (PList
         [ PStr (str "Re-run AI analysis when service is available");
           PStr (str "Manually review RFP requirements against company capabilities") ])
  /\ (forall E rfp_text w r w',
        run_analysis_try E rfp_text w = (Ok r, w') ->
        exists wp sms m,
          r !! str "win_probability" = Some (of_num wp)
          /\ r !! str "spec_match_score" = Some sms
          /\ as_num sms = Some m
          /\ r !! str "suggestions"
             = Some (PList (map PStr (suggestions_of wp m)))
          /\ suggestions_of wp m <> [])
  /\ (forall E rfp_data check_constraints w r w',
        run_analysis E rfp_data check_constraints w = (Ok r, w') ->
        (exists l, r !! str "suggestions" = Some (PList l) /\ l <> [])
        /\ ((check_constraints = true
             /\ check_qualification_constraints rfp_data
                = Ok verdict_rejected
             /\ r = rejected_result verdict_rejected)
            \/ (gate_open rfp_data check_constraints
                /\ exists rfp_text,
                    rfp_text_of E rfp_data = Ok rfp_text
                    /\ (run_analysis_try E rfp_text w = (Ok r, w')
                        \/ (exists e,
                              run_analysis_try E rfp_text w = (Raise e, w'))
                           /\ r = fallback_result)))).
Proof.
  assert (Hne : forall wp m, suggestions_of wp m <> []).
  { intros wp m. unfold suggestions_of.
    destruct (num_lt m (NInt 70)), (num_lt wp (NInt 60)); discriminate. }
  split; [|split; [|split; [|split]]].
  - intros wp sms m Hm. unfold make_suggestions, py_cmp_int. rewrite Hm.
    destruct (num_lt m (NInt 70)), (num_lt wp (NInt 60)); simpl;
      eexists; (split; [reflexivity|split; [discriminate|reflexivity]]).
  - intros v. reflexivity.
  - reflexivity.
  - intros E text w r w' Htry.
    destruct (run_analysis_try_suggestions _ _ _ _ _ Htry)
      as (wp & sms & m & Hwp & Hsms & Hm & Hl & _).
    exists wp, sms, m. auto.
  - intros E rfp_data cc w r w' Hrun.
    destruct (run_analysis_ok _ _ _ _ _ _ Hrun)
      as [(Hcc & Hv & -> & _)|[Hgate Hm]].
    + split; [|left; auto].
      eexists. split; [reflexivity|discriminate].
    + destruct (run_analysis_main_ok _ _ _ _ _ Hm)
        as (text & Htext & Hcases).
      split; [|right; split; [exact Hgate|exists text; auto]].
      destruct Hcases as [Htry|[_ ->]].
      * destruct (run_analysis_try_suggestions _ _ _ _ _ Htry)
          as (wp & sms & m & _ & _ & _ & Hl & _).
        eexists. split; [exact Hl|].
        specialize (Hne wp m).
        destruct (suggestions_of wp m); [congruence|discriminate].
      * eexists. split; [reflexivity|discriminate].
Qed.

Lemma suggestions_never_empty_witness :
  let E := scripted_env (Ok tech_reply) (Ok pricing_reply) in
  let rfp := rfp_with_budget (PInt 90000) in
  (exists l, make_suggestions (NInt 45) (PInt 50) = Ok l
             /\ l <> [] /\ l = [suggest_specs; suggest_pricing])
  /\ (exists wp sms m,
        fallback_result !! str "win_probability" = Some (of_num wp)
        /\ fallback_result !! str "spec_match_score" = Some sms
        /\ as_num sms = Some m
        /\ fallback_result !! str "suggestions"
           <> Some (PList (map PStr (suggestions_of wp m))))
  /\ exists l,
      analysis_result (PInt 80) (PDict ∅) (PList []) pricing_reply_value
        (NFloat (F64.of_Z 71)) (tier_label SELECT, tier_reason SELECT)
        [suggest_aligned] !! str "suggestions" = Some (PList l)
      /\ l <> [].
Proof.
  intros E rfp.
  destruct suggestions_never_empty as (Hmake & _ & _ & _ & Hrun).
  split; [|split].
  - apply (Hmake (NInt 45) (PInt 50) (NInt 50)). reflexivity.
  - exists (NFloat f45_0), (PFloat f50_0), (NFloat f50_0).
    repeat split. vm_compute. discriminate.
  - refine (proj1 (Hrun E rfp true ready_world _
                     (snd (run_analysis E rfp true ready_world)) _)).
    vm_compute. reflexivity.
Defined.

(** ** The extraction stage *)

Lemma generate_run E p w :
  generate E p w
  = (generate_content E p,
     {| _model := _model w; _tech_agent := _tech_agent w;
        _pricing_agent := _pricing_agent w;
        requests := requests w ++ [p] |}).
Proof. reflexivity. Qed.

(** [analyze_specs], statement by statement. *)
Lemma analyze_specs_sent E self rfp_text w :
  analyze_specs E self rfp_text w
  = (technical_value E (TechnicalPrompt (sku_data self) rfp_text),
     sent w [TechnicalPrompt (sku_data self) rfp_text]).
Proof.
  unfold analyze_specs, analyze_specs_try, try_except, bind, lift, ret,
    technical_value, stage_value.
  rewrite generate_run. fold (sent w [TechnicalPrompt (sku_data self) rfp_text]).
  destruct (generate_content E _) as [text|e]; cbn [res_bind res_try].
  - destruct (json_loads E (clean text)) as [v|e]; cbn [res_try];
      [reflexivity|].
    destruct (technical_agent_error E e); reflexivity.
  - destruct (technical_agent_error E e); reflexivity.
Qed.

(** [calculate_costs], statement by statement. *)
Lemma calculate_costs_run E self matched_skus specs w :
  calculate_costs E self matched_skus specs w
  = match format_holes E
            (PricingPrompt (pricing_data self) matched_skus specs) with
    | Ok _ =>
        (pricing_value E
           (PricingPrompt (pricing_data self) matched_skus specs),
         sent w [PricingPrompt (pricing_data self) matched_skus specs])
    | Raise e => (Raise e, w)
    end.
Proof.
  unfold calculate_costs, calculate_costs_try, try_except, bind, lift, ret,
    pricing_value, stage_value, format_holes.
  destruct (py_format E matched_skus) as [a|e]; [|reflexivity].
  destruct (py_format E specs) as [b|e]; [|reflexivity].
  cbn [res_bind]. rewrite generate_run.
  fold (sent w [PricingPrompt (pricing_data self) matched_skus specs]).
  destruct (generate_content E _) as [text|e]; cbn [res_bind res_try].
  - destruct (json_loads E (clean text)) as [v|e]; cbn [res_try];
      [reflexivity|].
    destruct (pricing_agent_error E e); reflexivity.
  - destruct (pricing_agent_error E e); reflexivity.
Qed.

(** The handlers raise nothing but what [print] raises. *)
Lemma technical_value_raises E p e :
  technical_value E p = Raise e -> e = UnicodeEncodeError.
Proof.
  unfold technical_value, stage_value.
  destruct (generate_content E p) as [text|e0]; cbn [res_bind res_try];
    [destruct (json_loads E (clean text)) as [v|e0]; cbn [res_try];
       [discriminate|]|];
    rewrite technical_agent_error_run; unfold print;
    destruct (printable E _); cbn [res_bind]; congruence.
Qed.

Lemma pricing_value_raises E p e :
  pricing_value E p = Raise e -> e = UnicodeEncodeError.
Proof.
  unfold pricing_value, stage_value.
  destruct (generate_content E p) as [text|e0]; cbn [res_bind res_try];
    [destruct (json_loads E (clean text)) as [v|e0]; cbn [res_try];
       [discriminate|]|];
    rewrite pricing_agent_error_run; unfold print;
    destruct (printable E _); cbn [res_bind]; congruence.
Qed.

Lemma stage_value_cases E p report degraded :
  (forall e, generate_content E p = Raise e -> report e = Ok tt ->
     stage_value E p report degraded = Ok degraded)
  /\ (forall text e, generate_content E p = Ok text ->
        json_loads E (clean text) = Raise e -> report e = Ok tt ->
        stage_value E p report degraded = Ok degraded)
  /\ (forall text v0, generate_content E p = Ok text ->
        json_loads E (clean text) = Ok v0 ->
        stage_value E p report degraded = Ok v0)
  /\ (forall e e', generate_content E p = Raise e -> report e = Raise e' ->
        stage_value E p report degraded = Raise e')
  /\ (forall text e e', generate_content E p = Ok text ->
        json_loads E (clean text) = Raise e -> report e = Raise e' ->
        stage_value E p report degraded = Raise e').
Proof.
  unfold stage_value. repeat split.
  - intros e -> Hr. cbn [res_bind res_try]. rewrite Hr. reflexivity.
  - intros text e -> Hj Hr. cbn [res_bind]. rewrite Hj. cbn [res_try].
    rewrite Hr. reflexivity.
  - intros text v0 -> Hj. cbn [res_bind]. rewrite Hj. reflexivity.
  - intros e e' -> Hr. cbn [res_bind res_try]. rewrite Hr. reflexivity.
  - intros text e e' -> Hj Hr. cbn [res_bind]. rewrite Hj. cbn [res_try].
    rewrite Hr. reflexivity.
Qed.

(** C7, as the source has it: [analyze_specs] sends one request; when the
    client raises or [json.loads] rejects the cleaned text, and the message
    of the handler can be printed, it returns the degraded result (score 0,
    the five fields "Error", no matched identifier); a text that
    [json.loads] accepts is returned as parsed, whatever keys it has. *)
Theorem analyze_specs_degrades (E : Env) (self : TechnicalAgent)
    (rfp_text : pystr) (w : world) :
  let p := TechnicalPrompt (sku_data self) rfp_text in
  requests (snd (analyze_specs E self rfp_text w)) = requests w ++ [p]
  /\ (forall e,
        generate_content E p = Raise e ->
        printable E (exn_text e) = true ->
        fst (analyze_specs E self rfp_text w) = Ok specs_error)
  /\ (forall text e,
        generate_content E p = Ok text ->
        json_loads E (clean text) = Raise e ->
        printable E (exn_text e) = true ->
        fst (analyze_specs E self rfp_text w) = Ok specs_error)
  /\ (forall text v0,
        generate_content E p = Ok text ->
        json_loads E (clean text) = Ok v0 ->
        fst (analyze_specs E self rfp_text w) = Ok v0)
  /\ specs_error
     = PDict (mkdict
         [ (str "spec_match_score", PInt 0);
           (str "standardized_specs", specs_all "Error");
           (str "matched_skus", PList []) ]).
Proof.
  intros p. rewrite analyze_specs_sent. fold p. cbn [fst snd].
  destruct (stage_value_cases E p (technical_agent_error E) specs_error)
    as (Hraise & Hparse & Hok & _).
  unfold technical_value.
  repeat split.
  - intros e He Hp. apply (Hraise e He).
    rewrite technical_agent_error_run. apply print_printable, Hp.
  - intros text e Ht Hj Hp. apply (Hparse text e Ht Hj).
    rewrite technical_agent_error_run. apply print_printable, Hp.
  - intros text v0 Ht Hj. apply (Hok text v0 Ht Hj).
Qed.

Lemma analyze_specs_degrades_witness :
  fst (analyze_specs broken_env {| sku_data := str "P001 Cable 11kV" |}
         (str "Title: Cable supply") orchestrator)
  = Ok specs_error.
Proof.
  apply (analyze_specs_degrades broken_env
           {| sku_data := str "P001 Cable 11kV" |}
           (str "Title: Cable supply") orchestrator)
    with (e := OtherError "ServiceUnavailable"); reflexivity.
Defined.

(** C7, as the specification words it, fails: the response [{}] parses, has
    none of the required keys, and is returned as it is, not replaced by the
    degraded result. *)
Lemma analyze_specs_missing_keys_counterexample :
  let E := sample_env (Ok (str "{}")) in
  let self := {| sku_data := str "P001 Cable 11kV" |} in
  json_loads E (clean (str "{}")) = Ok (PDict ∅)
  /\ lacks_required_key (PDict ∅)
  /\ fst (analyze_specs E self (str "Title: Cable supply") orchestrator)
     = Ok (PDict ∅)
  /\ PDict ∅ <> specs_error.
Proof.
  split; [reflexivity|]. split; [left; reflexivity|].
  split; [reflexivity|].
  intros H.
  apply (f_equal (fun v => match v with
                           | PDict d => d !! str "matched_skus"
                           | _ => None
                           end)) in H.
  discriminate H.
Qed.

(** ** Cleaning the response text *)

Lemma is_prefix_app p s : is_prefix p (p ++ s) = true.
Proof.
  induction p as [|a p IH]; simpl; [reflexivity|].
  rewrite N.eqb_refl. exact IH.
Qed.

Lemma is_prefix_spec p s : is_prefix p s = true <-> exists b, s = p ++ b.
Proof.
  split.
  - revert s. induction p as [|a p IH]; intros s H; simpl in *.
    + exists s. reflexivity.
    + destruct s as [|c s]; [discriminate|].
      apply andb_prop in H as [Hc Hp]. apply N.eqb_eq in Hc. subst c.
      destruct (IH s Hp) as [b ->]. exists b. reflexivity.
  - intros [b ->]. apply is_prefix_app.
Qed.

Lemma occurs_spec p s :
  occurs p s = true <-> exists a b, s = a ++ p ++ b.
Proof.
  split.
  - induction s as [|c s IH]; simpl; intros H.
    + rewrite orb_false_r in H. apply is_prefix_spec in H as [b Hb].
      exists [], b. exact Hb.
    + apply orb_prop in H as [H|H].
      * apply is_prefix_spec in H as [b Hb]. exists [], b. exact Hb.
      * destruct (IH H) as (a & b & ->). exists (c :: a), b. reflexivity.
  - intros (a & b & ->). induction a as [|c a IH].
    + assert (Hp := is_prefix_app p b). simpl app.
      destruct (p ++ b); simpl; rewrite Hp; reflexivity.
    + simpl. simpl in IH. rewrite IH. apply orb_true_r.
Qed.

(** Skipping the rest of an occurrence. *)
Lemma replace_from_skip old new l s :
  replace_from old new (List.length l) (l ++ s) = replace_from old new 0 s.
Proof.
  induction l as [|c l IH]; simpl; [reflexivity|exact IH].
Qed.

(** An occurrence at the head is replaced. *)
Lemma replace_head old new s :
  old <> [] -> replace old new (old ++ s) = new ++ replace old new s.
Proof.
  intros Hne. unfold replace.
  destruct old as [|c old]; [congruence|].
  change ((c :: old) ++ s) with (c :: (old ++ s)).
  cbn [replace_from].
  change (c :: (old ++ s)) with ((c :: old) ++ s).
  rewrite is_prefix_app. f_equal.
  replace (List.length (c :: old) - 1)%nat with (List.length old)
    by (simpl; lia).
  apply replace_from_skip.
Qed.

(** A text without backticks has no occurrence of a pattern that starts
    with one, and is copied. *)
Lemma replace_no_backtick old new a s :
  no_backtick a ->
  replace (backtick :: old) new (a ++ s)
  = a ++ replace (backtick :: old) new s.
Proof.
  unfold replace. induction 1 as [|c a Hc _ IH]; [reflexivity|].
  change ((c :: a) ++ s) with (c :: (a ++ s)).
  cbn [replace_from is_prefix].
  destruct (N.eqb_spec backtick c) as [Heq|_];
    [symmetry in Heq; contradiction|].
  simpl. f_equal. exact IH.
Qed.

Lemma replace_no_backtick_id old new a :
  no_backtick a -> replace (backtick :: old) new a = a.
Proof.
  intros Ha. rewrite <- (app_nil_r a) at 1.
  rewrite replace_no_backtick by exact Ha.
  unfold replace. simpl. apply app_nil_r.
Qed.

Lemma lstrip_snoc_space t c :
  isspace c = true ->
  lstrip (t ++ [c]) = match lstrip t with [] => [] | u => u ++ [c] end.
Proof.
  intros Hc. induction t as [|d t IH]; simpl.
  - rewrite Hc. reflexivity.
  - destruct (isspace d); [exact IH|reflexivity].
Qed.

Lemma rstrip_snoc_space u c :
  isspace c = true -> rstrip (u ++ [c]) = rstrip u.
Proof.
  intros Hc. unfold rstrip. rewrite rev_app_distr. simpl.
  rewrite Hc. reflexivity.
Qed.

Lemma strip_between_spaces c d t :
  isspace c = true -> isspace d = true ->
  strip ([c] ++ t ++ [d]) = strip t.
Proof.
  intros Hc Hd. unfold strip. simpl. rewrite Hc.
  rewrite (lstrip_snoc_space t d Hd).
  destruct (lstrip t) as [|x u] eqn:Hl; [reflexivity|].
  apply (rstrip_snoc_space (x :: u) d Hd).
Qed.

Lemma fence_json_head : fence_json = backtick :: str "``json".
Proof. reflexivity. Qed.

Lemma fence_head : fence = backtick :: str "``".
Proof. reflexivity. Qed.

(** The fenced text cleans to what the bare text cleans to. *)
Lemma clean_fenced t : no_backtick t -> clean (fenced t) = clean t.
Proof.
  intros Ht. unfold clean.
  assert (Hnl : no_backtick ([10%N] ++ t ++ [10%N])).
  { apply Forall_app. split; [repeat constructor; discriminate|].
    apply Forall_app. split; [exact Ht|repeat constructor; discriminate]. }
  assert (H1 : replace fence_json [] (fenced t)
               = ([10%N] ++ t ++ [10%N]) ++ fence).
  { unfold fenced. rewrite (replace_head fence_json []) by discriminate.
    replace ([10%N] ++ t ++ [10%N] ++ fence)
      with (([10%N] ++ t ++ [10%N]) ++ fence)
      by (rewrite <- !app_assoc; reflexivity).
    rewrite fence_json_head, (replace_no_backtick _ _ _ _ Hnl).
    reflexivity. }
  assert (H2 : replace fence [] (([10%N] ++ t ++ [10%N]) ++ fence)
               = [10%N] ++ t ++ [10%N]).
  { rewrite fence_head at 1. rewrite (replace_no_backtick _ _ _ _ Hnl).
    rewrite <- fence_head.
    replace (replace fence [] fence) with (@nil N) by reflexivity.
    apply app_nil_r. }
  rewrite H1, H2.
  rewrite fence_json_head, (replace_no_backtick_id _ _ t Ht).
  rewrite fence_head, (replace_no_backtick_id _ _ t Ht).
  apply strip_between_spaces; reflexivity.
Qed.

Lemma occurs_cons p c s :
  occurs p (c :: s) = is_prefix p (c :: s) || occurs p s.
Proof. reflexivity. Qed.

Lemma is_prefix_cons a p c s :
  is_prefix (a :: p) (c :: s) = N.eqb a c && is_prefix p s.
Proof. reflexivity. Qed.

Lemma fence_cons : fence = backtick :: [backtick; backtick].
Proof. reflexivity. Qed.

(** What [replace("```", "")] returns has no fence left; and it starts with
    one (two) backticks only if the text did. *)
Lemma replace_fence_free s : forall k,
  occurs fence (replace_from fence [] k s) = false
  /\ (k = 0%nat ->
      is_prefix [backtick] (replace_from fence [] 0 s) = true ->
      is_prefix [backtick] s = true)
  /\ (k = 0%nat ->
      is_prefix [backtick; backtick] (replace_from fence [] 0 s) = true ->
      is_prefix [backtick; backtick] s = true).
Proof.
  induction s as [|c s IH]; intros k.
  - destruct k; simpl; auto.
  - destruct k as [|k].
    + cbn [replace_from].
      destruct (is_prefix fence (c :: s)) eqn:Hp.
      * destruct (IH 2%nat) as (Hfree & _ & _).
        split; [exact Hfree|].
        apply is_prefix_spec in Hp as [b Hb]. rewrite Hb.
        split; intros; reflexivity.
      * destruct (IH 0%nat) as (Hfree & H1 & H2).
        specialize (H1 eq_refl). specialize (H2 eq_refl).
        rewrite fence_cons, is_prefix_cons in Hp.
        split; [|split].
        -- rewrite occurs_cons, Hfree, orb_false_r.
           rewrite fence_cons, is_prefix_cons.
           destruct (N.eqb backtick c); [|reflexivity].
           rewrite andb_true_l in Hp |- *.
           destruct (is_prefix [backtick; backtick]
                       (replace_from (backtick :: [backtick; backtick])
                          [] 0 s)) eqn:Hq; [|reflexivity].
           rewrite <- fence_cons in Hq. apply H2 in Hq. congruence.
        -- intros _ Hq. rewrite is_prefix_cons in Hq |- *.
           apply andb_prop in Hq as [-> _]. reflexivity.
        -- intros _ Hq. rewrite is_prefix_cons in Hq |- *.
           apply andb_prop in Hq as [Hc Hq]. rewrite Hc.
           rewrite andb_true_l. apply H1. exact Hq.
    + destruct (IH k) as (Hfree & _ & _).
      split; [exact Hfree|]. split; intros; discriminate.
Qed.

Lemma lstrip_suffix s : exists pre, s = pre ++ lstrip s.
Proof.
  induction s as [|c s [pre IH]]; simpl.
  - exists []. reflexivity.
  - destruct (isspace c).
    + exists (c :: pre). simpl. f_equal. exact IH.
    + exists []. reflexivity.
Qed.

Lemma rstrip_prefix s : exists post, s = rstrip s ++ post.
Proof.
  unfold rstrip. destruct (lstrip_suffix (rev s)) as [pre H].
  exists (rev pre). rewrite <- rev_app_distr, <- H, rev_involutive.
  reflexivity.
Qed.

Lemma lstrip_head s c rest : lstrip s = c :: rest -> isspace c = false.
Proof.
  induction s as [|d s IH]; simpl; [discriminate|].
  destruct (isspace d) eqn:Hd; [exact IH|].
  intros [= <- _]. exact Hd.
Qed.

Lemma strip_head s c rest : strip s = c :: rest -> isspace c = false.
Proof.
  unfold strip. intros H.
  destruct (rstrip_prefix (lstrip s)) as [post Hpost].
  rewrite H in Hpost. simpl in Hpost.
  apply (lstrip_head s c (rest ++ post)). exact Hpost.
Qed.

Lemma strip_last s init c : strip s = init ++ [c] -> isspace c = false.
Proof.
  unfold strip, rstrip. intros H.
  apply (f_equal (@rev N)) in H.
  rewrite rev_involutive, rev_app_distr in H. simpl in H.
  apply (lstrip_head _ _ _ H).
Qed.

Lemma strip_occurs p s : occurs p (strip s) = true -> occurs p s = true.
Proof.
  intros H. apply occurs_spec in H as (a & b & H).
  apply occurs_spec.
  destruct (lstrip_suffix s) as [pre Hpre].
  destruct (rstrip_prefix (lstrip s)) as [post Hpost].
  unfold strip in H. rewrite H in Hpost. rewrite Hpost in Hpre.
  exists (pre ++ a), (b ++ post). rewrite Hpre.
  rewrite <- !app_assoc. reflexivity.
Qed.

Lemma clean_fence_free text : occurs fence (clean text) = false.
Proof.
  unfold clean.
  destruct (occurs fence (strip _)) eqn:H; [|reflexivity].
  apply strip_occurs in H. unfold replace in H.
  rewrite (proj1 (replace_fence_free _ 0%nat)) in H. discriminate H.
Qed.

(** A fence between two texts without backticks is deleted, the two texts
    being joined (a fence followed by [json] goes with that word). *)
Lemma clean_inner_fence a b :
  no_backtick a -> no_backtick b -> is_prefix (str "json") b = false ->
  clean (a ++ fence ++ b) = clean (a ++ b).
Proof.
  intros Ha Hb Hj. unfold clean.
  assert (Hab : no_backtick (a ++ b)) by (apply Forall_app; auto).
  assert (H1 : replace fence_json [] (fence ++ b) = fence ++ b).
  { assert (Hb' := replace_no_backtick_id (str "``json") [] b Hb).
    rewrite <- fence_json_head in Hb'. unfold replace in Hb' |- *.
    change (fence ++ b) with (backtick :: backtick :: backtick :: b).
    cbn [replace_from].
    change (is_prefix fence_json (backtick :: backtick :: backtick :: b))
      with (is_prefix (str "json") b).
    rewrite Hj. f_equal.
    destruct b as [|c b]; [reflexivity|].
    assert (Hc : N.eqb backtick c = false).
    { apply N.eqb_neq. inversion Hb; subst. auto. }
    cbn [replace_from] in Hb' |- *.
    change (is_prefix fence_json (backtick :: backtick :: c :: b))
      with (N.eqb backtick c && is_prefix (str "json") b).
    change (is_prefix fence_json (backtick :: c :: b))
      with (N.eqb backtick c && is_prefix (str "`json") b).
    rewrite Hc. simpl andb. f_equal. f_equal.
    exact Hb'. }
  assert (H2 : replace fence [] (fence ++ b) = b).
  { rewrite (replace_head fence []) by discriminate.
    rewrite fence_head. apply (replace_no_backtick_id _ _ b Hb). }
  rewrite fence_json_head at 1. rewrite (replace_no_backtick _ _ _ _ Ha).
  rewrite <- fence_json_head, H1.
  rewrite fence_head at 1. rewrite (replace_no_backtick _ _ _ _ Ha).
  rewrite <- fence_head, H2.
  rewrite fence_json_head, (replace_no_backtick_id _ _ _ Hab).
  rewrite fence_head, (replace_no_backtick_id _ _ _ Hab).
  reflexivity.
Qed.

Lemma occurs_fence_json s :
  occurs fence_json s = true -> occurs fence s = true.
Proof.
  intros H. apply occurs_spec in H as (a & b & ->).
  apply occurs_spec. exists a, (str "json" ++ b). reflexivity.
Qed.

(** C9: the cleaning deletes fences wherever they stand. No ["```"] (hence
    no ["```json"]) is left in the cleaned text, which has no whitespace at
    either end; both stages parse the cleaned text; for a text [t] without
    backticks, the fenced text ["```json\n" + t + "\n```"] cleans to the
    same text as [t] and both stages return the same on the two; and a
    fence inside the text, as in a JSON string value, is deleted too. *)
Theorem code_fence_stripping :
  (forall text a b, clean text <> a ++ fence ++ b)
  /\ (forall text a b, clean text <> a ++ fence_json ++ b)
  /\ (forall text c rest, clean text = c :: rest -> isspace c = false)
  /\ (forall text init c, clean text = init ++ [c] -> isspace c = false)
  /\ (forall E self rfp_text w text,
        generate_content E (TechnicalPrompt (sku_data self) rfp_text)
          = Ok text ->
        fst (analyze_specs E self rfp_text w)
        = res_try (json_loads E (clean text))
            (fun e =>
               let? _ := technical_agent_error E e in
               Ok specs_error))
  /\ (forall E self skus specs w text,
        generate_content E (PricingPrompt (pricing_data self) skus specs)
          = Ok text ->
        fst (calculate_costs E self skus specs w)
        = (let? _ := py_format E skus in
           let? _ := py_format E specs in
           res_try (json_loads E (clean text))
             (fun e =>
                let? _ := pricing_agent_error E e in
                Ok costs_error)))
  /\ (forall t, no_backtick t -> clean (fenced t) = clean t)
  /\ (forall E t self rfp_text w, no_backtick t ->
        analyze_specs (with_reply E (fenced t)) self rfp_text w
        = analyze_specs (with_reply E t) self rfp_text w)
  /\ (forall E t self skus specs w, no_backtick t ->
        calculate_costs (with_reply E (fenced t)) self skus specs w
        = calculate_costs (with_reply E t) self skus specs w)
  /\ (forall a b, no_backtick a -> no_backtick b ->
        is_prefix (str "json") b = false ->
        clean (a ++ fence ++ b) = clean (a ++ b))
  /\ clean note_with_fences = note_without_fences.
Proof.
  repeat apply conj.
  - intros text a b H.
    assert (Ho : occurs fence (clean text) = true)
      by (apply occurs_spec; eauto).
    rewrite clean_fence_free in Ho. discriminate Ho.
  - intros text a b H.
    assert (Ho : occurs fence (clean text) = true)
      by (apply occurs_fence_json, occurs_spec; eauto).
    rewrite clean_fence_free in Ho. discriminate Ho.
  - intros text c rest. apply strip_head.
  - intros text init c. apply strip_last.
  - intros E self x w text Ht.
    rewrite analyze_specs_sent. unfold technical_value, stage_value.
    rewrite Ht. reflexivity.
  - intros E self skus specs w text Ht.
    rewrite calculate_costs_run.
    unfold pricing_value, stage_value, format_holes.
    rewrite Ht.
    destruct (py_format E skus); [|reflexivity].
    destruct (py_format E specs); reflexivity.
  - exact clean_fenced.
  - intros E t self x w Ht.
    rewrite !analyze_specs_sent. unfold technical_value, stage_value.
    cbn [generate_content with_reply res_bind]. rewrite (clean_fenced t Ht).
    reflexivity.
  - intros E t self skus specs w Ht.
    rewrite !calculate_costs_run. unfold pricing_value, stage_value.
    cbn [generate_content with_reply res_bind]. rewrite (clean_fenced t Ht).
    reflexivity.
  - exact clean_inner_fence.
  - reflexivity.
Qed.

Lemma code_fence_stripping_witness :
  clean (fenced (str "{}")) = str "{}"
  /\ fst (analyze_specs (with_reply broken_env (fenced (str "{}")))
            {| sku_data := [] |} (str "Title: ") orchestrator)
     = Ok (PDict ∅).
Proof.
  destruct code_fence_stripping
    as (_ & _ & _ & _ & _ & _ & Hclean & Hspecs & _).
  assert (Hnb : no_backtick (str "{}"))
    by (repeat constructor; discriminate).
  split.
  - rewrite (Hclean (str "{}") Hnb). reflexivity.
  - rewrite (Hspecs broken_env (str "{}") {| sku_data := [] |}
               (str "Title: ") orchestrator Hnb).
    reflexivity.
Defined.

(** ** Rounding: bounds and validity *)

Module F64Facts.
Import F64.
Local Open Scope Z_scope.

Lemma rne_le a b c : 0 < b -> a <= c * b -> rne a b <= c.
Proof.
  intros Hb Hac. unfold rne.
  pose proof (Z.div_mod a b ltac:(lia)) as Hdm.
  pose proof (Z.mod_pos_bound a b Hb) as Hr.
  destruct (Z.compare_spec (2 * (a mod b)) b); [destruct (Z.even _)|..]; nia.
Qed.

Lemma rne_ge a b c : 0 < b -> c * b <= a -> c <= rne a b.
Proof.
  intros Hb Hac. unfold rne.
  pose proof (Z.div_mod a b ltac:(lia)) as Hdm.
  pose proof (Z.mod_pos_bound a b Hb) as Hr.
  destruct (Z.compare_spec (2 * (a mod b)) b); [destruct (Z.even _)|..]; nia.
Qed.

Lemma rne_exact b c : 0 < b -> rne (c * b) b = c.
Proof.
  intros Hb. apply Z.le_antisymm; [apply rne_le|apply rne_ge]; lia.
Qed.

Lemma ulp_exp_nonneg n : 0 <= ulp_exp n.
Proof. unfold ulp_exp. lia. Qed.

Lemma ulp_exp_mono m n : m <= n -> ulp_exp m <= ulp_exp n.
Proof.
  intros H. unfold ulp_exp. pose proof (Z.log2_le_mono m n H). lia.
Qed.

Lemma pow2_pos s : 0 <= s -> 0 < 2 ^ s.
Proof. intros. apply Z.pow_pos_nonneg; lia. Qed.

(** A multiple of a power of two is a multiple of the smaller powers. *)
Lemma divide_pow2_le s t c : 0 <= s <= t -> (2 ^ t | c) -> (2 ^ s | c).
Proof.
  intros Hst [k ->]. exists (k * 2 ^ (t - s)).
  rewrite <- Z.mul_assoc, <- Z.pow_add_r by lia. do 2 f_equal. lia.
Qed.

Lemma round_mag_le p q c :
  0 <= p -> 0 < q -> 0 <= c -> (2 ^ ulp_exp c | c) -> p <= c * q ->
  round_mag p q <= c.
Proof.
  intros Hp Hq Hc Hdiv Hpc. unfold round_mag.
  assert (Hfl : p / q <= c) by (apply Z.div_le_upper_bound; lia).
  pose proof (ulp_exp_mono _ _ Hfl) as Hs.
  pose proof (ulp_exp_nonneg (p / q)) as Hs0.
  set (s := ulp_exp (p / q)) in *.
  destruct (divide_pow2_le s _ c (conj Hs0 Hs) Hdiv) as [c' ->].
  pose proof (pow2_pos s Hs0) as H2.
  assert (rne p (q * 2 ^ s) <= c') by (apply rne_le; nia).
  nia.
Qed.

Lemma round_mag_ge p q c :
  0 <= p -> 0 < q -> 0 <= c -> (2 ^ ulp_exp c | c) -> c * q <= p ->
  c <= round_mag p q.
Proof.
  intros Hp Hq Hc Hdiv Hpc. unfold round_mag.
  assert (Hfl : c <= p / q) by (apply Z.div_le_lower_bound; lia).
  pose proof (ulp_exp_mono _ _ Hfl) as Hs.
  pose proof (ulp_exp_nonneg c) as Hs0.
  set (s := ulp_exp (p / q)) in *.
  pose proof (pow2_pos s ltac:(lia)) as H2.
  destruct (Z.eq_dec s (ulp_exp c)) as [Heq|Hne].
  - rewrite <- Heq in Hdiv. destruct Hdiv as [c' ->].
    assert (c' <= rne p (q * 2 ^ s)) by (apply rne_ge; nia).
    nia.
  - (* the binade of [p / q] lies above [c] *)
    assert (Hs1 : s = Z.log2 (p / q) - 52) by (unfold s, ulp_exp in *; lia).
    assert (Hlog : Z.log2 c < Z.log2 (p / q))
      by (unfold s, ulp_exp in *; lia).
    assert (Hflpos : 0 < p / q).
    { destruct (Z.le_gt_cases (p / q) 0) as [H0|H0]; [|exact H0].
      rewrite (Z.log2_nonpos _ H0) in Hlog.
      pose proof (Z.log2_nonneg c). lia. }
    destruct (Z.log2_spec _ Hflpos) as [Hlo _].
    assert (Hc2 : c < 2 ^ Z.log2 (p / q)).
    { destruct (Z.eq_dec c 0) as [->|Hc0]; [apply pow2_pos, Z.log2_nonneg|].
      destruct (Z.log2_spec c ltac:(lia)) as [_ Hhi].
      eapply Z.lt_le_trans; [exact Hhi|].
      apply Z.pow_le_mono_r; lia. }
    assert (Hsplit : 2 ^ Z.log2 (p / q) = 2 ^ 52 * 2 ^ s).
    { rewrite <- Z.pow_add_r by lia. f_equal. lia. }
    pose proof (Z.mul_div_le p q Hq) as Hmd.
    assert (2 ^ 52 <= rne p (q * 2 ^ s)) by (apply rne_ge; nia).
    nia.
Qed.

(** The mantissa of a rounded magnitude has at most 53 bits, or is 2^53. *)
Lemma round_mag_mantissa p q :
  0 <= p -> 0 < q -> 0 <= rne p (q * 2 ^ ulp_exp (p / q)) <= 2 ^ 53.
Proof.
  intros Hp Hq.
  pose proof (ulp_exp_nonneg (p / q)) as Hs0.
  set (s := ulp_exp (p / q)) in *.
  pose proof (pow2_pos s Hs0) as H2.
  split; [apply rne_ge; nia|].
  apply rne_le; [nia|].
  assert (Hfl : p / q < 2 ^ (53 + s)).
  { destruct (Z.le_gt_cases (p / q) 0) as [H0|H0].
    - pose proof (pow2_pos (53 + s) ltac:(lia)). lia.
    - destruct (Z.log2_spec _ H0) as [_ Hhi].
      eapply Z.lt_le_trans; [exact Hhi|].
      apply Z.pow_le_mono_r; [lia|]. unfold s, ulp_exp. lia. }
  rewrite Z.pow_add_r in Hfl by lia.
  pose proof (Z.div_mod p q ltac:(lia)) as Hdm.
  pose proof (Z.mod_pos_bound p q Hq) as Hr.
  pose proof (pow2_pos 53 ltac:(lia)) as H53.
  nia.
Qed.

(** A rounded magnitude is a multiple of the spacing of its own binade. *)
Lemma round_mag_multiple p q :
  0 <= p -> 0 < q ->
  0 <= round_mag p q /\ (2 ^ ulp_exp (round_mag p q) | round_mag p q).
Proof.
  intros Hp Hq.
  pose proof (round_mag_mantissa p q Hp Hq) as [Hj0 Hj].
  unfold round_mag.
  pose proof (ulp_exp_nonneg (p / q)) as Hs0.
  set (s := ulp_exp (p / q)) in *.
  set (j := rne p (q * 2 ^ s)) in *.
  pose proof (pow2_pos s Hs0) as H2.
  split; [nia|].
  destruct (Z.eq_dec j (2 ^ 53)) as [->|Hne].
  - rewrite <- Z.pow_add_r by lia.
    unfold ulp_exp. rewrite Z.log2_pow2 by lia.
    apply (divide_pow2_le _ (53 + s)); [lia|]. apply Z.divide_refl.
  - destruct (Z.eq_dec j 0) as [->|Hj1].
    + rewrite Z.mul_0_l. apply Z.divide_0_r.
    + apply (divide_pow2_le _ s); [|exists j; reflexivity].
      split; [apply ulp_exp_nonneg|].
      unfold ulp_exp. rewrite Z.log2_mul_pow2 by lia.
      assert (Z.log2 j < 53) by (apply Z.log2_lt_pow2; lia).
      lia.
Qed.

Lemma unit_inv_pos : 0 < unit_inv.
Proof. unfold unit_inv, emin. apply Z.pow_pos_nonneg; lia. Qed.

Lemma huge_pos : 0 < huge.
Proof. unfold huge. apply Z.pow_pos_nonneg; lia. Qed.

Lemma unit_inv_eq : unit_inv = 2 ^ 1074.
Proof. reflexivity. Qed.

Lemma huge_eq : huge = 2 ^ 2098.
Proof. reflexivity. Qed.

(** 100.0 and 2^1023, in units. *)
Lemma f100_0_units : f100_0 = Ffin (100 * unit_inv).
Proof. vm_compute. reflexivity. Qed.

Lemma representable_100 : representable (100 * unit_inv).
Proof.
  split; [split|].
  - vm_compute. discriminate.
  - apply Z.ltb_lt. vm_compute. reflexivity.
  - exists (100 * 2 ^ 46). vm_compute. reflexivity.
Qed.

Lemma representable_half_huge : representable (2 ^ 2097).
Proof.
  split; [split|].
  - vm_compute. discriminate.
  - apply Z.ltb_lt. vm_compute. reflexivity.
  - exists (2 ^ 52). vm_compute. reflexivity.
Qed.

Lemma half_huge_units : 2 ^ 2097 = 2 ^ 1023 * unit_inv.
Proof. vm_compute. reflexivity. Qed.

Opaque unit_inv huge.

Lemma valid_pos_zero : valid (Ffin 0).
Proof.
  unfold valid, representable. change (Z.abs 0) with 0.
  pose proof huge_pos. split; [lia|apply Z.divide_0_r].
Qed.

Lemma round_f64_valid neg p q : 0 <= p -> 0 < q -> valid (round_f64 neg p q).
Proof.
  intros Hp Hq. unfold round_f64.
  destruct (round_mag_multiple p q Hp Hq) as [Hm0 Hdiv].
  destruct (Z.leb_spec huge (round_mag p q)); [exact I|].
  destruct (Z.eqb_spec (round_mag p q) 0);
    [destruct neg; [exact I|exact valid_pos_zero]|].
  assert (Habs : Z.abs (if neg then - round_mag p q else round_mag p q)
                 = round_mag p q) by (destruct neg; lia).
  unfold valid, representable. rewrite Habs. auto.
Qed.

Lemma mul_valid x y : valid (mul x y).
Proof.
  pose proof unit_inv_pos as HU.
  assert (Hr : forall a b neg,
             valid (round_f64 neg (Z.abs a * Z.abs b) unit_inv))
    by (intros; apply round_f64_valid; lia).
  unfold mul.
  destruct x as [|sx| |kx], y as [|sy| |ky];
    lazymatch goal with
    | |- valid Fnan => exact I
    | |- valid (if ?c then Fnan else Finf _) => destruct c; exact I
    | |- _ => apply Hr
    end.
Qed.

Lemma add_valid x y : valid (add x y).
Proof.
  assert (Hg : forall (b : bool) s,
             valid (if s =? 0 then (if b then Fnzero else Ffin 0)
                    else round_f64 (s <? 0) (Z.abs s) 1)).
  { intros b s. destruct (s =? 0).
    - destruct b; [exact I|exact valid_pos_zero].
    - apply round_f64_valid; lia. }
  unfold add.
  destruct x as [|sx| |kx], y as [|sy| |ky];
    lazymatch goal with
    | |- valid Fnan => exact I
    | |- valid (Finf _) => exact I
    | |- valid (if Bool.eqb _ _ then _ else _) =>
        destruct (Bool.eqb sx sy); exact I
    | |- _ => cbv zeta; apply Hg
    end.
Qed.

Lemma sub_valid x y : valid (sub x y).
Proof. apply add_valid. Qed.

Lemma rne_0 b : 0 < b -> rne 0 b = 0.
Proof. intros. apply (rne_exact b 0). exact H. Qed.

Lemma round_mag_0 q : 0 < q -> round_mag 0 q = 0.
Proof.
  intros Hq. unfold round_mag. rewrite Z.div_0_l by lia.
  change (ulp_exp 0) with 0. rewrite rne_0 by lia. reflexivity.
Qed.

Lemma representable_0 : representable 0.
Proof. exact valid_pos_zero. Qed.

Lemma valid_mag x : valid x -> representable (mag x).
Proof.
  destruct x; intros H; try exact representable_0. exact H.
Qed.

(** Rounding a representable magnitude to two decimals stays below
    [huge]; it stays on the same side of 100. *)
Lemma round2_mag a :
  representable a ->
  let m := round_mag (rne (a * 100) unit_inv * unit_inv) 100 in
  0 <= m < huge
  /\ (a <= 100 * unit_inv -> m <= 100 * unit_inv)
  /\ (100 * unit_inv <= a -> 100 * unit_inv <= m)
  /\ (a = 0 -> m = 0).
Proof.
  intros [[Ha0 Hah] Hdiv].
  pose proof unit_inv_pos as HU.
  assert (Hzero : a = 0 ->
                  round_mag (rne (a * 100) unit_inv * unit_inv) 100 = 0).
  { intros Heq. rewrite Heq. change (0 * 100) with 0.
    rewrite (rne_0 _ HU). change (0 * unit_inv) with 0.
    apply round_mag_0. lia. }
  intros m.
  set (n := rne (a * 100) unit_inv) in *.
  assert (Hn0 : 0 <= n) by (apply rne_ge; lia).
  assert (Hp : 0 <= n * unit_inv) by (apply Z.mul_nonneg_nonneg; lia).
  assert (Hm0 : 0 <= m) by (apply (round_mag_multiple _ 100); lia).
  destruct representable_100 as [[H100 H100h] H100d].
  split; [split; [exact Hm0|]|split; [|split; [|exact Hzero]]].
  - destruct (Z.le_gt_cases a (2 ^ 2097)) as [Hle|Hgt].
    + destruct representable_half_huge as [[HT0 HTh] HTd].
      apply Z.le_lt_trans with (2 ^ 2097); [|exact HTh].
      apply round_mag_le; [exact Hp|lia|exact HT0|exact HTd|].
      rewrite half_huge_units in Hle |- *.
      assert (Hn : n <= 100 * 2 ^ 1023).
      { apply rne_le; [exact HU|].
        replace (100 * 2 ^ 1023 * unit_inv)
          with (2 ^ 1023 * unit_inv * 100) by ring.
        apply Z.mul_le_mono_nonneg_r; [lia|exact Hle]. }
      replace (2 ^ 1023 * unit_inv * 100)
        with (100 * 2 ^ 1023 * unit_inv) by ring.
      apply Z.mul_le_mono_nonneg_r; [lia|exact Hn].
    + assert (Hlog : 2097 <= Z.log2 a).
      { apply Z.log2_le_pow2; lia. }
      assert (HUa : (2 ^ 1074 | a)).
      { apply (divide_pow2_le _ (ulp_exp a)); [|exact Hdiv].
        unfold ulp_exp. lia. }
      rewrite <- unit_inv_eq in HUa. destruct HUa as [a' Ha'].
      assert (Hn : n = a' * 100).
      { unfold n. rewrite Ha'.
        replace (a' * unit_inv * 100) with (a' * 100 * unit_inv) by ring.
        apply rne_exact. exact HU. }
      apply Z.le_lt_trans with a; [|exact Hah].
      apply round_mag_le; [exact Hp|lia|exact Ha0|exact Hdiv|].
      rewrite Hn, Ha'. lia.
  - intros Hle.
    apply round_mag_le; [exact Hp|lia|exact H100|exact H100d|].
    assert (Hn : n <= 10000) by (apply rne_le; lia).
    replace (100 * unit_inv * 100) with (10000 * unit_inv) by ring.
    apply Z.mul_le_mono_nonneg_r; [lia|exact Hn].
  - intros Hge.
    apply round_mag_ge; [exact Hp|lia|exact H100|exact H100d|].
    assert (Hn : 10000 <= n) by (apply rne_ge; lia).
    replace (100 * unit_inv * 100) with (10000 * unit_inv) by ring.
    apply Z.mul_le_mono_nonneg_r; [lia|exact Hn].
Qed.

(** [round(x, 2)] of a finite double is finite, keeps the sign, and stays
    on the same side of 100. *)
Lemma round2_finite x :
  valid x -> is_finite x = true ->
  exists m,
    0 <= m < huge
    /\ round2 x = (if m =? 0 then (if sign x then Fnzero else Ffin 0)
                   else Ffin (if sign x then - m else m))
    /\ (mag x <= 100 * unit_inv -> m <= 100 * unit_inv)
    /\ (100 * unit_inv <= mag x -> 100 * unit_inv <= m)
    /\ (mag x = 0 -> m = 0).
Proof.
  intros Hv Hf.
  destruct (round2_mag (mag x) (valid_mag x Hv)) as (Hm & Hle & Hge & Hz).
  set (m := round_mag (rne (mag x * 100) unit_inv * unit_inv) 100) in *.
  exists m. split; [exact Hm|]. split; [|repeat split; assumption].
  assert (Hr : round2 x
               = round_f64 (sign x)
                   (rne (mag x * 100) unit_inv * unit_inv) 100)
    by (destruct x; first [discriminate Hf | reflexivity]).
  rewrite Hr. unfold round_f64. fold m.
  destruct (Z.leb_spec huge m); [lia|reflexivity].
Qed.

Lemma hundred_pos : 0 < 100 * unit_inv.
Proof. pose proof unit_inv_pos. lia. Qed.

Lemma compare_finite x y :
  is_finite x = true -> is_finite y = true ->
  F64.compare x y = Some (units x ?= units y).
Proof. destruct x, y; intros; try discriminate; reflexivity. Qed.

(** [min(x, 100.0)] and [max(0, x)] on finite doubles. *)
Lemma py_min_100 x :
  is_finite x = true ->
  py_min (NFloat x) (NFloat (Ffin (100 * unit_inv)))
  = if 100 * unit_inv <? units x then NFloat (Ffin (100 * unit_inv))
    else NFloat x.
Proof.
  intros Hx. unfold py_min, num_lt, num_compare.
  rewrite compare_finite by (exact Hx || reflexivity).
  cbn [units]. rewrite Z.ltb_compare.
  destruct (100 * unit_inv ?= units x); reflexivity.
Qed.

Lemma py_max_0 x :
  is_finite x = true ->
  py_max (NInt 0) (NFloat x) = if 0 <? units x then NFloat x else NInt 0.
Proof.
  intros Hx. unfold py_max, num_gt, num_compare.
  assert (Hc : (match x with
                | Fnan => None
                | Finf s => Some (if s then Lt else Gt)
                | _ => Some (units x ?= 0 * unit_inv)
                end) = Some (units x ?= 0))
    by (destruct x; first [discriminate Hx | reflexivity]).
  rewrite Hc, Z.ltb_compare, (Z.compare_antisym (units x) 0).
  destruct (units x ?= 0); reflexivity.
Qed.

Lemma py_round2_100 :
  py_round2 (NFloat (Ffin (100 * unit_inv)))
  = Ok (NFloat (Ffin (100 * unit_inv))).
Proof. vm_compute. reflexivity. Qed.

(** Rounding then clamping gives what clamping then rounding gives. *)
Lemma round_clamp_commute b :
  valid b ->
  same_outcome
    (let? rounded := py_round2 (NFloat b) in
     Ok (py_max (NInt 0) (py_min rounded (NFloat f100_0))))
    (py_round2 (clamp_0_100 (NFloat b))).
Proof.
  intros Hv. unfold clamp_0_100. rewrite f100_0_units.
  pose proof hundred_pos as HH.
  destruct (is_finite b) eqn:Hf.
  - destruct (round2_finite b Hv Hf)
      as (m & [Hm0 Hmh] & Hr & Hle & Hge & Hz).
    set (r := round2 b) in *.
    assert (Hrf : is_finite r = true)
      by (rewrite Hr; destruct (m =? 0), (sign b); reflexivity).
    assert (Hru : units r = if sign b then - m else m).
    { rewrite Hr. destruct (Z.eqb_spec m 0) as [->|_], (sign b);
        reflexivity. }
    assert (Hpr : py_round2 (NFloat b) = Ok (NFloat r)).
    { unfold py_round2. fold r. rewrite Hr.
      destruct (m =? 0), (sign b); reflexivity. }
    assert (Hside : (units b <= 0 -> units r <= 0)
                    /\ (0 <= units b -> 0 <= units r)
                    /\ (units b <= 100 * unit_inv
                        -> units r <= 100 * unit_inv)
                    /\ (100 * unit_inv <= units b
                        -> 100 * unit_inv <= units r)).
    { rewrite Hru. unfold mag in Hle, Hge, Hz.
      destruct b; try discriminate Hf; cbn [sign units] in *.
      - specialize (Hz eq_refl). lia.
      - destruct (Z.ltb_spec k 0); lia. }
    clearbody r. clear Hr Hru Hle Hge Hz Hm0 Hmh m.
    destruct Hside as (Hs1 & Hs2 & Hs3 & Hs4).
    rewrite Hpr. cbn [res_bind].
    rewrite (py_min_100 r Hrf), (py_min_100 b Hf).
    destruct (Z.ltb_spec (100 * unit_inv) (units r)) as [Hr1|Hr1];
      destruct (Z.ltb_spec (100 * unit_inv) (units b)) as [Hb1|Hb1];
      rewrite ?(py_max_0 _ Hrf), ?(py_max_0 _ Hf),
              ?(py_max_0 (Ffin (100 * unit_inv)) eq_refl);
      cbn [units];
      repeat match goal with
      | |- context [0 <? ?u] => destruct (Z.ltb_spec 0 u)
      end;
      rewrite ?Hpr, ?py_round2_100;
      try (exfalso; lia);
      cbn [py_round2 same_outcome]; unfold num_eq, num_compare;
      rewrite ?compare_finite by (assumption || reflexivity);
      cbn [units].
    all: try (rewrite Z.compare_refl; reflexivity).
    all: try (assert (Heq : units r = 100 * unit_inv) by lia;
              rewrite Heq, Z.compare_refl; reflexivity).
    all: try (assert (Heq : units r = 0) by lia;
              destruct r; try discriminate Hrf; cbn [units] in Heq |- *;
              rewrite ?Heq; reflexivity).
  - destruct b as [|[]| |]; try discriminate Hf; vm_compute; reflexivity.
Qed.

Transparent unit_inv huge.

End F64Facts.

(** ** The win probability *)

Lemma py_mul_float_valid v c x :
  py_mul_float v c = Ok x -> valid x.
Proof.
  unfold py_mul_float. destruct (as_num v) as [a|]; [|discriminate].
  destruct (to_float a) as [y|]; simpl; [|discriminate].
  intros [= <-]. apply F64Facts.mul_valid.
Qed.

(** What [max(0, min(v, 100.0))] returns lies between 0 and 100. *)
Lemma clamp_bounds a :
  num_le (NInt 0) (clamp_0_100 a) = true
  /\ num_le (clamp_0_100 a) (NInt 100) = true.
Proof.
  unfold clamp_0_100. rewrite F64Facts.f100_0_units.
  pose proof F64Facts.unit_inv_pos as HU.
  assert (H100 : py_max (NInt 0) (NFloat (F64.Ffin (100 * F64.unit_inv)))
                 = NFloat (F64.Ffin (100 * F64.unit_inv))).
  { rewrite F64Facts.py_max_0 by reflexivity. cbn [F64.units].
    destruct (Z.ltb_spec 0 (100 * F64.unit_inv)); [reflexivity|lia]. }
  assert (Hle100 : num_le (NFloat (F64.Ffin (100 * F64.unit_inv))) (NInt 100)
                   = true).
  { unfold num_le, num_compare. cbn [F64.units].
    rewrite Z.compare_refl. reflexivity. }
  assert (Hge0 : num_le (NInt 0) (NFloat (F64.Ffin (100 * F64.unit_inv)))
                 = true).
  { unfold num_le, num_compare. cbn [F64.units].
    destruct (Z.compare_spec (0 * F64.unit_inv) (100 * F64.unit_inv));
      [reflexivity|reflexivity|lia]. }
  unfold py_min at 1 2.
  destruct (num_lt (NFloat (F64.Ffin (100 * F64.unit_inv))) a) eqn:Hlt;
    [rewrite H100; auto|].
  unfold py_max, num_gt.
  destruct (num_compare a (NInt 0)) as [[]|] eqn:Hc;
    try (split; reflexivity).
  unfold num_lt, num_le in *.
  destruct a as [n|x].
  - cbn [num_compare F64.units] in *. injection Hc as Hc.
    apply Z.compare_gt_iff in Hc.
    destruct (Z.compare_spec (100 * F64.unit_inv) (n * F64.unit_inv));
      try discriminate Hlt;
      (split; [destruct (Z.compare_spec 0 n); [reflexivity|reflexivity|lia]
              |destruct (Z.compare_spec n 100);
               [reflexivity|reflexivity|nia]]).
  - destruct x as [|[]| |k];
      cbn [num_compare F64.compare F64.units Bool.eqb] in *;
      try discriminate Hc; try discriminate Hlt.
    injection Hc as Hc. rewrite Z.mul_0_l in Hc |- *.
    apply Z.compare_gt_iff in Hc.
    destruct (Z.compare_spec (100 * F64.unit_inv) k);
      try discriminate Hlt;
      (split; [destruct (Z.compare_spec 0 k); [reflexivity|reflexivity|lia]
              |destruct (Z.compare_spec k (100 * F64.unit_inv));
               [reflexivity|reflexivity|lia]]).
Qed.

(** C2: [calculate_win_probability] returns what the formula of the
    specification returns (scale by 0.7, add 15 when the margin is above 18,
    else subtract 10 when it is below 10, clamp to [0, 100], round to two
    decimals), for every match score and margin, numbers or not; what it
    returns lies in [0, 100]; and the four sample values are 71.0, 46.0,
    85.0 and 100.0. *)
Theorem win_probability_formula (match_score margin : pyval) :
  same_outcome (calculate_win_probability match_score margin)
    (score_spec match_score margin)
  /\ (forall p, calculate_win_probability match_score margin = Ok p ->
        num_le (NInt 0) p = true /\ num_le p (NInt 100) = true)
  /\ calculate_win_probability (PInt 80) (PInt 20)
     = Ok (NFloat (F64.of_decimal 710 10))
  /\ calculate_win_probability (PInt 80) (PInt 5)
     = Ok (NFloat (F64.of_decimal 460 10))
  /\ calculate_win_probability (PInt 100) (PInt 19)
     = Ok (NFloat (F64.of_decimal 850 10))
  /\ calculate_win_probability (PInt 200) (PInt 50)
     = Ok (NFloat (F64.of_decimal 1000 10)).
Proof.
  split; [|split; [|repeat split; vm_compute; reflexivity]].
  - unfold calculate_win_probability, score_spec.
    destruct (py_mul_float match_score f0_7) as [base|e] eqn:Hmul;
      [|reflexivity].
    apply py_mul_float_valid in Hmul. cbn [res_bind].
    destruct (py_cmp_int num_gt margin 18) as [[]|e]; cbn [res_bind];
      [apply F64Facts.round_clamp_commute, F64Facts.add_valid| |reflexivity].
    destruct (py_cmp_int num_lt margin 10) as [[]|e]; cbn [res_bind];
      [apply F64Facts.round_clamp_commute, F64Facts.sub_valid
      |apply F64Facts.round_clamp_commute, Hmul
      |reflexivity].
  - intros p. unfold calculate_win_probability.
    destruct (py_mul_float match_score f0_7) as [base|e];
      [|discriminate].
    cbn [res_bind].
    destruct (py_cmp_int num_gt margin 18) as [[]|e]; cbn [res_bind];
      [| |discriminate].
    + destruct (py_round2 _) as [rounded|e]; [|discriminate].
      cbn [res_bind]. intros [= <-]. apply clamp_bounds.
    + destruct (py_cmp_int num_lt margin 10) as [[]|e]; cbn [res_bind];
        [| |discriminate];
        (destruct (py_round2 _) as [rounded|e]; [|discriminate];
         cbn [res_bind]; intros [= <-]; apply clamp_bounds).
Qed.

(** ** Reference data and the lazily built agents *)

(** X1: [load_repository_file] returns the content of a readable file, turns a
    missing file into a placeholder text that names it, and lets every
    other error through; it never raises [FileNotFoundError]. *)
Theorem load_repository_file_cases (E : Env) (filename : pystr) :
  (forall content, read_file E filename = Ok content ->
     load_repository_file E filename = Ok content)
  /\ (read_file E filename = Raise FileNotFoundError ->
     load_repository_file E filename = Ok (not_found_text filename))
  /\ (forall e, read_file E filename = Raise e -> e <> FileNotFoundError ->
     load_repository_file E filename = Raise e)
  /\ load_repository_file E filename <> Raise FileNotFoundError.
Proof.
  unfold load_repository_file, res_try.
  destruct (read_file E filename) as [content|e].
  - repeat split; try discriminate. intros c [= <-]. reflexivity.
  - repeat split; try discriminate.
    + intros [= ->]. reflexivity.
    + intros e' [= <-] Hne. destruct e; congruence.
    + destruct e; discriminate.
Qed.

Lemma load_repository_file_cases_witness :
  load_repository_file broken_env (str "sku_repository.txt")
  = Ok (str "Error: sku_repository.txt not found. Please ensure Admin has uploaded it.").
Proof.
  apply (load_repository_file_cases broken_env (str "sku_repository.txt")).
  reflexivity.
Defined.

Lemma model_run E w :
  model E w
  = match _model w with
    | Some m => (Ok m, w)
    | None =>
        match new_model E with
        | Ok m => (Ok m, {| _model := Some m; _tech_agent := _tech_agent w;
                            _pricing_agent := _pricing_agent w;
                            requests := requests w |})
        | Raise e => (Raise e, w)
        end
    end.
Proof.
  unfold model, bind, get, lift, put, ret.
  destruct (_model w); [reflexivity|].
  destruct (new_model E); reflexivity.
Qed.

Lemma tech_agent_run E w :
  tech_agent E w
  = match _tech_agent w with
    | Some a => (Ok a, w)
    | None =>
        match model E w with
        | (Ok _, w1) =>
            match TechnicalAgent_init E with
            | Ok a => (Ok a, {| _model := _model w1; _tech_agent := Some a;
                                _pricing_agent := _pricing_agent w1;
                                requests := requests w1 |})
            | Raise e => (Raise e, w1)
            end
        | (Raise e, w1) => (Raise e, w1)
        end
    end.
Proof.
  unfold tech_agent, bind, get, lift, put, ret.
  destruct (_tech_agent w); [reflexivity|].
  destruct (model E w) as [[m|e] w1]; [|reflexivity].
  destruct (TechnicalAgent_init E); reflexivity.
Qed.

Lemma pricing_agent_run E w :
  pricing_agent E w
  = match _pricing_agent w with
    | Some a => (Ok a, w)
    | None =>
        match model E w with
        | (Ok _, w1) =>
            match PricingAgent_init E with
            | Ok a => (Ok a, {| _model := _model w1;
                                _tech_agent := _tech_agent w1;
                                _pricing_agent := Some a;
                                requests := requests w1 |})
            | Raise e => (Raise e, w1)
            end
        | (Raise e, w1) => (Raise e, w1)
        end
    end.
Proof.
  unfold pricing_agent, bind, get, lift, put, ret.
  destruct (_pricing_agent w); [reflexivity|].
  destruct (model E w) as [[m|e] w1]; [|reflexivity].
  destruct (PricingAgent_init E); reflexivity.
Qed.

(** Creating the model handle or an agent sends no request and touches no
    other attribute than its own (and [_model]). *)
Lemma model_effect E w r w' :
  model E w = (r, w') ->
  requests w' = requests w
  /\ _tech_agent w' = _tech_agent w
  /\ _pricing_agent w' = _pricing_agent w
  /\ (forall m, r = Ok m -> _model w' = Some m)
  /\ (forall e, r = Raise e -> w' = w).
Proof.
  rewrite model_run.
  destruct (_model w) as [m|] eqn:Hm.
  - intros [= <- <-]. repeat split; congruence.
  - destruct (new_model E) as [m|e]; intros [= <- <-]; simpl;
      repeat split; congruence.
Qed.

(** X2: Each agent is built at most once: after an access to [tech_agent]
    (to [pricing_agent]) has succeeded, every later access returns the same
    agent and changes nothing, whatever the model factory and the files
    have become; and the first access sent no request. *)
Theorem agents_built_once (E E' : Env) (w w' : world) :
  (forall a, tech_agent E w = (Ok a, w') ->
     tech_agent E' w' = (Ok a, w')
     /\ requests w' = requests w
     /\ _pricing_agent w' = _pricing_agent w)
  /\ (forall a, pricing_agent E w = (Ok a, w') ->
     pricing_agent E' w' = (Ok a, w')
     /\ requests w' = requests w
     /\ _tech_agent w' = _tech_agent w).
Proof.
  split; intros a.
  - rewrite !tech_agent_run.
    destruct (_tech_agent w) as [a0|] eqn:Ha.
    + intros [= <- <-]. rewrite Ha. auto.
    + destruct (model E w) as [[m|e] w1] eqn:Hm; [|discriminate].
      destruct (model_effect _ _ _ _ Hm) as (Hr & _ & Hp & _).
      destruct (TechnicalAgent_init E); [|discriminate].
      intros [= <- <-]. simpl. auto.
  - rewrite !pricing_agent_run.
    destruct (_pricing_agent w) as [a0|] eqn:Ha.
    + intros [= <- <-]. rewrite Ha. auto.
    + destruct (model E w) as [[m|e] w1] eqn:Hm; [|discriminate].
      destruct (model_effect _ _ _ _ Hm) as (Hr & Ht & _ & _).
      destruct (PricingAgent_init E); [|discriminate].
      intros [= <- <-]. simpl. auto.
Qed.

Lemma agents_built_once_witness :
  let E := sample_env (Ok (str "{}")) in
  let w' := snd (tech_agent E orchestrator) in
  tech_agent broken_env w'
  = (Ok {| sku_data := not_found_text (str "sku_repository.txt") |}, w').
Proof.
  intros E w'.
  apply (agents_built_once E broken_env orchestrator w').
  reflexivity.
Defined.

(** X3: A failed access builds nothing: the agent attribute stays empty, so the
    next access tries again; and no request was sent. *)
Theorem agent_failure_not_cached (E : Env) (w w' : world) (e : exn) :
  (tech_agent E w = (Raise e, w') ->
     _tech_agent w' = None /\ _pricing_agent w' = _pricing_agent w
     /\ requests w' = requests w)
  /\ (pricing_agent E w = (Raise e, w') ->
     _pricing_agent w' = None /\ _tech_agent w' = _tech_agent w
     /\ requests w' = requests w).
Proof.
  split.
  - rewrite tech_agent_run.
    destruct (_tech_agent w) as [a0|] eqn:Ha; [discriminate|].
    destruct (model E w) as [[m|e0] w1] eqn:Hm;
      destruct (model_effect _ _ _ _ Hm) as (Hr & Ht & Hp & _).
    + destruct (TechnicalAgent_init E); [discriminate|].
      intros [= <- <-]. rewrite Ht, Hp, Hr. auto.
    + intros [= <- <-]. rewrite Ht, Hp, Hr. auto.
  - rewrite pricing_agent_run.
    destruct (_pricing_agent w) as [a0|] eqn:Ha; [discriminate|].
    destruct (model E w) as [[m|e0] w1] eqn:Hm;
      destruct (model_effect _ _ _ _ Hm) as (Hr & Ht & Hp & _).
    + destruct (PricingAgent_init E); [discriminate|].
      intros [= <- <-]. rewrite Ht, Hp, Hr. auto.
    + intros [= <- <-]. rewrite Ht, Hp, Hr. auto.
Qed.

Lemma agent_failure_not_cached_witness :
  _tech_agent (snd (tech_agent broken_env orchestrator)) = None.
Proof.
  apply (agent_failure_not_cached broken_env orchestrator
           (snd (tech_agent broken_env orchestrator))
           (OtherError "DefaultCredentialsError")).
  reflexivity.
Defined.

(** ** The pricing stage and the requests of a run *)

(** X4: [calculate_costs] formats the matched identifiers and the
    specification into its prompt before the [try]: when either cannot be
    formatted the exception leaves the call and no request is sent.
    Otherwise exactly one request is sent and the parsed reply is returned
    as it is; when the client raises or [json.loads] rejects the cleaned
    reply the handler prints the exception and the degraded result
    [{"margin": 0, "total_bid_value": 0}] is returned, unless the text of
    the exception cannot be printed: then [UnicodeEncodeError] leaves the
    call. *)
Theorem calculate_costs_degrades (E : Env) (self : PricingAgent)
    (matched_skus specs : pyval) (w : world) :
  let p := PricingPrompt (pricing_data self) matched_skus specs in
  (forall e,
     py_format E matched_skus = Raise e ->
     calculate_costs E self matched_skus specs w = (Raise e, w))
  /\ (forall text e,
        py_format E matched_skus = Ok text ->
        py_format E specs = Raise e ->
        calculate_costs E self matched_skus specs w = (Raise e, w))
  /\ (format_holes E p = Ok tt ->
      snd (calculate_costs E self matched_skus specs w) = sent w [p]
      /\ (forall e,
            generate_content E p = Raise e ->
            fst (calculate_costs E self matched_skus specs w)
            = if printable E (exn_text e) then Ok costs_error
              else Raise UnicodeEncodeError)
      /\ (forall text e,
            generate_content E p = Ok text ->
            json_loads E (clean text) = Raise e ->
            fst (calculate_costs E self matched_skus specs w)
            = if printable E (exn_text e) then Ok costs_error
              else Raise UnicodeEncodeError)
      /\ (forall text v0,
            generate_content E p = Ok text ->
            json_loads E (clean text) = Ok v0 ->
            fst (calculate_costs E self matched_skus specs w) = Ok v0))
  /\ costs_error
     = PDict (mkdict [ (str "margin", PInt 0);
                       (str "total_bid_value", PInt 0) ]).
Proof.
  intros p. split; [|split; [|split; [|reflexivity]]].
  - intros e He. rewrite calculate_costs_run. unfold format_holes.
    rewrite He. reflexivity.
  - intros text e Ht He. rewrite calculate_costs_run. unfold format_holes.
    rewrite Ht, He. reflexivity.
  - intros Hf. rewrite calculate_costs_run. fold p. rewrite Hf.
    cbn [fst snd]. split; [reflexivity|].
    unfold pricing_value, stage_value.
    split; [|split].
    + intros e ->. cbn [res_bind res_try].
      rewrite pricing_agent_error_run. unfold print.
      destruct (printable E (exn_text e)); reflexivity.
    + intros text e -> Hj. cbn [res_bind]. rewrite Hj. cbn [res_try].
      rewrite pricing_agent_error_run. unfold print.
      destruct (printable E (exn_text e)); reflexivity.
    + intros text v0 -> Hj. cbn [res_bind]. rewrite Hj. reflexivity.
Qed.

Lemma calculate_costs_degrades_witness :
  fst (calculate_costs broken_env {| pricing_data := [] |}
         (PList []) (PDict ∅) orchestrator)
  = Ok costs_error
  /\ calculate_costs (sample_env (Ok (str "{}"))) {| pricing_data := [] |}
       (nested 2000) (PDict ∅) orchestrator
     = (Raise RecursionError, orchestrator).
Proof.
  split.
  - pose proof (calculate_costs_degrades broken_env {| pricing_data := [] |}
                  (PList []) (PDict ∅) orchestrator) as H.
    cbv zeta in H. destruct H as (_ & _ & H & _).
    destruct (H eq_refl) as (_ & Hraise & _).
    rewrite (Hraise (OtherError "ServiceUnavailable") eq_refl).
    reflexivity.
  - refine (proj1 (calculate_costs_degrades (sample_env (Ok (str "{}")))
                     {| pricing_data := [] |} (nested 2000) (PDict ∅)
                     orchestrator) RecursionError _).
    vm_compute. reflexivity.
Defined.



Lemma sent_sent w ps qs : sent (sent w ps) qs = sent w (ps ++ qs).
Proof. unfold sent. simpl. rewrite <- app_assoc. reflexivity. Qed.

Lemma recommend_num wp sms m :
  as_num sms = Some m ->
  recommend wp sms = Ok (tier_label (tier_of wp m), tier_reason (tier_of wp m)).
Proof.
  intros Hm. unfold recommend, tier_of, py_cmp_int, and_then. rewrite Hm.
  destruct (num_ge wp (NInt 70)), (num_ge m (NInt 75)),
    (num_ge wp (NInt 50)), (num_ge m (NInt 60)), (num_ge wp (NInt 30));
    reflexivity.
Qed.

(** The [try] body of [run_analysis] once both agents are built. *)
Lemma run_analysis_try_ready E rfp_text w ta pa :
  agents_ready w ta pa ->
  let p1 := TechnicalPrompt (sku_data ta) rfp_text in
  run_analysis_try E rfp_text w
  = match technical_value E p1 with
    | Ok (PDict d) =>
        let p2 := pricing_prompt_of pa d in
        match format_holes E p2 with
        | Ok _ =>
            match pricing_value E p2 with
            | Ok (PDict d2) =>
                let sms := get_or d "spec_match_score" (PInt 0) in
                match calculate_win_probability sms
                        (get_or d2 "margin" (PInt 20)) with
                | Ok wp =>
                    match as_num sms with
                    | Some m =>
                        (Ok (analysis_result sms
                               (get_or d "standardized_specs"
                                  (PDict (mkdict [])))
                               (get_or d "matched_skus" (PList []))
                               (PDict d2) wp
                               (tier_label (tier_of wp m),
                                tier_reason (tier_of wp m))
                               (suggestions_of wp m)),
                         sent w [p1; p2])
                    | None => (Raise TypeError, sent w [p1; p2])
                    end
                | Raise e => (Raise e, sent w [p1; p2])
                end
            | Ok _ => (Raise AttributeError, sent w [p1; p2])
            | Raise e => (Raise e, sent w [p1; p2])
            end
        | Raise e => (Raise e, sent w [p1])
        end
    | Ok _ => (Raise AttributeError, sent w [p1])
    | Raise e => (Raise e, sent w [p1])
    end.
Proof.
  intros [Hta Hpa] p1. unfold run_analysis_try.
  unfold bind at 1. rewrite tech_agent_run, Hta.
  unfold bind at 1. rewrite analyze_specs_sent. fold p1.
  destruct (technical_value E p1) as [v|e]; [|reflexivity].
  unfold bind at 1. rewrite pricing_agent_run. cbn [sent _pricing_agent].
  rewrite Hpa. fold (sent w [p1]).
  destruct v as [| | | | | |d]; try reflexivity.
  unfold bind at 1. cbn [py_get lift].
  unfold bind at 1. cbn [py_get lift].
  unfold bind at 1. rewrite calculate_costs_run.
  fold (get_or d "matched_skus" (PList [])).
  fold (get_or d "standardized_specs" (PDict (mkdict []))).
  fold (pricing_prompt_of pa d).
  destruct (format_holes E (pricing_prompt_of pa d)); [|reflexivity].
  rewrite sent_sent. cbn [app].
  destruct (pricing_value E (pricing_prompt_of pa d)) as [v2|e];
    [|reflexivity].
  unfold bind at 1. cbn [py_get lift].
  fold (get_or d "spec_match_score" (PInt 0)).
  destruct v2 as [| | | | | |d2]; try reflexivity.
  unfold bind at 1. cbn [py_get lift]. fold (get_or d2 "margin" (PInt 20)).
  unfold bind at 1. unfold lift at 1.
  destruct (calculate_win_probability _ _) as [wp|e] eqn:Hc;
    [|reflexivity].
  destruct (calculate_ok_num _ _ _ Hc) as (m & g & Hm & _).
  rewrite Hm.
  unfold bind, lift, ret.
  rewrite (recommend_num _ _ _ Hm), (make_suggestions_num _ _ _ Hm).
  reflexivity.
Qed.

Lemma run_analysis_main_fallback E rfp_data rfp_text w e w1 :
  rfp_text_of E rfp_data = Ok rfp_text ->
  run_analysis_try E rfp_text w = (Raise e, w1) ->
  printable E (exn_text e) = true ->
  run_analysis_main E rfp_data w = (Ok fallback_result, w1).
Proof.
  intros Ht H Hp. rewrite run_analysis_main_run, Ht, H.
  rewrite (print_printable _ _ Hp). reflexivity.
Qed.

(** X5: A reply that parses to something else than an object (a list, a
    number, a string, [null]) sends the run to the fallback: after the
    technical request alone when it is the technical reply, after both
    requests when it is the pricing reply. *)
Theorem non_object_reply_falls_back (E : Env) (rfp_data : gmap pystr pyval)
    (rfp_text : pystr) (w : world) (ta : TechnicalAgent)
    (pa : PricingAgent) :
  agents_ready w ta pa ->
  rfp_text_of E rfp_data = Ok rfp_text ->
  let p1 := TechnicalPrompt (sku_data ta) rfp_text in
  ((forall d, technical_value E p1 <> Ok (PDict d)) ->
     run_analysis_main E rfp_data w = (Ok fallback_result, sent w [p1]))
  /\ (forall d,
        technical_value E p1 = Ok (PDict d) ->
        format_holes E (pricing_prompt_of pa d) = Ok tt ->
        (forall d2, pricing_value E (pricing_prompt_of pa d)
                    <> Ok (PDict d2)) ->
        run_analysis_main E rfp_data w
        = (Ok fallback_result, sent w [p1; pricing_prompt_of pa d])).
Proof.
  intros Hready Htext p1.
  pose proof (run_analysis_try_ready E rfp_text w ta pa Hready) as Htry.
  cbv zeta in Htry. fold p1 in Htry.
  split.
  - intros Hnd.
    destruct (technical_value E p1) as [v|e] eqn:Hv.
    + destruct v as [| | | | | |d];
        try (apply (run_analysis_main_fallback _ _ _ _ _ _ Htext Htry);
             reflexivity).
      destruct (Hnd d eq_refl).
    + rewrite (technical_value_raises _ _ _ Hv) in Htry.
      apply (run_analysis_main_fallback _ _ _ _ _ _ Htext Htry).
      reflexivity.
  - intros d Hd Hf Hnd. rewrite Hd, Hf in Htry.
    destruct (pricing_value E (pricing_prompt_of pa d)) as [v|e] eqn:Hv.
    + destruct v as [| | | | | |d2];
        try (apply (run_analysis_main_fallback _ _ _ _ _ _ Htext Htry);
             reflexivity).
      destruct (Hnd d2 eq_refl).
    + rewrite (pricing_value_raises _ _ _ Hv) in Htry.
      apply (run_analysis_main_fallback _ _ _ _ _ _ Htext Htry).
      reflexivity.
Qed.

Lemma non_object_reply_falls_back_witness :
  let E := scripted_env (Ok (str "[]")) (Ok pricing_reply) in
  let rfp := rfp_with_budget (PInt 90000) in
  run_analysis_main E rfp ready_world
  = (Ok fallback_result,
     sent ready_world
       [TechnicalPrompt (sku_data sample_tech_agent) sample_rfp_text]).
Proof.
  intros E rfp.
  apply (non_object_reply_falls_back E rfp sample_rfp_text ready_world
           sample_tech_agent sample_pricing_agent).
  - split; reflexivity.
  - reflexivity.
  - intros d. vm_compute. discriminate.
Defined.

(** ** When the score cannot be computed *)

Lemma py_round2_valid b :
  valid b -> exists r, py_round2 (NFloat b) = Ok (NFloat r).
Proof.
  intros Hv. destruct (F64.is_finite b) eqn:Hf.
  - destruct (F64Facts.round2_finite b Hv Hf) as (m & _ & Hr & _).
    unfold py_round2. rewrite Hr.
    destruct (m =? 0)%Z, (F64.sign b); eauto.
  - destruct b as [|s| |]; try discriminate Hf; unfold py_round2;
      cbn [F64.round2 F64.is_finite]; eauto.
Qed.

Lemma calculate_ok_of_numbers sms mg m x g :
  as_num sms = Some m -> to_float m = Ok x -> as_num mg = Some g ->
  exists p, calculate_win_probability sms mg = Ok p.
Proof.
  unfold calculate_win_probability, py_mul_float, py_cmp_int.
  intros -> -> ->. cbn [res_bind].
  assert (Hb : forall b, valid b ->
            exists p, (let? rounded := py_round2 (NFloat b) in
                       Ok (py_max (NInt 0)
                             (py_min rounded (NFloat f100_0)))) = Ok p).
  { intros b Hv. destruct (py_round2_valid b Hv) as [r ->].
    cbn [res_bind]. eauto. }
  destruct (num_gt g (NInt 18));
    [apply Hb, F64Facts.add_valid|].
  destruct (num_lt g (NInt 10)); cbn [res_bind];
    [apply Hb, F64Facts.sub_valid|apply Hb, F64Facts.mul_valid].
Qed.

(** What the scoring raises is an exception of the interpreter. *)
Lemma calculate_raises sms mg e :
  calculate_win_probability sms mg = Raise e ->
  e = TypeError \/ e = OverflowError.
Proof.
  unfold calculate_win_probability, py_mul_float, py_cmp_int.
  destruct (as_num sms) as [m|]; [|intros [= <-]; auto].
  destruct (to_float m) as [x|e0] eqn:Hx; cbn [res_bind].
  2:{ intros [= <-]. right. destruct m as [n|y]; [|discriminate Hx].
      unfold to_float, int_to_float in Hx.
      destruct (F64.of_Z n); congruence. }
  destruct (as_num mg) as [g|]; [|intros [= <-]; auto]. cbn [res_bind].
  assert (Hr : forall b,
            (let? rounded := py_round2 (NFloat b) in
             Ok (py_max (NInt 0) (py_min rounded (NFloat f100_0))))
            = Raise e ->
            e = TypeError \/ e = OverflowError).
  { intros b. unfold py_round2.
    destruct (F64.round2 b); cbn [res_bind]; try discriminate.
    destruct (F64.is_finite b); cbn [res_bind];
      [intros [= <-]; auto|discriminate]. }
  destruct (num_gt g (NInt 18)); cbn [res_bind]; [apply Hr|].
  destruct (num_lt g (NInt 10)); cbn [res_bind]; apply Hr.
Qed.

Lemma calculate_raises_printable E sms mg e :
  calculate_win_probability sms mg = Raise e ->
  printable E (exn_text e) = true.
Proof.
  intros H. destruct (calculate_raises _ _ _ H) as [-> | ->]; reflexivity.
Qed.

(** X6: [calculate_win_probability] raises [TypeError] when the score or
    the margin is not a number, [OverflowError] when the score is an
    integer too large for a float, and returns a number in every other
    case. *)
Theorem calculate_win_probability_domain (match_score margin : pyval) :
  (as_num match_score = None ->
     calculate_win_probability match_score margin = Raise TypeError)
  /\ (forall n, as_num match_score = Some (NInt n) ->
        int_to_float n = Raise OverflowError ->
        calculate_win_probability match_score margin = Raise OverflowError)
  /\ (forall m x, as_num match_score = Some m -> to_float m = Ok x ->
        as_num margin = None ->
        calculate_win_probability match_score margin = Raise TypeError)
  /\ (forall m x g, as_num match_score = Some m -> to_float m = Ok x ->
        as_num margin = Some g ->
        exists p, calculate_win_probability match_score margin = Ok p).
Proof.
  repeat split.
  - unfold calculate_win_probability, py_mul_float. intros ->. reflexivity.
  - unfold calculate_win_probability, py_mul_float.
    intros n -> Hn. cbn [to_float]. rewrite Hn. reflexivity.
  - unfold calculate_win_probability, py_mul_float, py_cmp_int.
    intros m x -> -> ->. reflexivity.
  - intros m x g. apply calculate_ok_of_numbers.
Qed.

Lemma calculate_win_probability_domain_witness :
  calculate_win_probability (PStr (str "85")) (PInt 20) = Raise TypeError
  /\ calculate_win_probability (PInt (10 ^ 400)) (PInt 20)
     = Raise OverflowError
  /\ calculate_win_probability (PInt 80) PNone = Raise TypeError.
Proof.
  split; [|split].
  - apply (calculate_win_probability_domain (PStr (str "85")) (PInt 20)).
    reflexivity.
  - apply (calculate_win_probability_domain (PInt (10 ^ 400)) (PInt 20))
      with (n := (10 ^ 400)%Z); [reflexivity|vm_compute; reflexivity].
  - apply (calculate_win_probability_domain (PInt 80) PNone)
      with (m := NInt 80) (x := F64.of_Z 80);
      [reflexivity|vm_compute; reflexivity|reflexivity].
Defined.

(** X7: A score or a margin that is not a number (a string such as ["85"],
    [null], a list) sends the run to the fallback, after both requests. *)
Theorem non_number_falls_back (E : Env) (rfp_data : gmap pystr pyval)
    (rfp_text : pystr) (w : world) (ta : TechnicalAgent)
    (pa : PricingAgent) (d d2 : gmap pystr pyval) :
  agents_ready w ta pa ->
  rfp_text_of E rfp_data = Ok rfp_text ->
  let p1 := TechnicalPrompt (sku_data ta) rfp_text in
  let p2 := pricing_prompt_of pa d in
  technical_value E p1 = Ok (PDict d) ->
  format_holes E p2 = Ok tt ->
  pricing_value E p2 = Ok (PDict d2) ->
  as_num (get_or d "spec_match_score" (PInt 0)) = None
  \/ as_num (get_or d2 "margin" (PInt 20)) = None ->
  run_analysis_main E rfp_data w = (Ok fallback_result, sent w [p1; p2]).
Proof.
  intros Hready Htext p1 p2 Hd Hf Hd2 Hbad.
  pose proof (run_analysis_try_ready E rfp_text w ta pa Hready) as Htry.
  cbv zeta in Htry. fold p1 in Htry. rewrite Hd in Htry.
  fold p2 in Htry. rewrite Hf, Hd2 in Htry.
  destruct (calculate_win_probability _ _) as [wp|e] eqn:Hc.
  - destruct (calculate_ok_num _ _ _ Hc) as (m & g & Hm & Hg).
    destruct Hbad; congruence.
  - apply (run_analysis_main_fallback _ _ _ _ _ _ Htext Htry).
    apply (calculate_raises_printable _ _ _ _ Hc).
Qed.

Lemma non_number_falls_back_witness :
  let E := scripted_env (Ok tech_reply_text_score) (Ok pricing_reply) in
  let rfp := rfp_with_budget (PInt 90000) in
  fst (run_analysis_main E rfp ready_world) = Ok fallback_result.
Proof.
  intros E rfp.
  rewrite (non_number_falls_back E rfp sample_rfp_text ready_world
             sample_tech_agent sample_pricing_agent
             (mkdict [ (str "spec_match_score", PStr (str "85")) ])
             (mkdict [ (str "margin", PInt 20) ]));
    [reflexivity|split; reflexivity|reflexivity|reflexivity|reflexivity
    |reflexivity|].
  left. reflexivity.
Defined.

(** X8: A run that succeeds sends exactly two requests, the technical prompt
    and then the pricing prompt built from the technical reply (matched
    identifiers and specification, [[]] and [{}] when absent), and returns
    the parsed values as they are with the computed win probability, tier
    and suggestions. *)
Theorem analysed_result_content (E : Env) (rfp_data : gmap pystr pyval)
    (rfp_text : pystr) (w : world) (ta : TechnicalAgent)
    (pa : PricingAgent) (d d2 : gmap pystr pyval) (m g : num)
    (x : F64.f64) :
  agents_ready w ta pa ->
  rfp_text_of E rfp_data = Ok rfp_text ->
  let p1 := TechnicalPrompt (sku_data ta) rfp_text in
  let p2 := pricing_prompt_of pa d in
  let sms := get_or d "spec_match_score" (PInt 0) in
  technical_value E p1 = Ok (PDict d) ->
  format_holes E p2 = Ok tt ->
  pricing_value E p2 = Ok (PDict d2) ->
  as_num sms = Some m -> to_float m = Ok x ->
  as_num (get_or d2 "margin" (PInt 20)) = Some g ->
  exists wp,
    calculate_win_probability sms (get_or d2 "margin" (PInt 20)) = Ok wp
    /\ run_analysis_main E rfp_data w
       = (Ok (analysis_result sms
                (get_or d "standardized_specs" (PDict ∅))
                (get_or d "matched_skus" (PList []))
                (PDict d2) wp
                (tier_label (tier_of wp m), tier_reason (tier_of wp m))
                (suggestions_of wp m)),
          sent w [p1; p2]).
Proof.
  intros Hready Htext p1 p2 sms Hd Hf Hd2 Hm Hx Hg.
  pose proof (run_analysis_try_ready E rfp_text w ta pa Hready) as Htry.
  cbv zeta in Htry. fold p1 in Htry. rewrite Hd in Htry.
  fold p2 in Htry. rewrite Hf, Hd2 in Htry. fold sms in Htry.
  destruct (calculate_ok_of_numbers sms (get_or d2 "margin" (PInt 20))
              m x g Hm Hx Hg) as [wp Hwp].
  exists wp. split; [exact Hwp|].
  rewrite Hwp, Hm in Htry.
  rewrite run_analysis_main_run, Htext, Htry. reflexivity.
Qed.

Lemma analysed_result_content_witness :
  let E := scripted_env (Ok (fenced tech_reply)) (Ok pricing_reply) in
  let rfp := rfp_with_budget (PInt 90000) in
  run_analysis_main E rfp ready_world
  = (Ok (analysis_result (PInt 80) (PDict ∅) (PList [])
           pricing_reply_value (NFloat (F64.of_Z 71))
           (tier_label SELECT, tier_reason SELECT) [suggest_aligned]),
     sent ready_world
       [ TechnicalPrompt (sku_data sample_tech_agent) sample_rfp_text;
         PricingPrompt (pricing_data sample_pricing_agent)
           (PList []) (PDict ∅) ]).
Proof.
  intros E rfp.
  destruct (analysed_result_content E rfp sample_rfp_text ready_world
              sample_tech_agent sample_pricing_agent
              (mkdict [ (str "spec_match_score", PInt 80);
                        (str "matched_skus", PList []) ])
              (mkdict [ (str "margin", PInt 20) ])
              (NInt 80) (NInt 20) (F64.of_Z 80))
    as (wp & Hwp & Hrun);
    [split; reflexivity|reflexivity|reflexivity|reflexivity|reflexivity
    |reflexivity|vm_compute; reflexivity|reflexivity|].
  rewrite Hrun. vm_compute in Hwp. injection Hwp as <-.
  vm_compute. reflexivity.
Defined.

(** ** A client that is down *)

Lemma stage_value_outage E p report degraded e :
  generate_content E p = Raise e ->
  stage_value E p report degraded
  = (let? _ := report e in Ok degraded).
Proof. unfold stage_value. intros ->. reflexivity. Qed.

(** X9: When every request to the client fails, with an exception whose
    text can be printed, the run does not take the fallback: both stages
    degrade, the pricing prompt is still sent (with no identifier and the
    five fields "Error"), and the result has match score 0, win probability
    0, the tier REJECT and both improvement suggestions. *)
Theorem client_outage_result (E : Env) (rfp_data : gmap pystr pyval)
    (rfp_text : pystr) (w : world) (ta : TechnicalAgent)
    (pa : PricingAgent) :
  agents_ready w ta pa ->
  rfp_text_of E rfp_data = Ok rfp_text ->
  (forall q, exists e,
     generate_content E q = Raise e /\ printable E (exn_text e) = true) ->
  format_holes E
    (PricingPrompt (pricing_data pa) (PList []) (specs_all "Error"))
  = Ok tt ->
  run_analysis_main E rfp_data w
  = (Ok (analysis_result (PInt 0) (specs_all "Error") (PList [])
           costs_error (NInt 0)
           (tier_label REJECT, tier_reason REJECT)
           [suggest_specs; suggest_pricing]),
     sent w [ TechnicalPrompt (sku_data ta) rfp_text;
              PricingPrompt (pricing_data pa) (PList [])
                (specs_all "Error") ]).
Proof.
  intros Hready Htext Hdown Hf.
  pose proof (run_analysis_try_ready E rfp_text w ta pa Hready) as Htry.
  cbv zeta in Htry.
  assert (Ht : technical_value E (TechnicalPrompt (sku_data ta) rfp_text)
               = Ok specs_error).
  { destruct (Hdown (TechnicalPrompt (sku_data ta) rfp_text))
      as (e & He & Hp).
    unfold technical_value. rewrite (stage_value_outage _ _ _ _ _ He).
    rewrite technical_agent_error_run, (print_printable _ _ Hp).
    reflexivity. }
  rewrite Ht in Htry.
  assert (Hp2 : pricing_prompt_of pa
                  (mkdict
                     [ (str "spec_match_score", PInt 0);
                       (str "standardized_specs", specs_all "Error");
                       (str "matched_skus", PList []) ])
                = PricingPrompt (pricing_data pa) (PList [])
                    (specs_all "Error")) by reflexivity.
  change specs_error
    with (PDict (mkdict
                   [ (str "spec_match_score", PInt 0);
                     (str "standardized_specs", specs_all "Error");
                     (str "matched_skus", PList []) ])) in Htry.
  cbv iota in Htry. rewrite Hp2, Hf in Htry.
  assert (Hpv : pricing_value E
                  (PricingPrompt (pricing_data pa) (PList [])
                     (specs_all "Error"))
                = Ok costs_error).
  { destruct (Hdown (PricingPrompt (pricing_data pa) (PList [])
                       (specs_all "Error"))) as (e & He & Hp).
    unfold pricing_value. rewrite (stage_value_outage _ _ _ _ _ He).
    rewrite pricing_agent_error_run, (print_printable _ _ Hp).
    reflexivity. }
  rewrite Hpv in Htry.
  assert (Hwp : calculate_win_probability (PInt 0) (PInt 0) = Ok (NInt 0))
    by (vm_compute; reflexivity).
  change costs_error
    with (PDict (mkdict [ (str "margin", PInt 0);
                          (str "total_bid_value", PInt 0) ])) in Htry at 1.
  cbv iota in Htry.
  change (get_or _ "spec_match_score" (PInt 0)) with (PInt 0) in Htry.
  change (get_or _ "margin" (PInt 20)) with (PInt 0) in Htry.
  rewrite Hwp in Htry. cbn [as_num] in Htry.
  rewrite run_analysis_main_run, Htext, Htry. reflexivity.
Qed.

Lemma client_outage_result_witness :
  let E := scripted_env (Raise (OtherError "ServiceUnavailable"))
             (Raise (OtherError "ServiceUnavailable")) in
  fst (run_analysis_main E (rfp_with_budget (PInt 90000)) ready_world)
  = Ok (analysis_result (PInt 0) (specs_all "Error") (PList [])
          costs_error (NInt 0)
          (tier_label REJECT, tier_reason REJECT)
          [suggest_specs; suggest_pricing]).
Proof.
  intros E.
  rewrite (client_outage_result E (rfp_with_budget (PInt 90000))
             sample_rfp_text ready_world sample_tech_agent
             sample_pricing_agent).
  - reflexivity.
  - split; reflexivity.
  - reflexivity.
  - intros []; eexists; split; reflexivity.
  - reflexivity.
Defined.



(** ** Requests of a run, and running again *)

Lemma tech_agent_ok E w ta w1 :
  tech_agent E w = (Ok ta, w1) ->
  _tech_agent w1 = Some ta /\ requests w1 = requests w
  /\ _pricing_agent w1 = _pricing_agent w.
Proof.
  rewrite tech_agent_run.
  destruct (_tech_agent w) as [a0|] eqn:Ha.
  - intros [= <- <-]. auto.
  - destruct (model E w) as [[m|e] w'] eqn:Hm; [|discriminate].
    destruct (model_effect _ _ _ _ Hm) as (Hr & _ & Hp & _).
    destruct (TechnicalAgent_init E); [|discriminate].
    intros [= <- <-]. simpl. auto.
Qed.

Lemma pricing_agent_ok E w pa w1 :
  pricing_agent E w = (Ok pa, w1) ->
  _pricing_agent w1 = Some pa /\ requests w1 = requests w
  /\ _tech_agent w1 = _tech_agent w.
Proof.
  rewrite pricing_agent_run.
  destruct (_pricing_agent w) as [a0|] eqn:Ha.
  - intros [= <- <-]. auto.
  - destruct (model E w) as [[m|e] w'] eqn:Hm; [|discriminate].
    destruct (model_effect _ _ _ _ Hm) as (Hr & Ht & _ & _).
    destruct (PricingAgent_init E); [|discriminate].
    intros [= <- <-]. simpl. auto.
Qed.

Lemma world_eta w :
  w = {| _model := _model w; _tech_agent := _tech_agent w;
         _pricing_agent := _pricing_agent w; requests := requests w |}.
Proof. destruct w. reflexivity. Qed.

(** Building the agents first does not change what the [try] body does,
    once the technical stage has returned. *)
Lemma run_analysis_try_built E rfp_text w ta w1 pa w2 v :
  tech_agent E w = (Ok ta, w1) ->
  technical_value E (TechnicalPrompt (sku_data ta) rfp_text) = Ok v ->
  pricing_agent E (sent w1 [TechnicalPrompt (sku_data ta) rfp_text])
    = (Ok pa, w2) ->
  let w0 := {| _model := _model w2; _tech_agent := Some ta;
               _pricing_agent := Some pa; requests := requests w |} in
  agents_ready w0 ta pa
  /\ run_analysis_try E rfp_text w = run_analysis_try E rfp_text w0.
Proof.
  intros Ht Hv Hp w0. split; [split; reflexivity|].
  destruct (tech_agent_ok _ _ _ _ Ht) as (Hta & Hr1 & _).
  destruct (pricing_agent_ok _ _ _ _ Hp) as (Hpa & Hr2 & Hta2).
  cbn [sent requests _tech_agent] in Hr2, Hta2.
  assert (Hw2 : w2 = sent w0 [TechnicalPrompt (sku_data ta) rfp_text]).
  { rewrite (world_eta w2). unfold sent, w0. cbn.
    rewrite Hpa, Hta2, Hta, Hr2, Hr1. reflexivity. }
  unfold run_analysis_try.
  unfold bind at 1. rewrite Ht.
  unfold bind at 1. rewrite analyze_specs_sent, Hv.
  unfold bind at 1. rewrite Hp.
  symmetry.
  unfold bind at 1. rewrite tech_agent_run. cbn [_tech_agent w0].
  unfold bind at 1. rewrite analyze_specs_sent, Hv.
  unfold bind at 1. rewrite pricing_agent_run. cbn [sent _pricing_agent w0].
  fold (sent w0 [TechnicalPrompt (sku_data ta) rfp_text]).
  rewrite <- Hw2. reflexivity.
Qed.

Lemma sent_nil w : sent w [] = w.
Proof. unfold sent. rewrite app_nil_r. symmetry. apply world_eta. Qed.

Lemma model_sent E w ps :
  model E (sent w ps) = (fst (model E w), sent (snd (model E w)) ps).
Proof.
  rewrite !model_run. cbn [sent _model].
  destruct (_model w); [reflexivity|].
  destruct (new_model E); reflexivity.
Qed.

Lemma tech_agent_sent E w ps :
  tech_agent E (sent w ps)
  = (fst (tech_agent E w), sent (snd (tech_agent E w)) ps).
Proof.
  rewrite !tech_agent_run. cbn [sent _tech_agent].
  destruct (_tech_agent w); [reflexivity|].
  fold (sent w ps). rewrite model_sent.
  destruct (model E w) as [[m|e] w1]; cbn [fst snd]; [|reflexivity].
  destruct (TechnicalAgent_init E); reflexivity.
Qed.

Lemma pricing_agent_sent E w ps :
  pricing_agent E (sent w ps)
  = (fst (pricing_agent E w), sent (snd (pricing_agent E w)) ps).
Proof.
  rewrite !pricing_agent_run. cbn [sent _pricing_agent].
  destruct (_pricing_agent w); [reflexivity|].
  fold (sent w ps). rewrite model_sent.
  destruct (model E w) as [[m|e] w1]; cbn [fst snd]; [|reflexivity].
  destruct (PricingAgent_init E); reflexivity.
Qed.

(** An access that failed fails again, in the same way, from the world it
    left. *)
Lemma model_again E w r w1 :
  model E w = (r, w1) -> model E w1 = (r, w1).
Proof.
  rewrite !model_run. destruct (_model w) as [m|] eqn:Hm.
  - intros [= <- <-]. rewrite Hm. reflexivity.
  - destruct (new_model E) as [m|e] eqn:Hn; intros [= <- <-].
    + reflexivity.
    + rewrite Hm. reflexivity.
Qed.

Lemma tech_agent_again E w r w1 :
  tech_agent E w = (r, w1) -> tech_agent E w1 = (r, w1).
Proof.
  rewrite !tech_agent_run. destruct (_tech_agent w) as [a|] eqn:Ha.
  - intros [= <- <-]. rewrite Ha. reflexivity.
  - destruct (model E w) as [[m|e] w'] eqn:Hm.
    + destruct (model_effect _ _ _ _ Hm) as (_ & Ht & _ & _).
      pose proof (model_again _ _ _ _ Hm) as Hm'.
      destruct (TechnicalAgent_init E) as [a|e] eqn:Hi;
        intros [= <- <-]; cbn [_tech_agent]; [reflexivity|].
      rewrite Ht, Ha, Hm'. reflexivity.
    + destruct (model_effect _ _ _ _ Hm) as (_ & Ht & _ & _).
      pose proof (model_again _ _ _ _ Hm) as Hm'.
      intros [= <- <-]. rewrite Ht, Ha, Hm'. reflexivity.
Qed.

Lemma pricing_agent_again E w r w1 :
  pricing_agent E w = (r, w1) -> pricing_agent E w1 = (r, w1).
Proof.
  rewrite !pricing_agent_run. destruct (_pricing_agent w) as [a|] eqn:Ha.
  - intros [= <- <-]. rewrite Ha. reflexivity.
  - destruct (model E w) as [[m|e] w'] eqn:Hm.
    + destruct (model_effect _ _ _ _ Hm) as (_ & _ & Hp & _).
      pose proof (model_again _ _ _ _ Hm) as Hm'.
      destruct (PricingAgent_init E) as [a|e] eqn:Hi;
        intros [= <- <-]; cbn [_pricing_agent]; [reflexivity|].
      rewrite Hp, Ha, Hm'. reflexivity.
    + destruct (model_effect _ _ _ _ Hm) as (_ & _ & Hp & _).
      pose proof (model_again _ _ _ _ Hm) as Hm'.
      intros [= <- <-]. rewrite Hp, Ha, Hm'. reflexivity.
Qed.

Lemma tech_agent_requests E w r w1 :
  tech_agent E w = (r, w1) ->
  requests w1 = requests w /\ _pricing_agent w1 = _pricing_agent w
  /\ (forall a, r = Ok a -> _tech_agent w1 = Some a)
  /\ (forall e, r = Raise e -> _tech_agent w1 = _tech_agent w).
Proof.
  rewrite tech_agent_run. destruct (_tech_agent w) as [a|] eqn:Ha.
  - intros [= <- <-]. repeat split; congruence.
  - destruct (model E w) as [[m|e] w'] eqn:Hm;
      destruct (model_effect _ _ _ _ Hm) as (Hr & Ht & Hp & _).
    + destruct (TechnicalAgent_init E); intros [= <- <-]; cbn;
        repeat split; congruence.
    + intros [= <- <-]. repeat split; congruence.
Qed.

Lemma pricing_agent_requests E w r w1 :
  pricing_agent E w = (r, w1) ->
  requests w1 = requests w /\ _tech_agent w1 = _tech_agent w
  /\ (forall a, r = Ok a -> _pricing_agent w1 = Some a).
Proof.
  rewrite pricing_agent_run. destruct (_pricing_agent w) as [a|] eqn:Ha.
  - intros [= <- <-]. repeat split; congruence.
  - destruct (model E w) as [[m|e] w'] eqn:Hm;
      destruct (model_effect _ _ _ _ Hm) as (Hr & Ht & Hp & _).
    + destruct (PricingAgent_init E); intros [= <- <-]; cbn;
        repeat split; congruence.
    + intros [= <- <-]. repeat split; congruence.
Qed.

(** With both agents built, the outcome of the [try] body and the requests
    it sends do not depend on the world. *)
Lemma run_analysis_try_uniform E rfp_text ta pa :
  exists R L,
    request_shape L
    /\ (exists rest, L = TechnicalPrompt (sku_data ta) rfp_text :: rest)
    /\ forall u, agents_ready u ta pa ->
         run_analysis_try E rfp_text u = (R, sent u L).
Proof.
  set (p1 := TechnicalPrompt (sku_data ta) rfp_text).
  assert (Hone : request_shape [p1] /\ exists rest, [p1] = p1 :: rest)
    by (split; [right; left; unfold p1; eauto|eauto]).
  assert (Htwo : forall d,
            request_shape [p1; pricing_prompt_of pa d]
            /\ exists rest, [p1; pricing_prompt_of pa d] = p1 :: rest)
    by (intros d; split;
        [right; right; unfold p1, pricing_prompt_of; eauto 10|eauto]).
  assert (Hcase : forall R L,
            (request_shape L /\ exists rest, L = p1 :: rest) ->
            (forall u, agents_ready u ta pa ->
               run_analysis_try E rfp_text u = (R, sent u L)) ->
            exists R L,
              request_shape L
              /\ (exists rest, L = p1 :: rest)
              /\ forall u, agents_ready u ta pa ->
                   run_analysis_try E rfp_text u = (R, sent u L)).
  { intros R L [H1 H2] H3. exists R, L. auto. }
  pose proof (fun u Hu => run_analysis_try_ready E rfp_text u ta pa Hu)
    as Hready.
  cbv zeta in Hready. fold p1 in Hready.
  destruct (technical_value E p1) as [v|e] eqn:Hv1.
  2:{ apply (Hcase (Raise e) [p1] Hone). exact Hready. }
  destruct v as [| | | | | |d];
    try (apply (Hcase (Raise AttributeError) [p1] Hone); exact Hready).
  destruct (format_holes E (pricing_prompt_of pa d)) as [[]|e] eqn:Hf.
  2:{ apply (Hcase (Raise e) [p1] Hone). exact Hready. }
  destruct (pricing_value E (pricing_prompt_of pa d)) as [v2|e] eqn:Hv2.
  2:{ apply (Hcase (Raise e) _ (Htwo d)). exact Hready. }
  destruct v2 as [| | | | | |d2];
    try (apply (Hcase (Raise AttributeError) _ (Htwo d)); exact Hready).
  destruct (calculate_win_probability
              (get_or d "spec_match_score" (PInt 0))
              (get_or d2 "margin" (PInt 20))) as [wp|e] eqn:Hc.
  2:{ apply (Hcase (Raise e) _ (Htwo d)). exact Hready. }
  destruct (as_num (get_or d "spec_match_score" (PInt 0))) as [m|] eqn:Hm;
    eapply (Hcase _ _ (Htwo d)); exact Hready.
Qed.

Lemma agents_ready_sent u ta pa ps :
  agents_ready u ta pa -> agents_ready (sent u ps) ta pa.
Proof. intros [H1 H2]. split; assumption. Qed.

(** The outcome of the [try] body, the requests it adds, and what the body
    does when started again from the world it left. *)
Lemma run_analysis_try_again E rfp_text w :
  exists R L,
    request_shape L
    /\ fst (run_analysis_try E rfp_text w) = R
    /\ requests (snd (run_analysis_try E rfp_text w)) = requests w ++ L
    /\ fst (run_analysis_try E rfp_text
              (snd (run_analysis_try E rfp_text w))) = R.
Proof.
  destruct (tech_agent E w) as [[ta|e] w1] eqn:Ht.
  - set (p1 := TechnicalPrompt (sku_data ta) rfp_text).
    destruct (tech_agent_requests _ _ _ _ Ht) as (Hr1 & _ & Hta & _).
    specialize (Hta ta eq_refl).
    destruct (technical_value E p1) as [v|e] eqn:Hv.
    + destruct (pricing_agent E (sent w1 [p1])) as [[pa|e] w2] eqn:Hp.
      * destruct (run_analysis_try_built E rfp_text w ta w1 pa w2 v Ht Hv
                    Hp) as [Hready Heq].
        destruct (run_analysis_try_uniform E rfp_text ta pa)
          as (R & L & HL & _ & Hrun).
        exists R, L. rewrite Heq, (Hrun _ Hready).
        split; [exact HL|]. split; [reflexivity|]. split; [reflexivity|].
        cbn [snd]. rewrite (Hrun _ (agents_ready_sent _ _ _ L Hready)).
        reflexivity.
      * exists (Raise e), [p1].
        assert (Hrun : run_analysis_try E rfp_text w = (Raise e, w2)).
        { unfold run_analysis_try. unfold bind at 1. rewrite Ht.
          unfold bind at 1. rewrite analyze_specs_sent. fold p1.
          rewrite Hv. unfold bind at 1. rewrite Hp. reflexivity. }
        destruct (pricing_agent_requests _ _ _ _ Hp) as (Hr2 & Hta2 & _).
        cbn [sent requests _tech_agent] in Hr2, Hta2.
        rewrite Hrun. cbn [fst snd].
        split; [right; left; unfold p1; eauto|].
        split; [reflexivity|]. split; [congruence|].
        unfold run_analysis_try. unfold bind at 1.
        rewrite tech_agent_run, Hta2, Hta.
        unfold bind at 1. rewrite analyze_specs_sent. fold p1.
        rewrite Hv. unfold bind at 1. rewrite pricing_agent_sent.
        rewrite (pricing_agent_again _ _ _ _ Hp). reflexivity.
    + exists (Raise e), [p1].
      assert (Hrun : forall u w', tech_agent E u = (Ok ta, w') ->
                run_analysis_try E rfp_text u = (Raise e, sent w' [p1])).
      { intros u w' Hu. unfold run_analysis_try. unfold bind at 1.
        rewrite Hu. unfold bind at 1. rewrite analyze_specs_sent. fold p1.
        rewrite Hv. reflexivity. }
      rewrite (Hrun _ _ Ht). cbn [fst snd sent requests].
      split; [right; left; unfold p1; eauto|].
      split; [reflexivity|]. split; [congruence|].
      fold (sent w1 [p1]).
      erewrite Hrun; [reflexivity|].
      rewrite tech_agent_run. cbn [sent _tech_agent]. rewrite Hta.
      reflexivity.
  - exists (Raise e), [].
    assert (Hrun : run_analysis_try E rfp_text w = (Raise e, w1)).
    { unfold run_analysis_try. unfold bind at 1. rewrite Ht. reflexivity. }
    destruct (tech_agent_requests _ _ _ _ Ht) as (Hr1 & _).
    rewrite Hrun. cbn [fst snd].
    split; [left; reflexivity|]. split; [reflexivity|].
    split; [rewrite app_nil_r; exact Hr1|].
    unfold run_analysis_try. unfold bind at 1.
    rewrite (tech_agent_again _ _ _ _ Ht). reflexivity.
Qed.

Lemma run_analysis_main_requests E rfp_data w :
  exists l,
    requests (snd (run_analysis_main E rfp_data w)) = requests w ++ l
    /\ request_shape l.
Proof.
  rewrite run_analysis_main_run.
  destruct (rfp_text_of E rfp_data) as [text|e].
  - destruct (run_analysis_try_again E text w)
      as (R & L & HL & _ & Hreq & _).
    exists L. split; [|exact HL].
    destruct (run_analysis_try E text w) as [[r|e] w']; [exact Hreq|].
    destruct (print E (exn_text e)); exact Hreq.
  - exists []. split; [cbn; rewrite app_nil_r; reflexivity|left; reflexivity].
Qed.

(** X10: One run sends at most two requests: nothing, or the technical prompt,
    or the technical prompt followed by the pricing prompt; it never
    repeats a request and never prices before extracting. *)
Theorem at_most_two_requests (E : Env) (rfp_data : gmap pystr pyval)
    (check_constraints : bool) (w : world) :
  exists l,
    requests (snd (run_analysis E rfp_data check_constraints w))
    = requests w ++ l
    /\ request_shape l.
Proof.
  assert (Hnone : exists l, requests w = requests w ++ l /\ request_shape l)
    by (exists []; split; [rewrite app_nil_r; reflexivity|left; reflexivity]).
  rewrite run_analysis_run.
  destruct (announce E rfp_data); [|exact Hnone].
  destruct check_constraints; [|apply run_analysis_main_requests].
  destruct (check_qualification_constraints rfp_data) as [v|e];
    [|exact Hnone].
  destruct (qualified v); [apply run_analysis_main_requests|exact Hnone].
Qed.

Lemma run_analysis_main_again E rfp_data w :
  fst (run_analysis_main E rfp_data (snd (run_analysis_main E rfp_data w)))
  = fst (run_analysis_main E rfp_data w).
Proof.
  rewrite !run_analysis_main_run.
  destruct (rfp_text_of E rfp_data) as [text|e]; [|reflexivity].
  destruct (run_analysis_try_again E text w) as (R & L & _ & H1 & _ & H2).
  destruct (run_analysis_try E text w) as [[r|e] w'] eqn:Hrun;
    cbn [fst snd] in *; subst R.
  - destruct (run_analysis_try E text w') as [[r'|e'] w''];
      cbn [fst] in *; congruence.
  - destruct (print E (exn_text e)) eqn:Hpr; cbn [fst snd];
      destruct (run_analysis_try E text w') as [[r'|e'] w''];
      cbn [fst] in H2; try discriminate H2;
      injection H2 as ->; rewrite Hpr; reflexivity.
Qed.

(** X11: Running the analysis again on the same RFP, from the state the first
    run left (agents built or not, requests logged), returns the same
    result: what a run returns depends on the environment only. *)
Theorem run_analysis_again (E : Env) (rfp_data : gmap pystr pyval)
    (check_constraints : bool) (w : world) :
  fst (run_analysis E rfp_data check_constraints
         (snd (run_analysis E rfp_data check_constraints w)))
  = fst (run_analysis E rfp_data check_constraints w).
Proof.
  rewrite !run_analysis_run.
  destruct (announce E rfp_data); [|reflexivity].
  destruct check_constraints; [|apply run_analysis_main_again].
  destruct (check_qualification_constraints rfp_data) as [v|e];
    [|reflexivity].
  destruct (qualified v); [apply run_analysis_main_again|reflexivity].
Qed.

(** ** What the callers do with the result *)

(** X12: Every key the callers read from a result that [run_analysis]
    returns is present in it, so their defaults are never used: what
    [analyze_rfp] and the batch jobs store is that result without its
    [matched_skus]. *)
Theorem update_data_is_result (E : Env) (rfp_data : gmap pystr pyval)
    (check_constraints : bool) (w : world) (r : gmap pystr pyval)
    (w' : world) :
  run_analysis E rfp_data check_constraints w = (Ok r, w') ->
  update_data r = delete (str "matched_skus") r.
Proof.
  intros Hrun.
  destruct (run_analysis_ok _ _ _ _ _ _ Hrun) as [(_ & _ & -> & _)|[_ Hm]];
    [vm_compute; reflexivity|].
  destruct (run_analysis_main_ok _ _ _ _ _ Hm)
    as (text & _ & [Htry|[_ ->]]); [|vm_compute; reflexivity].
  destruct (run_analysis_try_ok _ _ _ _ _ Htry)
    as (sms & ex & sk & pr & wp & rec & sugg & -> & _).
  vm_compute. reflexivity.
Qed.

Lemma update_data_is_result_witness :
  let r := analysis_result (PInt 80) (PDict ∅) (PList [])
             pricing_reply_value (NFloat (F64.of_Z 71))
             (tier_label SELECT, tier_reason SELECT) [suggest_aligned] in
  update_data r = delete (str "matched_skus") r.
Proof.
  intros r.
  apply (update_data_is_result
           (scripted_env (Ok tech_reply) (Ok pricing_reply))
           (rfp_with_budget (PInt 90000)) true ready_world r
           (snd (run_analysis
                   (scripted_env (Ok tech_reply) (Ok pricing_reply))
                   (rfp_with_budget (PInt 90000)) true ready_world))).
  vm_compute. reflexivity.
Defined.

Lemma num_ge_int_mono a c c' :
  (c' <= c)%Z -> num_ge a (NInt c) = true -> num_ge a (NInt c') = true.
Proof.
  intros Hc. unfold num_ge. pose proof F64Facts.unit_inv_pos as HU.
  destruct a as [n|x]; cbn [num_compare].
  - destruct (Z.compare_spec n c); try discriminate;
      destruct (Z.compare_spec n c'); try reflexivity; lia.
  - destruct x as [|s| |k]; try discriminate; try (intros; assumption);
      cbn [F64.units].
    + destruct (Z.compare_spec 0 (c * F64.unit_inv)); try discriminate;
        destruct (Z.compare_spec 0 (c' * F64.unit_inv));
        try reflexivity; nia.
    + destruct (Z.compare_spec k (c * F64.unit_inv)); try discriminate;
        destruct (Z.compare_spec k (c' * F64.unit_inv));
        try reflexivity; nia.
Qed.

Lemma tier_positive wp m :
  match tier_of wp m with SELECT | CONSIDER => true | _ => false end
  = num_ge wp (NInt 50) && num_ge m (NInt 60).
Proof.
  unfold tier_of.
  destruct (num_ge wp (NInt 70)) eqn:W70;
    destruct (num_ge m (NInt 75)) eqn:M75; cbn [andb];
    try (apply (num_ge_int_mono _ _ 50) in W70; [|lia]);
    try (apply (num_ge_int_mono _ _ 60) in M75; [|lia]);
    try (rewrite W70, M75; reflexivity);
    destruct (num_ge wp (NInt 50)), (num_ge m (NInt 60));
    cbn [andb]; try reflexivity;
    destruct (num_ge wp (NInt 30)); reflexivity.
Qed.

(** X13: [analyze_rfp] creates a demo request exactly when the win probability
    is at least 50 and the match score at least 60 (the tiers SELECT and
    CONSIDER); it never does for a rejected RFP or for the fallback, and
    the test does not raise on a result that [run_analysis] returns. *)
Theorem demo_request_rule :
  (forall sms ex sk pr wp m,
     as_num sms = Some m ->
     exists rec sugg,
       recommend wp sms = Ok rec
       /\ make_suggestions wp sms = Ok sugg
       /\ wants_demo (analysis_result sms ex sk pr wp rec sugg)
          = Ok (num_ge wp (NInt 50) && num_ge m (NInt 60)))
  /\ (forall v, wants_demo (rejected_result v) = Ok false)
  /\ wants_demo fallback_result = Ok false
  /\ (forall E rfp_data check_constraints w r w',
        run_analysis E rfp_data check_constraints w = (Ok r, w') ->
        exists b, wants_demo r = Ok b).
Proof.
  split; [|split; [|split]].
  - intros sms ex sk pr wp m Hm.
    eexists _, _. split; [apply (recommend_num _ _ _ Hm)|].
    split; [apply (make_suggestions_num _ _ _ Hm)|].
    rewrite <- tier_positive.
    destruct (tier_of wp m); reflexivity.
  - intros v. reflexivity.
  - reflexivity.
  - intros E rfp_data cc w r w' Hrun.
    destruct (run_analysis_ok _ _ _ _ _ _ Hrun)
      as [(_ & _ & -> & _)|[_ Hm]]; [eexists; reflexivity|].
    destruct (run_analysis_main_ok _ _ _ _ _ Hm)
      as (text & _ & [Htry|[_ ->]]); [|eexists; reflexivity].
    destruct (run_analysis_try_ok _ _ _ _ _ Htry)
      as (sms & ex & sk & pr & wp & rec & sugg & -> & _).
    eexists. reflexivity.
Qed.

Lemma demo_request_rule_witness :
  exists rec sugg,
    recommend (NFloat (F64.of_Z 71)) (PInt 80) = Ok rec
    /\ make_suggestions (NFloat (F64.of_Z 71)) (PInt 80) = Ok sugg
    /\ wants_demo
         (analysis_result (PInt 80) (PDict ∅) (PList [])
            pricing_reply_value (NFloat (F64.of_Z 71)) rec sugg)
       = Ok (num_ge (NFloat (F64.of_Z 71)) (NInt 50)
             && num_ge (NInt 80) (NInt 60)).
Proof.
  destruct demo_request_rule as (Hdemo & _).
  exact (Hdemo (PInt 80) (PDict ∅) (PList []) pricing_reply_value
           (NFloat (F64.of_Z 71)) (NInt 80) eq_refl).
Defined.

(** ** Cleaning twice *)

Lemma replace_absent old new s :
  occurs old s = false -> replace old new s = s.
Proof.
  unfold replace. induction s as [|c s IH]; [reflexivity|].
  rewrite occurs_cons. intros H. apply orb_false_elim in H as [Hp Ho].
  cbn [replace_from]. rewrite Hp. f_equal. apply IH, Ho.
Qed.

Lemma lstrip_fixed s :
  (forall c rest, s = c :: rest -> isspace c = false) -> lstrip s = s.
Proof.
  destruct s as [|c s]; [reflexivity|]. intros H. simpl.
  rewrite (H c s eq_refl). reflexivity.
Qed.

Lemma strip_fixed s :
  (forall c rest, s = c :: rest -> isspace c = false) ->
  (forall init c, s = init ++ [c] -> isspace c = false) ->
  strip s = s.
Proof.
  intros Hhead Hlast. unfold strip. rewrite (lstrip_fixed s Hhead).
  unfold rstrip. rewrite lstrip_fixed; [apply rev_involutive|].
  intros c rest Hrev. apply (Hlast (rev rest) c).
  rewrite <- (rev_involutive s), Hrev. reflexivity.
Qed.

(** X14: Cleaning is idempotent, and it leaves alone a text that has no fence
    and no whitespace at either end. *)
Theorem clean_idempotent (text : pystr) :
  clean (clean text) = clean text
  /\ (occurs fence text = false -> strip text = text -> clean text = text).
Proof.
  assert (Hfix : forall t, occurs fence t = false -> clean t = strip t).
  { intros t Hf. unfold clean.
    assert (Hj : occurs fence_json t = false).
    { destruct (occurs fence_json t) eqn:Hj; [|reflexivity].
      apply occurs_fence_json in Hj. congruence. }
    rewrite (replace_absent _ _ _ Hj), (replace_absent _ _ _ Hf).
    reflexivity. }
  split.
  - rewrite (Hfix (clean text) (clean_fence_free text)).
    apply strip_fixed.
    + intros c rest H. apply (strip_head _ _ _ H).
    + intros init c H. apply (strip_last _ _ _ H).
  - intros Hf Hs. rewrite (Hfix text Hf). exact Hs.
Qed.

Lemma clean_idempotent_witness : clean tech_reply = tech_reply.
Proof.
  apply (clean_idempotent tech_reply); reflexivity.
Defined.

(** ** Missing and unreadable repository files *)

(** X15: With both repository files missing and a working model factory, the
    first run builds the technical agent on the placeholder text and sends
    the technical prompt with the placeholder in place of the catalogue: a
    missing file does not stop the analysis. The pricing agent is built on
    its placeholder as soon as the technical stage has returned. *)
Theorem missing_files_still_analysed (E : Env)
    (rfp_data : gmap pystr pyval) (rfp_text : pystr) (m : unit) :
  new_model E = Ok m ->
  (forall f, read_file E f = Raise FileNotFoundError) ->
  rfp_text_of E rfp_data = Ok rfp_text ->
  let ta := {| sku_data := not_found_text (str "sku_repository.txt") |} in
  let pa :=
    {| pricing_data := not_found_text (str "pricing_repository.txt") |} in
  let p1 := TechnicalPrompt (sku_data ta) rfp_text in
  let w' := snd (run_analysis_main E rfp_data orchestrator) in
  _tech_agent w' = Some ta
  /\ (forall v, technical_value E p1 = Ok v -> _pricing_agent w' = Some pa)
  /\ (forall e, technical_value E p1 = Raise e -> _pricing_agent w' = None)
  /\ exists rest, requests w' = p1 :: rest.
Proof.
  intros Hm Hfiles Htext ta pa p1.
  assert (Ht : tech_agent E orchestrator
               = (Ok ta, {| _model := Some m; _tech_agent := Some ta;
                            _pricing_agent := None; requests := [] |})).
  { rewrite tech_agent_run, model_run. cbn [orchestrator _tech_agent _model].
    rewrite Hm. unfold TechnicalAgent_init, load_repository_file.
    rewrite Hfiles. reflexivity. }
  assert (Hp : pricing_agent E
                 (sent {| _model := Some m; _tech_agent := Some ta;
                          _pricing_agent := None; requests := [] |} [p1])
               = (Ok pa, {| _model := Some m; _tech_agent := Some ta;
                            _pricing_agent := Some pa;
                            requests := [p1] |})).
  { rewrite pricing_agent_run, model_run. cbn [sent _pricing_agent _model].
    unfold PricingAgent_init, load_repository_file.
    rewrite Hfiles. reflexivity. }
  intros w'. unfold w'. rewrite run_analysis_main_run, Htext.
  destruct (technical_value E p1) as [v|e] eqn:Hv.
  - destruct (run_analysis_try_built E rfp_text orchestrator
                ta _ pa _ v Ht Hv Hp) as [Hready Heq].
    destruct (run_analysis_try_uniform E rfp_text ta pa)
      as (R & L & _ & [rest ->] & Hrun).
    rewrite (Hrun _ Hready) in Heq. rewrite Heq.
    destruct R as [r|e]; [|destruct (print E (exn_text e))];
      cbn; repeat split; eauto; discriminate.
  - assert (Hrun : run_analysis_try E rfp_text orchestrator
                   = (Raise e,
                      sent {| _model := Some m; _tech_agent := Some ta;
                              _pricing_agent := None; requests := [] |}
                        [p1])).
    { unfold run_analysis_try. unfold bind at 1. rewrite Ht.
      unfold bind at 1. rewrite analyze_specs_sent. fold p1.
      rewrite Hv. reflexivity. }
    rewrite Hrun.
    destruct (print E (exn_text e));
      cbn; repeat split; eauto; discriminate.
Qed.

Lemma missing_files_still_analysed_witness :
  _tech_agent
    (snd (run_analysis_main (sample_env (Ok (str "{}")))
            (rfp_with_budget (PInt 90000)) orchestrator))
  = Some {| sku_data := not_found_text (str "sku_repository.txt") |}.
Proof.
  apply (missing_files_still_analysed (sample_env (Ok (str "{}")))
           (rfp_with_budget (PInt 90000)) sample_rfp_text tt); reflexivity.
Defined.

(** X16: A repository file that cannot be read for another reason than being
    missing makes the run fall back before any request is sent, and no
    agent is kept: the next run reads the file again. (The text of the
    read error is the interpreter's and can be printed.) *)
Theorem unreadable_file_falls_back (E : Env) (rfp_data : gmap pystr pyval)
    (rfp_text : pystr) (w : world) (e : exn) :
  _tech_agent w = None ->
  _model w <> None \/ (exists m, new_model E = Ok m) ->
  rfp_text_of E rfp_data = Ok rfp_text ->
  read_file E (str "sku_repository.txt") = Raise e ->
  e <> FileNotFoundError ->
  printable E (exn_text e) = true ->
  exists w',
    run_analysis_main E rfp_data w = (Ok fallback_result, w')
    /\ requests w' = requests w
    /\ _tech_agent w' = None.
Proof.
  intros Hta Hmodel Htext Hread Hne Hprint.
  assert (Hinit : TechnicalAgent_init E = Raise e).
  { unfold TechnicalAgent_init, load_repository_file. rewrite Hread.
    destruct e; try reflexivity. congruence. }
  assert (Ht : exists w', tech_agent E w = (Raise e, w')).
  { rewrite tech_agent_run, Hta, model_run.
    destruct (_model w) as [m|] eqn:Hm.
    - rewrite Hinit. eauto.
    - destruct Hmodel as [Hc|[m Hn]]; [congruence|].
      rewrite Hn, Hinit. eauto. }
  destruct Ht as [w' Ht]. exists w'.
  destruct (tech_agent_requests _ _ _ _ Ht) as (Hr & _ & _ & Hnone).
  split; [|split; [exact Hr|rewrite (Hnone e eq_refl); exact Hta]].
  apply (run_analysis_main_fallback _ _ rfp_text _ e _ Htext);
    [|exact Hprint].
  unfold run_analysis_try. unfold bind at 1. rewrite Ht. reflexivity.
Qed.

Lemma unreadable_file_falls_back_witness :
  fst (run_analysis_main locked_env (rfp_with_budget (PInt 90000))
         orchestrator)
  = Ok fallback_result.
Proof.
  destruct (unreadable_file_falls_back locked_env
              (rfp_with_budget (PInt 90000)) sample_rfp_text orchestrator
              (OtherError "PermissionError"))
    as (w' & Hrun & _);
    [reflexivity|right; exists tt; reflexivity|reflexivity|reflexivity
    |discriminate|reflexivity|].
  rewrite Hrun. reflexivity.
Defined.

(** ** The gate as the callers reach it *)

(** X17: The callers always pass a budget key, so the gate rejects their RFP
    exactly when the stored budget is a number at most 0: an RFP stored
    without a budget ([None]) is analysed. *)
Theorem caller_gate (title description approximate_budget : pyval) :
  let rfp := caller_rfp title description approximate_budget in
  (check_qualification_constraints rfp = Ok verdict_rejected
   <-> exists a, as_num approximate_budget = Some a
                 /\ num_le a (NInt 0) = true)
  /\ (approximate_budget = PNone ->
      check_qualification_constraints rfp = Ok verdict_fail_open).
Proof.
  intros rfp.
  assert (Hb : budget_of rfp = approximate_budget) by reflexivity.
  split.
  - destruct (as_num approximate_budget) as [a|] eqn:Ha.
    + rewrite (check_number rfp a) by (rewrite Hb; exact Ha).
      destruct (num_le a (NInt 0)) eqn:Hle; split.
      * intros _. eauto.
      * reflexivity.
      * discriminate.
      * intros (a' & [= <-] & Hle'). congruence.
    + destruct (check_not_number rfp) as [_ ->];
        [rewrite Hb; exact Ha|].
      split; [discriminate|]. intros (a & Hc & _). discriminate Hc.
  - intros ->. apply (check_not_number rfp). reflexivity.
Qed.

(** ** Tiers and suggestions together *)

Lemma num_ge_not_lt a c c' :
  (c' <= c)%Z -> num_ge a (NInt c) = true -> num_lt a (NInt c') = false.
Proof.
  intros Hc H. apply (num_ge_int_mono _ _ c' Hc) in H.
  unfold num_ge, num_lt in *.
  destruct (num_compare a (NInt c')) as [[]|]; congruence.
Qed.

Lemma num_not_ge_lt a c c' :
  (c <= c')%Z -> num_ge a (NInt c) = false ->
  num_lt a (NInt c') = true \/ num_compare a (NInt c') = None.
Proof.
  intros Hc. unfold num_ge, num_lt.
  pose proof F64Facts.unit_inv_pos as HU.
  destruct a as [n|x]; cbn [num_compare].
  - destruct (Z.compare_spec n c); try discriminate. intros _.
    destruct (Z.compare_spec n c'); auto; lia.
  - destruct x as [|s| |k]; cbn [F64.units].
    + auto.
    + destruct s; [auto|discriminate].
    + destruct (Z.compare_spec 0 (c * F64.unit_inv)); try discriminate.
      intros _.
      destruct (Z.compare_spec 0 (c' * F64.unit_inv)); auto; nia.
    + destruct (Z.compare_spec k (c * F64.unit_inv)); try discriminate.
      intros _.
      destruct (Z.compare_spec k (c' * F64.unit_inv)); auto; nia.
Qed.

(** X18: The SELECT tier always comes with the single suggestion that the
    proposal is well aligned, and never with an improvement suggestion; a
    win probability that is a number below 30 (the REJECT tier) always
    comes with the suggestion to review the pricing. *)
Theorem tier_and_suggestions (win_probability m : num) :
  (tier_of win_probability m = SELECT ->
     suggestions_of win_probability m = [suggest_aligned])
  /\ (tier_of win_probability m = REJECT ->
      num_compare win_probability (NInt 30) <> None ->
      In suggest_pricing (suggestions_of win_probability m)).
Proof.
  unfold tier_of, suggestions_of. split.
  - destruct (num_ge win_probability (NInt 70)) eqn:W70;
      destruct (num_ge m (NInt 75)) eqn:M75; cbn [andb].
    + intros _.
      rewrite (num_ge_not_lt _ 70 60 ltac:(lia) W70).
      rewrite (num_ge_not_lt _ 75 70 ltac:(lia) M75). reflexivity.
    + destruct (_ && _); [discriminate|].
      destruct (num_ge win_probability (NInt 30)); discriminate.
    + destruct (_ && _); [discriminate|].
      destruct (num_ge win_probability (NInt 30)); discriminate.
    + destruct (_ && _); [discriminate|].
      destruct (num_ge win_probability (NInt 30)); discriminate.
  - destruct (_ && _); [discriminate|].
    destruct (_ && _); [discriminate|].
    destruct (num_ge win_probability (NInt 30)) eqn:W30; [discriminate|].
    intros _ Hcmp.
    assert (Hlt : num_lt win_probability (NInt 60) = true).
    { destruct (num_not_ge_lt _ 30 60 ltac:(lia) W30) as [H|H];
        [exact H|].
      exfalso. apply Hcmp. clear - H.
      destruct win_probability as [n|x]; [discriminate H|].
      destruct x; try discriminate H; reflexivity. }
    rewrite Hlt. apply in_or_app. right. left. reflexivity.
Qed.

Lemma tier_and_suggestions_witness :
  suggestions_of (NFloat (F64.of_Z 71)) (NInt 80) = [suggest_aligned]
  /\ In suggest_pricing (suggestions_of (NInt 0) (NInt 0)).
Proof.
  split.
  - refine (proj1 (tier_and_suggestions (NFloat (F64.of_Z 71)) (NInt 80)) _).
    vm_compute. reflexivity.
  - refine (proj2 (tier_and_suggestions (NInt 0) (NInt 0)) _ _);
      [vm_compute; reflexivity|discriminate].
Defined.
